(** * libobmm: the userspace client of the OBMM control device

    A shallow embedding of [libobmm.c] and [vendor_adaptor.c] and the
    properties of the command marshaller, the topology resolver, the vendor
    payload builder and the import validator.

    Conventions of the embedding.
    - C integers are [Z]; where the C code narrows or wraps, the wrap is
      written out ([u64], [s32]).  The ABI is LP64, little-endian.
    - A pointer argument is an [option]: [None] is [NULL].  An in/out object
      is passed in and returned.
    - [errno], the memoised device descriptor and the sequence of calls
      that leave the process (device, sysfs, allocator) live in [world];
      library code runs in the state monad [M].
    - The kernel device, sysfs and the allocator are not part of the
      library: they are the fields of [env], and every theorem quantifies
      over them.
    - [pr_err] only prints to stderr and is left out. *)

From Stdlib Require Import ZArith List String Ascii Bool Lia DecimalString
  DecimalPos.
Import ListNotations.
Local Open Scope Z_scope.

(* ================================================================== *)
(** ** Machine integers *)

Definition u64 (x : Z) : Z := x mod 2 ^ 64.

(** Conversion to [int]: two's complement on 32 bits. *)
Definition s32 (x : Z) : Z :=
  let y := x mod 2 ^ 32 in if y <? 2 ^ 31 then y else y - 2 ^ 32.

Definition INT_MAX : Z := 2147483647.
Definition INT_MIN : Z := -2147483648.
Definition LONG_MAX : Z := 9223372036854775807.
Definition LONG_MIN : Z := -9223372036854775808.
Definition UINT8_MAX : Z := 255.

(** [a << n] on [int].  ISO C defines it when [0 <= n < 32] and the result
    fits; outside that the model takes what the LP64 targets' compilers
    emit: the count is taken modulo 32 and the result wraps to 32 bits. *)
Definition shl_int (a n : Z) : Z := s32 (Z.shiftl a (n mod 32)).

(* ================================================================== *)
(** ** errno values *)

Definition ENOENT : Z := 2.
Definition EIO : Z := 5.
Definition ENOMEM : Z := 12.
Definition ENODEV : Z := 19.
Definition EINVAL : Z := 22.

(* ================================================================== *)
(** ** libc: [strtol] with base 0, [dirname], [snprintf] truncation *)

Module Libc.

Definition code (c : ascii) : Z := Z.of_N (N_of_ascii c).

Definition isspace (c : ascii) : bool :=
  (code c =? 32) || ((9 <=? code c) && (code c <=? 13)).

(** Value of a digit in any base up to 36. *)
Definition digit (c : ascii) : option Z :=
  let n := code c in
  if (48 <=? n) && (n <=? 57) then Some (n - 48)
  else if (97 <=? n) && (n <=? 122) then Some (n - 87)
  else if (65 <=? n) && (n <=? 90) then Some (n - 55)
  else None.

Definition digit_in (base : Z) (c : ascii) : option Z :=
  match digit c with
  | Some d => if d <? base then Some d else None
  | None => None
  end.

Fixpoint skip_spaces (s : list ascii) : list ascii :=
  match s with
  | c :: s' => if isspace c then skip_spaces s' else s
  | [] => []
  end.

(** Longest prefix of digits of [base]: its value, and whether any digit
    was consumed. *)
Fixpoint scan_digits (base : Z) (s : list ascii) (acc : Z) (any : bool)
  : Z * bool :=
  match s with
  | c :: s' =>
      match digit_in base c with
      | Some d => scan_digits base s' (acc * base + d) true
      | None => (acc, any)
      end
  | [] => (acc, any)
  end.

Definition is_x (c : ascii) : bool := (code c =? 120) || (code c =? 88).

Definition clamp_long (v : Z) : Z :=
  if LONG_MAX <? v then LONG_MAX else if v <? LONG_MIN then LONG_MIN else v.

(** [strtol(str, &end, 0)].  [None] stands for [end == str] (no conversion);
    [Some v] is the returned value, clamped to [long] as the C library
    does on overflow. *)
Definition strtol (str : list ascii) : option Z :=
  let s1 := skip_spaces str in
  let '(neg, s2) :=
    match s1 with
    | c :: s' =>
        if code c =? 45 then (true, s') else
        if code c =? 43 then (false, s') else (false, s1)
    | [] => (false, s1)
    end in
  let '(base, s3) :=
    match s2 with
    | z :: x :: h :: s' =>
        if (code z =? 48) && is_x x &&
           match digit_in 16 h with Some _ => true | None => false end
        then (16, h :: s')
        else if code z =? 48 then (8, s2) else (10, s2)
    | z :: _ => if code z =? 48 then (8, s2) else (10, s2)
    | [] => (10, s2)
    end in
  let '(v, any) := scan_digits base s3 0 false in
  if any then Some (clamp_long (if neg then - v else v)) else None.

Fixpoint drop_while_end (p : ascii -> bool) (s : list ascii) : list ascii :=
  match s with
  | [] => []
  | c :: s' =>
      match drop_while_end p s' with
      | [] => if p c then [] else [c]
      | r => c :: r
      end
  end.

Definition is_slash (c : ascii) : bool := code c =? 47.

(** POSIX [dirname]: drop trailing slashes, the last component, and the
    slashes before it. *)
Definition dirname (path : string) : string :=
  let s := list_ascii_of_string path in
  let s1 := drop_while_end is_slash s in
  let s2 := drop_while_end (fun c => negb (is_slash c)) s1 in
  let s3 := drop_while_end is_slash s2 in
  match s3 with
  | [] => match s2 with [] => "." | _ => "/" end
  | _ => string_of_list_ascii s3
  end.

(** What [snprintf(buf, size, ...)] leaves in [buf] when the formatted text
    is [full]: at most [size - 1] characters. *)
Definition snprintf_buf (size : nat) (full : string) : string :=
  substring 0 (size - 1) full.

(** [%d] *)
Definition fmt_d (n : Z) : string := NilZero.string_of_int (Z.to_int n).

End Libc.

(* ================================================================== *)
(** ** Data model: [libobmm.h] *)

Definition OBMM_INVALID_MEMID : Z := 0.
Definition NUMA_NO_NODE : Z := -1.

(** [struct obmm_mem_desc].  The endpoint ids are arrays of 16 bytes. *)
Record obmm_mem_desc := mk_mem_desc {
  md_addr : Z;
  md_length : Z;
  md_seid : list Z;
  md_deid : list Z;
  md_tokenid : Z;
  md_scna : Z;
  md_dcna : Z;
  md_priv_len : Z;
  md_priv : list Z
}.

(** [struct obmm_preimport_info] *)
Record obmm_preimport_info := mk_preimport_info {
  pi_pa : Z;
  pi_length : Z;
  pi_base_dist : Z;
  pi_numa_id : Z;
  pi_seid : list Z;
  pi_deid : list Z;
  pi_scna : Z;
  pi_dcna : Z;
  pi_priv_len : Z;
  pi_priv : list Z
}.

(* ================================================================== *)
(** ** Vendor payload: [vendor_adaptor.c] *)

Inductive hisi_ummu_tdev_version := HISI_TDEV_INFO_V1.

(** [struct hisi_ummu_tdev_info] (the union has the one member [v1]). *)
Record hisi_ummu_tdev_info := mk_tdev_info {
  ver : hisi_ummu_tdev_version;
  ummu_idx_mask : Z;
  on_chip : bool
}.

(** [sizeof(struct hisi_ummu_tdev_info)] on LP64: the enum (4) padded to 8,
    the [unsigned long] (8), the [bool] (1) padded to 8. *)
Definition sizeof_hisi_ummu_tdev_info : Z := 24.

Record ub_bus_ctl_node := mk_ctl_node {
  ummu_mapping : Z;
  numa_id : Z;
  valid : bool
}.

Definition EID_SIZE : nat := 16.
Definition MAX_CONTROLLERS : nat := 8.
Definition MAX_PATH : nat := 256.
Definition MAX_CHAR : nat := 64.

Definition g_invalid_eid : list Z := repeat 0 16.

(* ================================================================== *)
(** ** The kernel interface [<ub/obmm.h>]

    The header is not part of the library sources.  Its constants are the
    fields of [uapi]; its command structures are rebuilt from the fields
    the library reads or writes, with endpoint ids of [EID_SIZE] bytes.  A
    pointer to input bytes ([priv], [vendor_info]) is modelled by the bytes
    it points to: the device reads through it and does not write there. *)

Record uapi := mk_uapi {
  OBMM_IMPORT_FLAG_NUMA_REMOTE : Z;
  OBMM_IMPORT_FLAG_PREIMPORT : Z;
  OBMM_MAX_LOCAL_NUMA_NODES : nat;
  OBMM_MAX_VENDOR_LEN : Z
}.

Inductive query_key := OBMM_QUERY_BY_PA | OBMM_QUERY_BY_ID_OFFSET.

Record obmm_cmd_addr_query := mk_cmd_addr_query {
  cq_key_type : query_key;
  cq_pa : Z;
  cq_mem_id : Z;
  cq_offset : Z
}.

Record obmm_cmd_export_pid := mk_cmd_export_pid {
  cp_va : Z;
  cp_length : Z;
  cp_pid : Z;
  cp_flags : Z;
  cp_priv_len : Z;
  cp_priv : list Z;
  cp_deid : list Z;
  cp_vendor_info : option hisi_ummu_tdev_info;
  cp_vendor_len : Z;
  cp_pxm_numa : Z;
  cp_uba : Z;
  cp_tokenid : Z;
  cp_mem_id : Z
}.

Record obmm_cmd_export := mk_cmd_export {
  ce_size : list Z;
  ce_length : Z;
  ce_flags : Z;
  ce_priv_len : Z;
  ce_priv : list Z;
  ce_deid : list Z;
  ce_vendor_info : option hisi_ummu_tdev_info;
  ce_vendor_len : Z;
  ce_pxm_numa : Z;
  ce_uba : Z;
  ce_tokenid : Z;
  ce_mem_id : Z
}.

Record obmm_cmd_import := mk_cmd_import {
  ci_addr : Z;
  ci_length : Z;
  ci_tokenid : Z;
  ci_scna : Z;
  ci_dcna : Z;
  ci_priv_len : Z;
  ci_priv : list Z;
  ci_flags : Z;
  ci_base_dist : Z;
  ci_deid : list Z;
  ci_seid : list Z;
  ci_mem_id : Z;
  ci_numa_id : Z
}.

Record obmm_cmd_unexport := mk_cmd_unexport {
  cu_mem_id : Z;
  cu_flags : Z
}.

Record obmm_cmd_unimport := mk_cmd_unimport {
  cn_mem_id : Z;
  cn_flags : Z
}.

Record obmm_cmd_preimport := mk_cmd_preimport {
  cr_pa : Z;
  cr_length : Z;
  cr_base_dist : Z;
  cr_numa_id : Z;
  cr_scna : Z;
  cr_dcna : Z;
  cr_priv_len : Z;
  cr_priv : list Z;
  cr_flags : Z;
  cr_deid : list Z;
  cr_seid : list Z
}.

Inductive ioctl_req :=
| OBMM_CMD_ADDR_QUERY
| OBMM_CMD_EXPORT_PID
| OBMM_CMD_EXPORT
| OBMM_CMD_IMPORT
| OBMM_CMD_UNEXPORT
| OBMM_CMD_UNIMPORT
| OBMM_CMD_DECLARE_PREIMPORT
| OBMM_CMD_UNDECLARE_PREIMPORT.

(* ================================================================== *)
(** ** The world outside the library *)

(** A call that leaves the process. *)
Inductive event :=
| EvOpen                                   (* open("/dev/obmm", O_RDWR) *)
| EvIoctl (fd : Z) (req : ioctl_req) (ret : Z)
| EvGlob (pattern : string)
| EvFopen (path : string)
| EvCalloc
| EvFree.

(** What an [ioctl] answers: its return value, the [errno] it leaves when
    that is negative, and the command structure as the device left it. *)
Record ioctl_reply (C : Type) := mk_reply {
  io_ret : Z;
  io_errno : Z;
  io_cmd : C
}.
Arguments mk_reply {C}.
Arguments io_ret {C}.
Arguments io_errno {C}.
Arguments io_cmd {C}.

Record env := mk_env {
  (* sysfs *)
  sys_glob : string -> option (list string); (* None: glob() returns nonzero *)
  sys_file : string -> option string;        (* None: fopen() fails *)
  (* libc: errno after a library call, from errno before it *)
  lib_errno : event -> Z -> Z;
  calloc_ok : bool;
  (* the control device *)
  dev_open : Z * Z;                          (* descriptor, errno on failure *)
  dev_addr_query : Z -> obmm_cmd_addr_query -> ioctl_reply obmm_cmd_addr_query;
  dev_export_pid : Z -> obmm_cmd_export_pid -> ioctl_reply obmm_cmd_export_pid;
  dev_export : Z -> obmm_cmd_export -> ioctl_reply obmm_cmd_export;
  dev_import : Z -> obmm_cmd_import -> ioctl_reply obmm_cmd_import;
  dev_unexport : Z -> obmm_cmd_unexport -> ioctl_reply obmm_cmd_unexport;
  dev_unimport : Z -> obmm_cmd_unimport -> ioctl_reply obmm_cmd_unimport;
  dev_declare_preimport :
    Z -> obmm_cmd_preimport -> ioctl_reply obmm_cmd_preimport;
  dev_undeclare_preimport :
    Z -> obmm_cmd_preimport -> ioctl_reply obmm_cmd_preimport
}.

Record world := mk_world {
  errno : Z;
  obmm_dev_fd : Z;        (* the static of obmm_dev_get_fd, -1 at start *)
  trace : list event      (* oldest first *)
}.

Definition initial_world : world := mk_world 0 (-1) [].

(** *** The state monad of library code *)

Definition M (A : Type) : Type := world -> A * world.

Definition ret {A} (a : A) : M A := fun w => (a, w).

Definition bind {A B} (m : M A) (k : A -> M B) : M B :=
  fun w => let '(a, w1) := m w in k a w1.

Notation "x <- m ;; k" := (bind m (fun x => k))
  (at level 61, m at next level, right associativity).
Notation "m ;;; k" := (bind m (fun _ => k))
  (at level 61, right associativity).

Definition set_errno (e : Z) : M unit :=
  fun w => (tt, mk_world e (obmm_dev_fd w) (trace w)).

Definition get_errno : M Z := fun w => (errno w, w).

(** A library call: it is recorded, and it may leave anything in [errno]. *)
Definition lib_call (E : env) (ev : event) : M unit :=
  fun w => (tt, mk_world (lib_errno E ev (errno w)) (obmm_dev_fd w)
                         (trace w ++ [ev])).

(** [ioctl(fd, req, &cmd)] answered by the device function [dev]. *)
Definition ioctl {C} (req : ioctl_req) (dev : Z -> C -> ioctl_reply C)
    (fd : Z) (cmd : C) : M (Z * C) :=
  fun w =>
    let r := dev fd cmd in
    ((io_ret r, io_cmd r),
     mk_world (if io_ret r <? 0 then io_errno r else errno w)
              (obmm_dev_fd w)
              (trace w ++ [EvIoctl fd req (io_ret r)])).

(* ================================================================== *)
(** ** [vendor_adaptor.c] *)

Fixpoint bytes_eqb (a b : list Z) : bool :=
  match a, b with
  | [], [] => true
  | x :: a', y :: b' => (x =? y) && bytes_eqb a' b'
  | _, _ => false
  end.

(** [memcmp(a, b, n) == 0] *)
Definition memcmp_eq (n : nat) (a b : list Z) : bool :=
  bytes_eqb (firstn n a) (firstn n b).

(** One event stands for the whole of fopen, fread, fclose and strtol.
    [-1] is the error value. *)
Definition read_int_from_file (E : env) (path : string) : M Z :=
  lib_call E (EvFopen path) ;;;
  match sys_file E path with
  | None => ret (-1)
  | Some content =>
      let str := firstn (MAX_CHAR - 1) (list_ascii_of_string content) in
      if (List.length str =? 0)%nat then ret (-1)
      else
        match Libc.strtol str with
        | None => ret (-1)
        | Some r =>
            if (INT_MAX <? r) || (r <? INT_MIN) then ret (-1) else ret r
        end
  end.

Definition get_ubc_attr (E : env) (ubc_path attr : string) : M Z :=
  let full := (ubc_path ++ "/" ++ attr)%string in
  if Z.of_nat (String.length full) <=? 0 then ret (-1)
  else read_int_from_file E (Libc.snprintf_buf MAX_PATH full).

Definition ubc_pattern (ubc_index : Z) : string :=
  Libc.snprintf_buf MAX_PATH
    ("/sys/devices/ub_bus_controller" ++ Libc.fmt_d ubc_index ++ "/*/ubc").

(** [inl e]: the function returns [e] and leaves the buffer alone;
    [inr p]: it returns 0 with [p] in [ubc_path]. *)
Definition get_ubc_path (E : env) (ubc_index : Z) (path_len : nat)
  : M (Z + string) :=
  lib_call E (EvGlob (ubc_pattern ubc_index)) ;;;
  match sys_glob E (ubc_pattern ubc_index) with
  | None => ret (inl ENODEV)
  | Some [] => ret (inl ENODEV)
  | Some (p :: _) =>
      let glob_path := Libc.dirname p in
      if (path_len <=? String.length glob_path)%nat then ret (inl EINVAL)
      else ret (inr (Libc.snprintf_buf path_len glob_path))
  end.

(** [uint8_t sysfs_eid[EID_SIZE] = {}; *(unsigned int* )sysfs_eid = v;] *)
Definition sysfs_eid_of (v : Z) : list Z :=
  let u := v mod 2 ^ 32 in
  [u mod 256; (u / 256) mod 256; (u / 65536) mod 256; (u / 16777216) mod 256]
  ++ repeat 0 12.

(** The loop of [get_ubc_by_eid] from slot [i] with [n] slots left, and
    the code after it.  [Some (i, p)]: [*uba_index = i], [ubc_path] holds
    [p], return 0.  [None]: return -1. *)
Fixpoint get_ubc_by_eid_from (E : env) (n : nat) (i : Z) (path_len : nat)
    (eid : list Z) : M (option (Z * string)) :=
  match n with
  | O => set_errno ENODEV ;;; ret None
  | S n' =>
      r <- get_ubc_path E i path_len ;;
      match r with
      | inl _ => get_ubc_by_eid_from E n' (i + 1) path_len eid
      | inr ubc_path =>
          v <- get_ubc_attr E ubc_path "eid" ;;
          if v <? 0 then set_errno ENODEV ;;; ret None
          else if negb (memcmp_eq EID_SIZE (sysfs_eid_of v) eid)
          then get_ubc_by_eid_from E n' (i + 1) path_len eid
          else ret (Some (i, ubc_path))
      end
  end.

Definition get_ubc_by_eid (E : env) (path_len : nat) (eid : list Z)
  : M (option (Z * string)) :=
  get_ubc_by_eid_from E MAX_CONTROLLERS 0 path_len eid.

Definition get_ctl_by_eid (E : env) (eid : list Z) : M ub_bus_ctl_node :=
  r <- get_ubc_by_eid E MAX_PATH eid ;;
  match r with
  | None => ret (mk_ctl_node 0 0 false)
  | Some (_, ubc_path) =>
      m <- get_ubc_attr E ubc_path "ummu_map" ;;
      if m <? 0 then ret (mk_ctl_node m 0 false)
      else
        n <- get_ubc_attr E ubc_path "numa" ;;
        if n <? 0 then ret (mk_ctl_node m n false)
        else ret (mk_ctl_node m n true)
  end.

(** [Some cna]: [*cna] written, return 0.  [None]: return -1. *)
Definition get_primary_cna_by_eid (E : env) (eid : list Z) : M (option Z) :=
  r <- get_ubc_by_eid E MAX_PATH eid ;;
  match r with
  | None => ret None
  | Some (_, ubc_path) =>
      v <- get_ubc_attr E ubc_path "primary_cna" ;;
      if v <? 0 then set_errno ENODEV ;;; ret None
      else ret (Some (v mod 2 ^ 32))
  end.

(** The three locations [vendor_adapt_export] writes through its pointer
    arguments: [*vendor_info] (the allocated payload, [None] for a null
    pointer), [*vendor_len] and [*numa]. *)
Record vendor_out := mk_vendor_out {
  vo_info : option hisi_ummu_tdev_info;
  vo_len : Z;
  vo_numa : Z
}.

(** The locations as the zeroed command structure holds them. *)
Definition vendor_out_zero : vendor_out := mk_vendor_out None 0 0.

(** [info->v1.ummu_idx_mask = 1 << ummu_mapping]: the shift is an [int]
    shift, its result is converted to [unsigned long]. *)
Definition init_vendor_info (E : env) (U : uapi) (ummu_mapping : Z)
    (out : vendor_out) : M (Z * vendor_out) :=
  lib_call E EvCalloc ;;;
  if negb (calloc_ok E) then ret (ENOMEM, out)
  else if OBMM_MAX_VENDOR_LEN U <? sizeof_hisi_ummu_tdev_info
  then lib_call E EvFree ;;; ret (EINVAL, out)
  else
    let info := {| ver := HISI_TDEV_INFO_V1;
                   on_chip := true;
                   ummu_idx_mask := u64 (shl_int 1 ummu_mapping) |} in
    ret (0, mk_vendor_out (Some info) sizeof_hisi_ummu_tdev_info
                          (vo_numa out)).

Definition vendor_adapt_export (E : env) (U : uapi) (desc : obmm_mem_desc)
    (out : vendor_out) : M (Z * vendor_out) :=
  if memcmp_eq EID_SIZE (md_deid desc) g_invalid_eid then ret (EINVAL, out)
  else
    node <- get_ctl_by_eid E (md_deid desc) ;;
    if negb (valid node) then ret (ENODEV, out)
    else
      r <- init_vendor_info E U (ummu_mapping node) out ;;
      let '(rv, out) := r in
      if negb (rv =? 0) then ret (rv, out)
      else ret (0, mk_vendor_out (vo_info out) (vo_len out) (numa_id node)).

Definition free_vendor_info (E : env) : M unit := lib_call E EvFree.

Definition vendor_fixup_import_cmd (E : env) (cmd : obmm_cmd_import) : M Z :=
  r <- get_primary_cna_by_eid E (ci_seid cmd) ;;
  match r with
  | None => ret (-1)
  | Some cna =>
      if negb (cna =? ci_scna cmd) then set_errno ENODEV ;;; ret (-1)
      else ret 0
  end.

Definition vendor_cleanup_import_cmd (cmd : obmm_cmd_import) : M unit :=
  ret tt.

Definition vendor_fixup_preimport_cmd (E : env) (cmd : obmm_cmd_preimport)
  : M Z :=
  r <- get_primary_cna_by_eid E (cr_seid cmd) ;;
  match r with
  | None => ret (-1)
  | Some cna =>
      if negb (cna =? cr_scna cmd) then set_errno ENODEV ;;; ret (-1)
      else ret 0
  end.

Definition vendor_cleanup_preimport_cmd (cmd : obmm_cmd_preimport) : M unit :=
  ret tt.

(* ================================================================== *)
(** ** [libobmm.c] *)

(** The mutex only serialises the open; the model is sequential. *)
Definition obmm_dev_get_fd (E : env) : M Z :=
  fun w =>
    if obmm_dev_fd w <? 0 then
      let fd := fst (dev_open E) in
      let errsv := if fd <? 0 then snd (dev_open E) else 0 in
      (fd, mk_world errsv fd (trace w ++ [EvOpen]))
    else (obmm_dev_fd w, mk_world 0 (obmm_dev_fd w) (trace w)).

(** Returns the return value and the contents of [*id] and [*offset]. *)
Definition obmm_query_memid_by_pa (E : env) (pa : Z)
    (id offset : option Z) : M (Z * option Z * option Z) :=
  fd <- obmm_dev_get_fd E ;;
  if fd <? 0 then ret (fd, id, offset)
  else
    let cmd_addr_query := mk_cmd_addr_query OBMM_QUERY_BY_PA pa 0 0 in
    r <- ioctl OBMM_CMD_ADDR_QUERY (dev_addr_query E) fd cmd_addr_query ;;
    let '(rv, cmd_addr_query) := r in
    if rv <? 0 then ret (rv, id, offset)
    else
      let id := match id with
                | Some _ => Some (cq_mem_id cmd_addr_query)
                | None => None
                end in
      let offset := match offset with
                    | Some _ => Some (cq_offset cmd_addr_query)
                    | None => None
                    end in
      ret (0, id, offset).

(** Returns the return value and the contents of [*pa]. *)
Definition obmm_query_pa_by_memid (E : env) (id offset : Z)
    (pa : option Z) : M (Z * option Z) :=
  fd <- obmm_dev_get_fd E ;;
  if fd <? 0 then ret (fd, pa)
  else
    let cmd_addr_query :=
      mk_cmd_addr_query OBMM_QUERY_BY_ID_OFFSET 0 id offset in
    r <- ioctl OBMM_CMD_ADDR_QUERY (dev_addr_query E) fd cmd_addr_query ;;
    let '(rv, cmd_addr_query) := r in
    if rv <? 0 then ret (rv, pa)
    else
      let pa := match pa with
                | Some _ => Some (cq_pa cmd_addr_query)
                | None => None
                end in
      ret (0, pa).

(** The command [obmm_export_useraddr] has filled in when it calls the
    device: zeroed, then the arguments, the descriptor's private data and
    destination, and what [vendor_adapt_export] wrote. *)
Definition export_pid_cmd (pid va length flags : Z) (d : obmm_mem_desc)
    (out : vendor_out) : obmm_cmd_export_pid :=
  {| cp_va := va; cp_length := length; cp_pid := pid;
     cp_flags := flags; cp_priv_len := md_priv_len d;
     cp_priv := md_priv d; cp_deid := firstn EID_SIZE (md_deid d);
     cp_vendor_info := vo_info out;
     cp_vendor_len := vo_len out; cp_pxm_numa := vo_numa out;
     cp_uba := 0; cp_tokenid := 0; cp_mem_id := 0 |}.

(** Returns the mem_id and the descriptor as the call leaves it. *)
Definition obmm_export_useraddr (E : env) (U : uapi) (pid va length flags : Z)
    (desc : option obmm_mem_desc) : M (Z * option obmm_mem_desc) :=
  match desc with
  | None => set_errno EINVAL ;;; ret (OBMM_INVALID_MEMID, None)
  | Some d =>
      fd <- obmm_dev_get_fd E ;;
      if fd <? 0 then ret (OBMM_INVALID_MEMID, Some d)
      else
        v <- vendor_adapt_export E U d vendor_out_zero ;;
        let '(rv, out) := v in
        if negb (rv =? 0)
        then set_errno rv ;;; ret (OBMM_INVALID_MEMID, Some d)
        else
          let cmd_export_pid := export_pid_cmd pid va length flags d out in
          r <- ioctl OBMM_CMD_EXPORT_PID (dev_export_pid E) fd
                     cmd_export_pid ;;
          let '(rv, cmd_export_pid) := r in
          free_vendor_info E ;;;
          if rv <? 0 then ret (OBMM_INVALID_MEMID, Some d)
          else
            let d' := {| md_addr := cp_uba cmd_export_pid;
                         md_length := length;
                         md_seid := md_seid d;
                         md_deid := md_deid d;
                         md_tokenid := cp_tokenid cmd_export_pid;
                         md_scna := 0;
                         md_dcna := 0;
                         md_priv_len := md_priv_len d;
                         md_priv := md_priv d |} in
            ret (cp_mem_id cmd_export_pid, Some d')
  end.

(** [desc->length = 0; for (i = 0; i < n; i++) desc->length += length[i];] *)
Definition sum_lengths (n : nat) (length : list Z) : Z :=
  fold_left (fun acc i => u64 (acc + nth i length 0)) (seq 0 n) 0.

(** The command [obmm_export] has filled in when it calls the device. *)
Definition export_cmd (U : uapi) (len : list Z) (flags : Z)
    (d : obmm_mem_desc) (out : vendor_out) : obmm_cmd_export :=
  {| ce_size := firstn (OBMM_MAX_LOCAL_NUMA_NODES U) len;
     ce_length := Z.of_nat (OBMM_MAX_LOCAL_NUMA_NODES U);
     ce_flags := flags; ce_priv_len := md_priv_len d;
     ce_priv := md_priv d; ce_deid := firstn EID_SIZE (md_deid d);
     ce_vendor_info := vo_info out;
     ce_vendor_len := vo_len out; ce_pxm_numa := vo_numa out;
     ce_uba := 0; ce_tokenid := 0; ce_mem_id := 0 |}.

Definition obmm_export (E : env) (U : uapi) (length : option (list Z))
    (flags : Z) (desc : option obmm_mem_desc)
  : M (Z * option obmm_mem_desc) :=
  match length, desc with
  | Some len, Some d =>
      fd <- obmm_dev_get_fd E ;;
      if fd <? 0 then ret (OBMM_INVALID_MEMID, Some d)
      else
        v <- vendor_adapt_export E U d vendor_out_zero ;;
        let '(rv, out) := v in
        if negb (rv =? 0)
        then set_errno rv ;;; ret (OBMM_INVALID_MEMID, Some d)
        else
          let cmd_export := export_cmd U len flags d out in
          r <- ioctl OBMM_CMD_EXPORT (dev_export E) fd cmd_export ;;
          let '(rv, cmd_export) := r in
          errsv <- get_errno ;;
          free_vendor_info E ;;;
          set_errno errsv ;;;
          if rv <? 0 then ret (OBMM_INVALID_MEMID, Some d)
          else
            let memid := ce_mem_id cmd_export in
            let d' := {| md_addr := ce_uba cmd_export;
                         md_length :=
                           sum_lengths (OBMM_MAX_LOCAL_NUMA_NODES U) len;
                         md_seid := md_seid d;
                         md_deid := md_deid d;
                         md_tokenid := ce_tokenid cmd_export;
                         md_scna := 0;
                         md_dcna := 0;
                         md_priv_len := md_priv_len d;
                         md_priv := md_priv d |} in
            ret (memid, Some d')
  | _, _ => set_errno EINVAL ;;; ret (OBMM_INVALID_MEMID, desc)
  end.

Definition fill_import_cmd_info (desc : obmm_mem_desc) (flags base_dist : Z)
  : obmm_cmd_import :=
  {| ci_addr := md_addr desc; ci_length := md_length desc;
     ci_tokenid := md_tokenid desc; ci_scna := md_scna desc;
     ci_dcna := md_dcna desc; ci_priv_len := md_priv_len desc;
     ci_priv := md_priv desc; ci_flags := flags;
     ci_base_dist := base_dist; ci_deid := firstn EID_SIZE (md_deid desc);
     ci_seid := firstn EID_SIZE (md_seid desc);
     ci_mem_id := 0; ci_numa_id := 0 |}.

(** [(flags & OBMM_IMPORT_FLAG_NUMA_REMOTE) &&
     !(flags & OBMM_IMPORT_FLAG_PREIMPORT)] *)
Definition numa_remote_without_preimport (U : uapi) (flags : Z) : bool :=
  negb (Z.land flags (OBMM_IMPORT_FLAG_NUMA_REMOTE U) =? 0)
  && (Z.land flags (OBMM_IMPORT_FLAG_PREIMPORT U) =? 0).

Definition with_mem_id_numa (c : obmm_cmd_import) (mem_id numa : Z)
  : obmm_cmd_import :=
  {| ci_addr := ci_addr c; ci_length := ci_length c;
     ci_tokenid := ci_tokenid c; ci_scna := ci_scna c; ci_dcna := ci_dcna c;
     ci_priv_len := ci_priv_len c; ci_priv := ci_priv c;
     ci_flags := ci_flags c; ci_base_dist := ci_base_dist c;
     ci_deid := ci_deid c; ci_seid := ci_seid c;
     ci_mem_id := mem_id; ci_numa_id := numa |}.

(** The command [obmm_import] has filled in when it calls the device. *)
Definition import_cmd (d : obmm_mem_desc) (flags base_dist : Z)
    (numa : option Z) : obmm_cmd_import :=
  with_mem_id_numa (fill_import_cmd_info d flags base_dist) 0
    (match numa with Some n => n | None => NUMA_NO_NODE end).

(** Returns the mem_id and the contents of [*numa]. *)
Definition obmm_import (E : env) (U : uapi) (desc : option obmm_mem_desc)
    (flags base_dist : Z) (numa : option Z) : M (Z * option Z) :=
  match desc with
  | None => set_errno EINVAL ;;; ret (OBMM_INVALID_MEMID, numa)
  | Some d =>
      if numa_remote_without_preimport U flags
         && ((base_dist <? 0) || (UINT8_MAX <? base_dist))
      then set_errno EINVAL ;;; ret (OBMM_INVALID_MEMID, numa)
      else
        let cmd_import := import_cmd d flags base_dist numa in
        fd <- obmm_dev_get_fd E ;;
        if fd <? 0 then ret (OBMM_INVALID_MEMID, numa)
        else
          rv <- vendor_fixup_import_cmd E cmd_import ;;
          if negb (rv =? 0) then ret (OBMM_INVALID_MEMID, numa)
          else
            r <- ioctl OBMM_CMD_IMPORT (dev_import E) fd cmd_import ;;
            let '(rv, cmd_import) := r in
            errsv <- get_errno ;;
            vendor_cleanup_import_cmd cmd_import ;;;
            set_errno errsv ;;;
            if rv <? 0 then ret (OBMM_INVALID_MEMID, numa)
            else
              let numa := match numa with
                          | Some _ => Some (ci_numa_id cmd_import)
                          | None => None
                          end in
              ret (ci_mem_id cmd_import, numa)
  end.

Definition obmm_unexport (E : env) (id flags : Z) : M Z :=
  if id =? OBMM_INVALID_MEMID then set_errno EINVAL ;;; ret (-1)
  else
    fd <- obmm_dev_get_fd E ;;
    if fd <? 0 then ret fd
    else
      r <- ioctl OBMM_CMD_UNEXPORT (dev_unexport E) fd
                 (mk_cmd_unexport id flags) ;;
      ret (fst r).

Definition obmm_unimport (E : env) (id flags : Z) : M Z :=
  if id =? OBMM_INVALID_MEMID then set_errno EINVAL ;;; ret (-1)
  else
    fd <- obmm_dev_get_fd E ;;
    if fd <? 0 then ret fd
    else
      r <- ioctl OBMM_CMD_UNIMPORT (dev_unimport E) fd
                 (mk_cmd_unimport id flags) ;;
      ret (fst r).

Definition preimport_cmd (p : obmm_preimport_info) (flags : Z)
  : obmm_cmd_preimport :=
  {| cr_pa := pi_pa p; cr_length := pi_length p;
     cr_base_dist := pi_base_dist p; cr_numa_id := pi_numa_id p;
     cr_scna := pi_scna p; cr_dcna := pi_dcna p;
     cr_priv_len := pi_priv_len p; cr_priv := pi_priv p;
     cr_flags := flags; cr_deid := firstn EID_SIZE (pi_deid p);
     cr_seid := firstn EID_SIZE (pi_seid p) |}.

Definition with_numa_id (p : obmm_preimport_info) (n : Z)
  : obmm_preimport_info :=
  {| pi_pa := pi_pa p; pi_length := pi_length p;
     pi_base_dist := pi_base_dist p; pi_numa_id := n;
     pi_seid := pi_seid p; pi_deid := pi_deid p; pi_scna := pi_scna p;
     pi_dcna := pi_dcna p; pi_priv_len := pi_priv_len p;
     pi_priv := pi_priv p |}.

(** Returns the return value and [*preimport_info] as the call leaves it. *)
Definition obmm_preimport (E : env)
    (preimport_info : option obmm_preimport_info) (flags : Z)
  : M (Z * option obmm_preimport_info) :=
  match preimport_info with
  | None => set_errno EINVAL ;;; ret (-1, None)
  | Some p =>
      if (pi_base_dist p <? 0) || (UINT8_MAX <? pi_base_dist p)
      then set_errno EINVAL ;;; ret (-1, Some p)
      else
        fd <- obmm_dev_get_fd E ;;
        if fd <? 0 then ret (fd, Some p)
        else
          let cmd := preimport_cmd p flags in
          rv <- vendor_fixup_preimport_cmd E cmd ;;
          if negb (rv =? 0) then ret (rv, Some p)
          else
            r <- ioctl OBMM_CMD_DECLARE_PREIMPORT (dev_declare_preimport E)
                       fd cmd ;;
            let '(rv, cmd) := r in
            errsv <- get_errno ;;
            vendor_cleanup_preimport_cmd cmd ;;;
            set_errno errsv ;;;
            if rv <? 0 then ret (rv, Some p)
            else ret (0, Some (with_numa_id p (cr_numa_id cmd)))
  end.

Definition obmm_unpreimport (E : env)
    (preimport_info : option obmm_preimport_info) (flags : Z) : M Z :=
  match preimport_info with
  | None => set_errno EINVAL ;;; ret (-1)
  | Some p =>
      fd <- obmm_dev_get_fd E ;;
      if fd <? 0 then ret fd
      else
        r <- ioctl OBMM_CMD_UNDECLARE_PREIMPORT (dev_undeclare_preimport E)
                   fd (preimport_cmd p flags) ;;
        ret (fst r)
  end.

(* ================================================================== *)
(** ** Concrete machines

    A host with two bus controllers.  Controller 0 has eid 0x11; controller
    3 has eid 0x12, IOMMU mapping index 3, NUMA node 1 and primary channel
    0x55.  The theorems below are instantiated on it. *)

Module Fixture.

Definition lookup {A} (k : string) (l : list (string * A)) : option A :=
  match find (fun kv => String.eqb (fst kv) k) l with
  | Some kv => Some (snd kv)
  | None => None
  end.

Definition nl : string := String (ascii_of_nat 10) EmptyString.

Definition globs : list (string * list string) :=
  [ ("/sys/devices/ub_bus_controller0/*/ubc",
     ["/sys/devices/ub_bus_controller0/0000:00/ubc"]);
    ("/sys/devices/ub_bus_controller3/*/ubc",
     ["/sys/devices/ub_bus_controller3/0000:03/ubc"]) ]%string.

Definition files : list (string * string) :=
  [ ("/sys/devices/ub_bus_controller0/0000:00/eid", "0x11" ++ nl);
    ("/sys/devices/ub_bus_controller0/0000:00/ummu_map", "0" ++ nl);
    ("/sys/devices/ub_bus_controller0/0000:00/numa", "0" ++ nl);
    ("/sys/devices/ub_bus_controller0/0000:00/primary_cna", "0x44" ++ nl);
    ("/sys/devices/ub_bus_controller3/0000:03/eid", "0x12" ++ nl);
    ("/sys/devices/ub_bus_controller3/0000:03/ummu_map", "3" ++ nl);
    ("/sys/devices/ub_bus_controller3/0000:03/numa", "1" ++ nl);
    ("/sys/devices/ub_bus_controller3/0000:03/primary_cna", "0x55" ++ nl)
  ]%string.

(** As [files], but the eid attribute of controller 0 is not a number. *)
Definition files_corrupt : list (string * string) :=
  ("/sys/devices/ub_bus_controller0/0000:00/eid", "unknown" ++ nl)%string
  :: files.

Definition eid_0x12 : list Z := 18 :: repeat 0 15.
Definition eid_0x99 : list Z := 153 :: repeat 0 15.

Definition quiet_errno (ev : event) (e : Z) : Z := e.

(** A [free] that leaves ENOMEM in errno. *)
Definition noisy_free_errno (ev : event) (e : Z) : Z :=
  match ev with EvFree => ENOMEM | _ => e end.

(** The device grants every request. *)
Definition grant_addr_query (fd : Z) (c : obmm_cmd_addr_query) :=
  mk_reply 0 0
    (mk_cmd_addr_query (cq_key_type c) (cq_pa c + 4096) 42 (cq_pa c mod 4096)).

Definition grant_export_pid (fd : Z) (c : obmm_cmd_export_pid) :=
  mk_reply 0 0
    {| cp_va := cp_va c; cp_length := cp_length c; cp_pid := cp_pid c;
       cp_flags := cp_flags c; cp_priv_len := cp_priv_len c;
       cp_priv := cp_priv c; cp_deid := cp_deid c;
       cp_vendor_info := cp_vendor_info c;
       cp_vendor_len := cp_vendor_len c; cp_pxm_numa := cp_pxm_numa c;
       cp_uba := 1048576; cp_tokenid := 7; cp_mem_id := 42 |}.

Definition grant_export (fd : Z) (c : obmm_cmd_export) :=
  mk_reply 0 0
    {| ce_size := ce_size c; ce_length := ce_length c;
       ce_flags := ce_flags c; ce_priv_len := ce_priv_len c;
       ce_priv := ce_priv c; ce_deid := ce_deid c;
       ce_vendor_info := ce_vendor_info c;
       ce_vendor_len := ce_vendor_len c; ce_pxm_numa := ce_pxm_numa c;
       ce_uba := 1048576; ce_tokenid := 7; ce_mem_id := 42 |}.

Definition grant_import (fd : Z) (c : obmm_cmd_import) :=
  mk_reply 0 0 (with_mem_id_numa c 43 2).

Definition grant_preimport (fd : Z) (c : obmm_cmd_preimport) :=
  mk_reply 0 0
    {| cr_pa := cr_pa c; cr_length := cr_length c;
       cr_base_dist := cr_base_dist c; cr_numa_id := 2;
       cr_scna := cr_scna c; cr_dcna := cr_dcna c;
       cr_priv_len := cr_priv_len c; cr_priv := cr_priv c;
       cr_flags := cr_flags c; cr_deid := cr_deid c; cr_seid := cr_seid c |}.

(** The device rejects every request with EIO. *)
Definition reject {C} (fd : Z) (c : C) : ioctl_reply C := mk_reply (-1) EIO c.

(** The device reports success on an import but hands out no id. *)
Definition grant_import_no_id (fd : Z) (c : obmm_cmd_import) :=
  mk_reply 0 0 (with_mem_id_numa c 0 2).

Definition machine (fs : list (string * string))
    (lib : event -> Z -> Z) (opened : Z * Z) : env :=
  {| sys_glob := fun p => lookup p globs;
     sys_file := fun p => lookup p fs;
     lib_errno := lib;
     calloc_ok := true;
     dev_open := opened;
     dev_addr_query := grant_addr_query;
     dev_export_pid := grant_export_pid;
     dev_export := grant_export;
     dev_import := grant_import;
     dev_unexport := fun fd c => mk_reply 0 0 c;
     dev_unimport := fun fd c => mk_reply 0 0 c;
     dev_declare_preimport := grant_preimport;
     dev_undeclare_preimport := fun fd c => mk_reply 0 0 c |}.

(** The healthy host: the device opens as descriptor 3. *)
Definition host : env := machine files quiet_errno (3, 0).

(** The host without the control device: [open] fails with ENOENT. *)
Definition host_no_device : env := machine files quiet_errno (-1, ENOENT).

(** The host whose controller 0 has a corrupt eid attribute. *)
Definition host_corrupt : env := machine files_corrupt quiet_errno (3, 0).

(** The host whose device rejects every transaction, and whose [free]
    changes errno. *)
Definition host_rejecting : env :=
  {| sys_glob := fun p => lookup p globs;
     sys_file := fun p => lookup p files;
     lib_errno := noisy_free_errno;
     calloc_ok := true;
     dev_open := (3, 0);
     dev_addr_query := reject;
     dev_export_pid := reject;
     dev_export := reject;
     dev_import := reject;
     dev_unexport := reject;
     dev_unimport := reject;
     dev_declare_preimport := reject;
     dev_undeclare_preimport := reject |}.

Definition abi : uapi :=
  {| OBMM_IMPORT_FLAG_NUMA_REMOTE := 4;
     OBMM_IMPORT_FLAG_PREIMPORT := 2;
     OBMM_MAX_LOCAL_NUMA_NODES := 16;
     OBMM_MAX_VENDOR_LEN := 128 |}.

(** A descriptor addressed to controller 3, exported by it. *)
Definition desc : obmm_mem_desc :=
  {| md_addr := 0; md_length := 0; md_seid := eid_0x12; md_deid := eid_0x12;
     md_tokenid := 0; md_scna := 85; md_dcna := 9; md_priv_len := 2;
     md_priv := [1; 2] |}.

Definition desc_zero_deid : obmm_mem_desc :=
  {| md_addr := 0; md_length := 0; md_seid := eid_0x12;
     md_deid := repeat 0 16;
     md_tokenid := 0; md_scna := 85; md_dcna := 9; md_priv_len := 2;
     md_priv := [1; 2] |}.

(** As [desc], with a channel number that is not controller 3's. *)
Definition desc_stale : obmm_mem_desc :=
  {| md_addr := 0; md_length := 0; md_seid := eid_0x12; md_deid := eid_0x12;
     md_tokenid := 0; md_scna := 86; md_dcna := 9; md_priv_len := 2;
     md_priv := [1; 2] |}.

Definition lengths : list Z := 4096 :: repeat 0 15.

Definition preimport (base_dist scna : Z) : obmm_preimport_info :=
  {| pi_pa := 65536; pi_length := 4096; pi_base_dist := base_dist;
     pi_numa_id := -1; pi_seid := eid_0x12; pi_deid := eid_0x12;
     pi_scna := scna; pi_dcna := 9; pi_priv_len := 0; pi_priv := [] |}.

End Fixture.

(* ================================================================== *)
(** ** Vocabulary of the properties *)

Definition Zsum (l : list Z) : Z := fold_right Z.add 0 l.


(** Calls of topology resolution, and device transactions. *)
Definition is_sysfs (ev : event) : bool :=
  match ev with EvGlob _ | EvFopen _ => true | _ => false end.

Definition is_ioctl (ev : event) : bool :=
  match ev with EvIoctl _ _ _ => true | _ => false end.

Definition glob_patterns (evs : list event) : list string :=
  flat_map (fun ev => match ev with EvGlob p => [p] | _ => [] end) evs.

(** The descriptor [obmm_dev_get_fd] hands out in world [w]. *)
Definition handle (E : env) (w : world) : Z := fst (obmm_dev_get_fd E w).

(** Live sysfs as the resolver reads it.  What the readers return does not
    depend on the world they run in (lemmas [get_ubc_path_value] and
    following), so the initial world serves. *)
Definition slot_dir (E : env) (i : Z) : Z + string :=
  fst (get_ubc_path E i MAX_PATH initial_world).

Definition attr_value (E : env) (ubc_path attr : string) : Z :=
  fst (get_ubc_attr E ubc_path attr initial_world).

Definition live_primary_cna (E : env) (eid : list Z) : option Z :=
  fst (get_primary_cna_by_eid E eid initial_world).

(** Slot [i] has its attribute directory at [p]. *)
Definition located (E : env) (i : Z) (p : string) : Prop :=
  slot_dir E i = inr p.

Definition absent (E : env) (i : Z) : Prop :=
  forall p, slot_dir E i <> inr p.

(** Slot [i] is at [p] and its eid attribute, zero-extended to 16 bytes,
    is the requested id. *)
Definition matches (E : env) (eid : list Z) (i : Z) (p : string) : Prop :=
  located E i p /\ 0 <= attr_value E p "eid" /\
  sysfs_eid_of (attr_value E p "eid") = firstn EID_SIZE eid.

Definition differs (E : env) (eid : list Z) (i : Z) : Prop :=
  exists p, located E i p /\ 0 <= attr_value E p "eid" /\
            sysfs_eid_of (attr_value E p "eid") <> firstn EID_SIZE eid.

(** Slot [i] is at [p] and its eid attribute does not read as a
    non-negative [int]. *)
Definition unreadable (E : env) (i : Z) (p : string) : Prop :=
  located E i p /\ attr_value E p "eid" < 0.

(** The scan passes over slot [i]. *)
Definition skipped (E : env) (eid : list Z) (i : Z) : Prop :=
  absent E i \/ differs E eid i.

(** The file [read_int_from_file] opens for attribute [attr] of [p]. *)
Definition attr_file (ubc_path attr : string) : string :=
  Libc.snprintf_buf MAX_PATH (ubc_path ++ "/" ++ attr).


(** The device keeps mem_id 0 reserved: a granted import carries another
    id. *)
Definition import_ids_valid (E : env) : Prop :=
  forall fd cmd,
    0 <= io_ret (dev_import E fd cmd) ->
    ci_mem_id (io_cmd (dev_import E fd cmd)) <> OBMM_INVALID_MEMID.

(** Slots [i], [i+1], ..., [i+m-1]. *)
Definition slots (i : Z) (m : nat) : list Z :=
  map (fun k => i + Z.of_nat k) (seq 0 m).

(** From [w] to [w'] only sysfs was read, the device descriptor is the
    same, and the slots globbed were [i .. i+k-1] in that order. *)
Definition probed (w w' : world) (i : Z) (k : nat) : Prop :=
  exists evs,
    trace w' = trace w ++ evs /\
    forallb is_sysfs evs = true /\
    glob_patterns evs = map ubc_pattern (slots i k) /\
    obmm_dev_fd w' = obmm_dev_fd w.

(** The trace from [w] to [w'] ends in a granted transaction [req]. *)
Definition ends_granted (req : ioctl_req) (w w' : world) : Prop :=
  exists pre fd rv,
    trace w' = trace w ++ pre ++ [EvIoctl fd req rv] /\ 0 <= rv.

Definition no_ioctl (evs : list event) : Prop :=
  forallb (fun ev => negb (is_ioctl ev)) evs = true.

Definition no_sysfs (evs : list event) : Prop :=
  forallb (fun ev => negb (is_sysfs ev)) evs = true.

(** What [obmm_dev_get_fd] adds to the trace in world [w]. *)
Definition open_events (w : world) : list event :=
  if obmm_dev_fd w <? 0 then [EvOpen] else [].

(* ================================================================== *)
(** ** [obmm_set_ownership]

    The function works on a descriptor of an OBMM memory device handed in
    by the caller, not on the control device; its state is [errno] alone.
    The page-state constants come from [<ub/obmm.h>] and are the fields of
    [shm_uapi]; [PROT_NONE], [PROT_READ] and [PROT_WRITE] are those of
    Linux [<sys/mman.h>]. *)

Record shm_uapi := mk_shm_uapi {
  OBMM_SHM_MEM_NORMAL : Z;
  OBMM_SHM_MEM_NORMAL_NC : Z;
  OBMM_SHM_MEM_NO_ACCESS : Z;
  OBMM_SHM_MEM_READONLY : Z;
  OBMM_SHM_MEM_READWRITE : Z;
  OBMM_SHM_CACHE_INFER : Z
}.

Definition PROT_NONE : Z := 0.
Definition PROT_READ : Z := 1.
Definition PROT_WRITE : Z := 2.

Record obmm_cmd_update_range := mk_cmd_update_range {
  ur_start : Z;
  ur_end : Z;
  ur_mem_state : Z;
  ur_cache_ops : Z
}.

(** Returns the return value, [errno] after the call, and the
    [OBMM_SHMDEV_UPDATE_RANGE] transactions submitted, each with its
    descriptor.  [shmdev] answers for the memory device; [end_] is the
    argument [end]. *)
Definition obmm_set_ownership (K : shm_uapi)
    (shmdev : Z -> obmm_cmd_update_range -> ioctl_reply obmm_cmd_update_range)
    (fd start end_ prot : Z) (errno0 : Z)
  : Z * Z * list (Z * obmm_cmd_update_range) :=
  let submit (mem_attr : Z) :=
    let update_info :=
      {| ur_start := start; ur_end := end_; ur_mem_state := mem_attr;
         ur_cache_ops := OBMM_SHM_CACHE_INFER K |} in
    let r := shmdev fd update_info in
    (io_ret r, if io_ret r <? 0 then io_errno r else errno0,
     [(fd, update_info)]) in
  if prot =? PROT_NONE
  then submit (Z.lor (OBMM_SHM_MEM_NORMAL_NC K) (OBMM_SHM_MEM_NO_ACCESS K))
  else if prot =? PROT_READ
  then submit (Z.lor (OBMM_SHM_MEM_NORMAL K) (OBMM_SHM_MEM_READONLY K))
  else if (prot =? PROT_WRITE) || (prot =? Z.lor PROT_READ PROT_WRITE)
  then submit (Z.lor (OBMM_SHM_MEM_NORMAL K) (OBMM_SHM_MEM_READWRITE K))
  else (-1, EINVAL, []).

(* ================================================================== *)
(** ** Further vocabulary *)

Definition is_open (ev : event) : bool :=
  match ev with EvOpen => true | _ => false end.

Definition is_calloc (ev : event) : bool :=
  match ev with EvCalloc => true | _ => false end.

Definition is_free (ev : event) : bool :=
  match ev with EvFree => true | _ => false end.

Definition not_open (ev : event) : bool := negb (is_open ev).

(** Calls that stay away from the control device: sysfs and the
    allocator. *)
Definition is_local (ev : event) : bool :=
  is_sysfs ev || is_calloc ev || is_free ev.

Definition count (p : event -> bool) (evs : list event) : nat :=
  List.length (filter p evs).

(** In every world, [m] leaves the memoised device descriptor alone and
    adds to the trace only events of class [P]. *)
Definition emits (P : event -> bool) {A : Type} (m : M A) : Prop :=
  forall w,
    obmm_dev_fd (snd (m w)) = obmm_dev_fd w /\
    exists evs, trace (snd (m w)) = trace w ++ evs /\ forallb P evs = true.

(** The same, in the worlds where the control device is open. *)
Definition steady (P : event -> bool) {A : Type} (m : M A) : Prop :=
  forall w,
    0 <= obmm_dev_fd w ->
    obmm_dev_fd (snd (m w)) = obmm_dev_fd w /\
    exists evs, trace (snd (m w)) = trace w ++ evs /\ forallb P evs = true.

(** The controller node the resolver finds for [eid] in live sysfs. *)
Definition live_ctl (E : env) (eid : list Z) : ub_bus_ctl_node :=
  fst (get_ctl_by_eid E eid initial_world).

(** The payload [init_vendor_info] builds for a mapping index. *)
Definition payload_of (ummu_mapping : Z) : hisi_ummu_tdev_info :=
  {| ver := HISI_TDEV_INFO_V1;
     ummu_idx_mask := u64 (shl_int 1 ummu_mapping);
     on_chip := true |}.

(** What [vendor_adapt_export] writes for a controller node. *)
Definition vendor_out_of (node : ub_bus_ctl_node) : vendor_out :=
  mk_vendor_out (Some (payload_of (ummu_mapping node)))
                sizeof_hisi_ummu_tdev_info (numa_id node).

(** The descriptor after an export granted with address [uba] and token
    [tokenid], for a region of [length] bytes. *)
Definition exported_desc (d : obmm_mem_desc) (uba length tokenid : Z)
  : obmm_mem_desc :=
  {| md_addr := uba; md_length := length;
     md_seid := md_seid d; md_deid := md_deid d;
     md_tokenid := tokenid; md_scna := 0; md_dcna := 0;
     md_priv_len := md_priv_len d; md_priv := md_priv d |}.

(** The trace from [w] to [w'] ends in a granted transaction [req]
    followed by the release of the vendor payload. *)
Definition granted_then_released (req : ioctl_req) (w w' : world) : Prop :=
  exists pre fd rv,
    trace w' = trace w ++ pre ++ [EvIoctl fd req rv; EvFree] /\ 0 <= rv.

(** An endpoint id the resolver can match: a number below [2 ^ 31] in
    little-endian, zero in bytes 4 to 15. *)
Definition resolvable_shape (eid : list Z) : Prop :=
  skipn 4 (firstn EID_SIZE eid) = repeat 0 12 /\
  0 <= nth 3 eid 0 < 128.

Module ShmFixture.

Definition consts : shm_uapi :=
  {| OBMM_SHM_MEM_NORMAL := 1; OBMM_SHM_MEM_NORMAL_NC := 2;
     OBMM_SHM_MEM_NO_ACCESS := 16; OBMM_SHM_MEM_READONLY := 32;
     OBMM_SHM_MEM_READWRITE := 48; OBMM_SHM_CACHE_INFER := 3 |}.

Definition grant (fd : Z) (c : obmm_cmd_update_range) := mk_reply 0 0 c.

Definition PROT_EXEC : Z := 4.

End ShmFixture.

(** Hosts at the edges of what the resolver reads.  [host_high]:
    controller 0 reports eid 0x80000012, a number that needs 32 bits.
    [host_negative]: controller 0 reports eid -5.  [host_map_31]:
    controller 3 reports IOMMU mapping index 31. *)
Module EdgeFixture.






Definition files_map_31 : list (string * string) :=
  ("/sys/devices/ub_bus_controller3/0000:03/ummu_map",
   "31" ++ Fixture.nl)%string
  :: Fixture.files.

Definition host_map_31 : env :=
  Fixture.machine files_map_31 Fixture.quiet_errno (3, 0).

End EdgeFixture.

(* ================================================================== *)
(** * Properties *)

Ltac run := unfold bind, ret, set_errno, get_errno, lib_call, ioctl,
  free_vendor_info, vendor_cleanup_import_cmd, vendor_cleanup_preimport_cmd
  in *.

(** ** The C library model on its inputs *)

Example strtol_hex : Libc.strtol (list_ascii_of_string "0x1f") = Some 31.
Proof. reflexivity. Qed.
Example strtol_dec : Libc.strtol (list_ascii_of_string "  -42xyz") = Some (-42).
Proof. reflexivity. Qed.
Example strtol_oct : Libc.strtol (list_ascii_of_string "017") = Some 15.
Proof. reflexivity. Qed.
Example strtol_0x_alone : Libc.strtol (list_ascii_of_string "0xg") = Some 0.
Proof. reflexivity. Qed.
Example strtol_none : Libc.strtol (list_ascii_of_string "abc") = None.
Proof. reflexivity. Qed.
Example strtol_clamp :
  Libc.strtol (list_ascii_of_string "99999999999999999999") = Some LONG_MAX.
Proof. reflexivity. Qed.
Example dirname_ubc :
  Libc.dirname "/sys/devices/ub_bus_controller3/0000:01/ubc"
  = "/sys/devices/ub_bus_controller3/0000:01"%string.
Proof. reflexivity. Qed.

(** ** The device handle *)

Lemma obmm_dev_get_fd_spec E w :
  obmm_dev_get_fd E w =
  (handle E w,
   mk_world (if handle E w <? 0 then snd (dev_open E) else 0)
            (handle E w)
            (trace w ++ open_events w)).
Proof.
  unfold handle, obmm_dev_get_fd, open_events.
  destruct (obmm_dev_fd w <? 0) eqn:Hc; simpl.
  - reflexivity.
  - rewrite Hc, app_nil_r. reflexivity.
Qed.

(** *** The sysfs readers: what they return and what they leave behind *)

Lemma read_int_from_file_run E path w :
  read_int_from_file E path w =
  (fst (read_int_from_file E path initial_world),
   mk_world (lib_errno E (EvFopen path) (errno w)) (obmm_dev_fd w)
            (trace w ++ [EvFopen path])).
Proof.
  unfold read_int_from_file. run.
  destruct (sys_file E path) as [content|]; [|reflexivity].
  destruct (_ =? _)%nat; [reflexivity|].
  destruct (Libc.strtol _) as [r|]; [|reflexivity].
  destruct (_ || _); reflexivity.
Qed.

Lemma string_length_app_cons (s : string) (c : ascii) (t : string) :
  (0 < String.length (s ++ String c t))%nat.
Proof. induction s; simpl; lia. Qed.

Lemma get_ubc_attr_run E p a w :
  get_ubc_attr E p a w =
  (attr_value E p a,
   mk_world (lib_errno E (EvFopen (attr_file p a)) (errno w)) (obmm_dev_fd w)
            (trace w ++ [EvFopen (attr_file p a)])).
Proof.
  unfold attr_value, get_ubc_attr, attr_file.
  pose proof (string_length_app_cons p "/" a) as Hlen.
  change (String "/" a) with ("/" ++ a)%string in Hlen.
  destruct (Z.of_nat _ <=? 0) eqn:Hz; [apply Z.leb_le in Hz; lia|].
  rewrite (read_int_from_file_run E _ w). reflexivity.
Qed.

Lemma get_ubc_path_run E i n w :
  get_ubc_path E i n w =
  (fst (get_ubc_path E i n initial_world),
   mk_world (lib_errno E (EvGlob (ubc_pattern i)) (errno w)) (obmm_dev_fd w)
            (trace w ++ [EvGlob (ubc_pattern i)])).
Proof.
  unfold get_ubc_path. run.
  destruct (sys_glob E (ubc_pattern i)) as [[|p ps]|]; try reflexivity.
  destruct (_ <=? _)%nat; reflexivity.
Qed.

Lemma bytes_eqb_eq (a b : list Z) : bytes_eqb a b = true <-> a = b.
Proof.
  revert b. induction a as [|x a IH]; intros [|y b]; simpl;
    try (split; [discriminate|discriminate]); [tauto|].
  rewrite andb_true_iff, Z.eqb_eq, IH. split.
  - intros [-> ->]. reflexivity.
  - intros H; inversion H; auto.
Qed.

Lemma memcmp_sysfs_eid (v : Z) (eid : list Z) :
  memcmp_eq EID_SIZE (sysfs_eid_of v) eid = true
  <-> sysfs_eid_of v = firstn EID_SIZE eid.
Proof. unfold memcmp_eq. rewrite bytes_eqb_eq. reflexivity. Qed.

(** One iteration of the scan, by what the slot holds. *)
Lemma scan_absent E eid n i w :
  absent E i ->
  exists w1,
    get_ubc_by_eid_from E (S n) i MAX_PATH eid w
    = get_ubc_by_eid_from E n (i + 1) MAX_PATH eid w1 /\
    obmm_dev_fd w1 = obmm_dev_fd w /\
    trace w1 = trace w ++ [EvGlob (ubc_pattern i)].
Proof.
  intros Ha. cbn [get_ubc_by_eid_from]. unfold bind at 1.
  rewrite get_ubc_path_run. fold (slot_dir E i).
  destruct (slot_dir E i) as [e|p] eqn:Hs.
  - eexists; split; [reflexivity|]. split; reflexivity.
  - exfalso. exact (Ha p Hs).
Qed.

Lemma scan_differs E eid n i w :
  differs E eid i ->
  exists w1 p,
    get_ubc_by_eid_from E (S n) i MAX_PATH eid w
    = get_ubc_by_eid_from E n (i + 1) MAX_PATH eid w1 /\
    obmm_dev_fd w1 = obmm_dev_fd w /\
    trace w1 = trace w ++ [EvGlob (ubc_pattern i); EvFopen (attr_file p "eid")].
Proof.
  intros (p & Hl & Hv & Hne). cbn [get_ubc_by_eid_from]. unfold bind at 1.
  rewrite get_ubc_path_run. fold (slot_dir E i). rewrite Hl.
  unfold bind at 1. rewrite get_ubc_attr_run.
  destruct (attr_value E p "eid" <? 0) eqn:Hneg; [apply Z.ltb_lt in Hneg; lia|].
  destruct (memcmp_eq _ _ _) eqn:Hm.
  - apply memcmp_sysfs_eid in Hm. contradiction.
  - simpl. eexists _, p. split; [reflexivity|]. simpl. split; [reflexivity|].
    rewrite <- app_assoc. reflexivity.
Qed.

Lemma scan_matches E eid n i p w :
  matches E eid i p ->
  exists w1,
    get_ubc_by_eid_from E (S n) i MAX_PATH eid w = (Some (i, p), w1) /\
    obmm_dev_fd w1 = obmm_dev_fd w /\
    trace w1 = trace w ++ [EvGlob (ubc_pattern i); EvFopen (attr_file p "eid")].
Proof.
  intros (Hl & Hv & He). cbn [get_ubc_by_eid_from]. unfold bind at 1.
  rewrite get_ubc_path_run. fold (slot_dir E i). rewrite Hl.
  unfold bind at 1. rewrite get_ubc_attr_run.
  destruct (attr_value E p "eid" <? 0) eqn:Hneg; [apply Z.ltb_lt in Hneg; lia|].
  apply memcmp_sysfs_eid in He. rewrite He. simpl. unfold ret.
  eexists. split; [reflexivity|]. simpl. split; [reflexivity|].
  rewrite <- app_assoc. reflexivity.
Qed.

Lemma scan_unreadable E eid n i p w :
  unreadable E i p ->
  exists w1,
    get_ubc_by_eid_from E (S n) i MAX_PATH eid w = (None, w1) /\
    errno w1 = ENODEV /\
    obmm_dev_fd w1 = obmm_dev_fd w /\
    trace w1 = trace w ++ [EvGlob (ubc_pattern i); EvFopen (attr_file p "eid")].
Proof.
  intros (Hl & Hv). cbn [get_ubc_by_eid_from]. unfold bind at 1.
  rewrite get_ubc_path_run. fold (slot_dir E i). rewrite Hl.
  unfold bind at 1. rewrite get_ubc_attr_run.
  apply Z.ltb_lt in Hv. rewrite Hv. run. simpl.
  eexists. split; [reflexivity|]. simpl. repeat split.
  rewrite <- app_assoc. reflexivity.
Qed.

(** Every slot is of exactly one of the four kinds. *)
Lemma slot_cases E eid i :
  absent E i \/ differs E eid i \/
  (exists p, matches E eid i p) \/ (exists p, unreadable E i p).
Proof.
  unfold absent, differs, matches, unreadable, located.
  destruct (slot_dir E i) as [e|p] eqn:Hs.
  - left. intros p. discriminate.
  - right. destruct (Z.ltb_spec (attr_value E p "eid") 0) as [Hn|Hn].
    + right. right. exists p. auto.
    + destruct (memcmp_eq EID_SIZE (sysfs_eid_of (attr_value E p "eid")) eid)
        eqn:Hm.
      * right. left. exists p. apply memcmp_sysfs_eid in Hm. auto.
      * left. exists p. repeat split; auto. intros Heq.
        apply memcmp_sysfs_eid in Heq. congruence.
Qed.

(** ** The scan of the controller slots *)

Lemma slots_S (i : Z) (m : nat) : slots i (S m) = i :: slots (i + 1) m.
Proof.
  unfold slots. rewrite <- cons_seq, <- seq_shift. cbn [map].
  rewrite map_map. f_equal; [lia|]. apply map_ext. intros k. lia.
Qed.

Lemma probed_refl w i : probed w w i 0.
Proof. exists []. rewrite app_nil_r. repeat split. Qed.

Lemma probed_step w w1 w' i m (rest : list event) :
  obmm_dev_fd w1 = obmm_dev_fd w ->
  trace w1 = trace w ++ EvGlob (ubc_pattern i) :: rest ->
  forallb is_sysfs rest = true -> glob_patterns rest = [] ->
  probed w1 w' (i + 1) m -> probed w w' i (S m).
Proof.
  intros Hfd Htr Hs Hg (evs & Ht & Hsys & Hgl & Hfd').
  exists (EvGlob (ubc_pattern i) :: rest ++ evs). repeat split.
  - rewrite Ht, Htr, <- app_assoc. reflexivity.
  - cbn [forallb is_sysfs]. rewrite forallb_app, Hs, Hsys. reflexivity.
  - rewrite slots_S. cbn [map]. unfold glob_patterns in *. cbn [flat_map].
    rewrite flat_map_app, Hg, Hgl. reflexivity.
  - congruence.
Qed.

Section Scan.
Variables (E : env) (eid : list Z).

Lemma scan_skipped n i w :
  skipped E eid i ->
  exists w1 rest,
    get_ubc_by_eid_from E (S n) i MAX_PATH eid w
    = get_ubc_by_eid_from E n (i + 1) MAX_PATH eid w1 /\
    obmm_dev_fd w1 = obmm_dev_fd w /\
    trace w1 = trace w ++ EvGlob (ubc_pattern i) :: rest /\
    forallb is_sysfs rest = true /\ glob_patterns rest = [].
Proof.
  intros [Ha|Hd].
  - destruct (scan_absent E eid n i w Ha) as (w1 & Heq & Hfd & Htr).
    exists w1, []. auto.
  - destruct (scan_differs E eid n i w Hd) as (w1 & q & Heq & Hfd & Htr).
    exists w1, [EvFopen (attr_file q "eid")]. auto.
Qed.

Lemma scan_first_match (m : nat) : forall (n : nat) (i : Z) (w : world) p,
  (m < n)%nat ->
  (forall j, i <= j < i + Z.of_nat m -> skipped E eid j) ->
  matches E eid (i + Z.of_nat m) p ->
  exists w',
    get_ubc_by_eid_from E n i MAX_PATH eid w = (Some (i + Z.of_nat m, p), w')
    /\ probed w w' i (S m).
Proof.
  induction m as [|m IH]; intros n i w p Hlt Hskip Hm;
    (destruct n as [|n]; [lia|]).
  - replace (i + Z.of_nat 0) with i in * by lia.
    destruct (scan_matches E eid n i p w Hm) as (w1 & Heq & Hfd & Htr).
    exists w1. split; [exact Heq|].
    eapply probed_step; eauto using probed_refl.
  - assert (Hi : skipped E eid i) by (apply Hskip; lia).
    replace (i + Z.of_nat (S m)) with (i + 1 + Z.of_nat m) in * by lia.
    destruct (scan_skipped n i w Hi) as (w1 & rest & Heq & Hfd & Htr & Hs & Hg).
    rewrite Heq.
    destruct (IH n (i + 1) w1 p) as (w' & Hr & Hp); [lia| |exact Hm|].
    + intros j Hj. apply Hskip. lia.
    + exists w'. split; [exact Hr|]. eapply probed_step; eauto.
Qed.



(** The scan decides by sysfs alone: its verdict is the same in every
    world. *)
Lemma get_ubc_by_eid_from_value (n : nat) : forall i w w0,
  fst (get_ubc_by_eid_from E n i MAX_PATH eid w)
  = fst (get_ubc_by_eid_from E n i MAX_PATH eid w0).
Proof.
  induction n as [|n IH]; intros i w w0; [reflexivity|].
  destruct (slot_cases E eid i) as [Ha|[Hd|[[p Hm]|[p Hu]]]].
  - destruct (scan_skipped n i w (or_introl Ha)) as (w1 & ? & -> & _).
    destruct (scan_skipped n i w0 (or_introl Ha)) as (w2 & ? & -> & _).
    apply IH.
  - destruct (scan_skipped n i w (or_intror Hd)) as (w1 & ? & -> & _).
    destruct (scan_skipped n i w0 (or_intror Hd)) as (w2 & ? & -> & _).
    apply IH.
  - destruct (scan_matches E eid n i p w Hm) as (w1 & -> & _).
    destruct (scan_matches E eid n i p w0 Hm) as (w2 & -> & _).
    reflexivity.
  - destruct (scan_unreadable E eid n i p w Hu) as (w1 & -> & _).
    destruct (scan_unreadable E eid n i p w0 Hu) as (w2 & -> & _).
    reflexivity.
Qed.

(** What the scan leaves behind: sysfs reads only, and ENODEV when it
    fails. *)
Lemma get_ubc_by_eid_from_world (n : nat) : forall i w,
  exists evs,
    trace (snd (get_ubc_by_eid_from E n i MAX_PATH eid w)) = trace w ++ evs /\
    forallb is_sysfs evs = true /\
    obmm_dev_fd (snd (get_ubc_by_eid_from E n i MAX_PATH eid w))
      = obmm_dev_fd w /\
    (fst (get_ubc_by_eid_from E n i MAX_PATH eid w) = None ->
     errno (snd (get_ubc_by_eid_from E n i MAX_PATH eid w)) = ENODEV).
Proof.
  induction n as [|n IH]; intros i w.
  - exists []. simpl. rewrite app_nil_r. auto.
  - destruct (slot_cases E eid i) as [Ha|[Hd|[[p Hm]|[p Hu]]]].
    + destruct (scan_skipped n i w (or_introl Ha))
        as (w1 & rest & -> & Hfd & Htr & Hs & _).
      destruct (IH (i + 1) w1) as (evs & Ht & Hsys & Hfd' & He).
      exists (EvGlob (ubc_pattern i) :: rest ++ evs).
      rewrite Ht, Htr, <- app_assoc. cbn [forallb is_sysfs].
      rewrite forallb_app, Hs, Hsys. repeat split; auto. congruence.
    + destruct (scan_skipped n i w (or_intror Hd))
        as (w1 & rest & -> & Hfd & Htr & Hs & _).
      destruct (IH (i + 1) w1) as (evs & Ht & Hsys & Hfd' & He).
      exists (EvGlob (ubc_pattern i) :: rest ++ evs).
      rewrite Ht, Htr, <- app_assoc. cbn [forallb is_sysfs].
      rewrite forallb_app, Hs, Hsys. repeat split; auto. congruence.
    + destruct (scan_matches E eid n i p w Hm) as (w1 & -> & Hfd & Htr).
      eexists. simpl. split; [exact Htr|]. repeat split; auto. discriminate.
    + destruct (scan_unreadable E eid n i p w Hu)
        as (w1 & -> & He & Hfd & Htr).
      eexists. simpl. split; [exact Htr|]. repeat split; auto.
Qed.

End Scan.

(** [memcmp] reads 16 bytes of the requested id and no more. *)
Lemma get_ubc_by_eid_from_firstn E eid (n : nat) : forall i w,
  get_ubc_by_eid_from E n i MAX_PATH (firstn EID_SIZE eid) w
  = get_ubc_by_eid_from E n i MAX_PATH eid w.
Proof.
  induction n as [|n IH]; intros i w; [reflexivity|].
  cbn [get_ubc_by_eid_from]. unfold bind.
  destruct (get_ubc_path E i MAX_PATH w) as [[e|p] w1]; [apply IH|].
  destruct (get_ubc_attr E p "eid" w1) as [v w2].
  destruct (v <? 0); [reflexivity|].
  unfold memcmp_eq. rewrite firstn_firstn. simpl (Nat.min _ _).
  destruct (negb _); [apply IH|reflexivity].
Qed.

(** ** Attributes and the channel validator *)

Lemma read_int_range E path w :
  INT_MIN <= fst (read_int_from_file E path w) <= INT_MAX.
Proof.
  unfold read_int_from_file. run.
  destruct (sys_file E path) as [content|]; simpl; [|unfold INT_MIN, INT_MAX; lia].
  destruct (_ =? _)%nat; simpl; [unfold INT_MIN, INT_MAX; lia|].
  destruct (Libc.strtol _) as [r|]; simpl; [|unfold INT_MIN, INT_MAX; lia].
  destruct (Z.ltb_spec INT_MAX r); simpl; [unfold INT_MIN, INT_MAX; lia|].
  destruct (Z.ltb_spec r INT_MIN); simpl; unfold INT_MIN, INT_MAX in *; lia.
Qed.

Lemma attr_value_range E p a : INT_MIN <= attr_value E p a <= INT_MAX.
Proof.
  unfold attr_value, get_ubc_attr.
  destruct (_ <=? 0); [unfold ret, INT_MIN, INT_MAX; simpl; lia|].
  apply read_int_range.
Qed.



Lemma get_primary_cna_by_eid_run E eid w :
  exists evs e,
    get_primary_cna_by_eid E eid w
    = (live_primary_cna E eid,
       mk_world e (obmm_dev_fd w) (trace w ++ evs)) /\
    forallb is_sysfs evs = true /\
    (live_primary_cna E eid = None -> e = ENODEV).
Proof.
  unfold live_primary_cna, get_primary_cna_by_eid, get_ubc_by_eid, bind.
  pose proof (get_ubc_by_eid_from_value E eid MAX_CONTROLLERS 0 w initial_world)
    as Hv.
  destruct (get_ubc_by_eid_from_world E eid MAX_CONTROLLERS 0 w)
    as (evs & Ht & Hs & Hfd & He).
  destruct (get_ubc_by_eid_from E MAX_CONTROLLERS 0 MAX_PATH eid w)
    as [r w1].
  destruct (get_ubc_by_eid_from E MAX_CONTROLLERS 0 MAX_PATH eid initial_world)
    as [r0 w0].
  simpl in Hv, Ht, Hfd, He. subst r0.
  destruct r as [[i p]|].
  - rewrite !get_ubc_attr_run.
    destruct (attr_value E p "primary_cna" <? 0); run; simpl.
    + exists (evs ++ [EvFopen (attr_file p "primary_cna")]), ENODEV.
      rewrite Hfd, Ht, <- app_assoc, forallb_app, Hs. auto.
    + eexists (evs ++ [EvFopen (attr_file p "primary_cna")]), _.
      rewrite Hfd, Ht, <- app_assoc, forallb_app, Hs.
      repeat split; auto. discriminate.
  - unfold ret. simpl. exists evs, (errno w1). destruct w1; simpl in *.
    subst. auto.
Qed.

Lemma live_primary_cna_firstn E eid :
  live_primary_cna E (firstn EID_SIZE eid) = live_primary_cna E eid.
Proof.
  unfold live_primary_cna, get_primary_cna_by_eid, get_ubc_by_eid, bind.
  rewrite get_ubc_by_eid_from_firstn. reflexivity.
Qed.

(** The validator of import and of preimport-declare, by the live
    channel. *)
Lemma vendor_fixup_import_cmd_run E cmd w :
  exists evs e rv,
    vendor_fixup_import_cmd E cmd w
    = (rv, mk_world e (obmm_dev_fd w) (trace w ++ evs)) /\
    forallb is_sysfs evs = true /\
    match live_primary_cna E (ci_seid cmd) with
    | Some c => if c =? ci_scna cmd then rv = 0 else rv = -1 /\ e = ENODEV
    | None => rv = -1 /\ e = ENODEV
    end.
Proof.
  unfold vendor_fixup_import_cmd, bind.
  destruct (get_primary_cna_by_eid_run E (ci_seid cmd) w)
    as (evs & e & Hrun & Hs & He).
  rewrite Hrun. destruct (live_primary_cna E (ci_seid cmd)) as [c|].
  - destruct (c =? ci_scna cmd); run; simpl.
    + exists evs, e, 0. auto.
    + exists evs, ENODEV, (-1). auto.
  - exists evs, e, (-1). unfold ret. auto.
Qed.

Lemma vendor_fixup_preimport_cmd_run E cmd w :
  exists evs e rv,
    vendor_fixup_preimport_cmd E cmd w
    = (rv, mk_world e (obmm_dev_fd w) (trace w ++ evs)) /\
    forallb is_sysfs evs = true /\
    match live_primary_cna E (cr_seid cmd) with
    | Some c => if c =? cr_scna cmd then rv = 0 else rv = -1 /\ e = ENODEV
    | None => rv = -1 /\ e = ENODEV
    end.
Proof.
  unfold vendor_fixup_preimport_cmd, bind.
  destruct (get_primary_cna_by_eid_run E (cr_seid cmd) w)
    as (evs & e & Hrun & Hs & He).
  rewrite Hrun. destruct (live_primary_cna E (cr_seid cmd)) as [c|].
  - destruct (c =? cr_scna cmd); run; simpl.
    + exists evs, e, 0. auto.
    + exists evs, ENODEV, (-1). auto.
  - exists evs, e, (-1). unfold ret. auto.
Qed.

(** ** Export *)

Lemma Zsum_nth_seq (l : list Z) (n : nat) :
  Zsum (map (fun i => nth i l 0) (seq 0 n)) = Zsum (firstn n l).
Proof.
  revert l. induction n as [|n IH]; intros l; [reflexivity|].
  rewrite <- cons_seq, <- seq_shift. cbn [map Zsum fold_right].
  rewrite map_map.
  destruct l as [|x l]; cbn [nth firstn Zsum fold_right].
  - clear IH. induction (seq 0 n) as [|k ks IHk]; simpl; [reflexivity|].
    simpl in IHk. rewrite IHk. reflexivity.
  - change (fold_right Z.add 0) with Zsum. rewrite IH. reflexivity.
Qed.

Lemma fold_u64_sum (f : nat -> Z) (ks : list nat) (acc : Z) :
  u64 (fold_left (fun a i => u64 (a + f i)) ks acc)
  = u64 (acc + Zsum (map f ks)).
Proof.
  revert acc. induction ks as [|k ks IH]; intros acc; simpl.
  - f_equal. lia.
  - rewrite IH. unfold u64. rewrite Zplus_mod_idemp_l. f_equal. lia.
Qed.

Lemma sum_lengths_spec (n : nat) (l : list Z) :
  sum_lengths n l = Zsum (firstn n l) mod 2 ^ 64.
Proof.
  unfold sum_lengths. rewrite <- Zsum_nth_seq.
  assert (H : forall ks acc, acc = u64 acc ->
            fold_left (fun a i => u64 (a + nth i l 0)) ks acc
            = u64 (fold_left (fun a i => u64 (a + nth i l 0)) ks acc)).
  { induction ks as [|k ks IH]; intros acc Hacc; simpl; [exact Hacc|].
    apply IH. unfold u64. now rewrite Z.mod_mod. }
  rewrite H by reflexivity.
  rewrite (fold_u64_sum (fun i => nth i l 0)). reflexivity.
Qed.

Lemma obmm_export_success E U len flags d w memid od' w' :
  obmm_export E U (Some len) flags (Some d) w = (memid, od', w') ->
  memid <> OBMM_INVALID_MEMID ->
  exists c,
    memid = ce_mem_id c /\
    od' = Some {| md_addr := ce_uba c;
                  md_length := sum_lengths (OBMM_MAX_LOCAL_NUMA_NODES U) len;
                  md_seid := md_seid d; md_deid := md_deid d;
                  md_tokenid := ce_tokenid c; md_scna := 0; md_dcna := 0;
                  md_priv_len := md_priv_len d; md_priv := md_priv d |}.
Proof.
  unfold obmm_export. run.
  destruct (obmm_dev_get_fd E w) as [fd w1].
  destruct (fd <? 0); [intros H; inversion H; congruence|].
  destruct (vendor_adapt_export E U d vendor_out_zero w1) as [[rv out] w2].
  destruct (negb (rv =? 0)); [intros H; inversion H; congruence|].
  match goal with |- context [dev_export E fd ?c] =>
    destruct (dev_export E fd c) as [r e c'] end; simpl.
  destruct (r <? 0); intros H; inversion H; subst; [congruence|].
  intros _. eexists; split; reflexivity.
Qed.

Lemma obmm_export_useraddr_success E U pid va len flags d w memid od' w' :
  obmm_export_useraddr E U pid va len flags (Some d) w = (memid, od', w') ->
  memid <> OBMM_INVALID_MEMID ->
  exists c,
    memid = cp_mem_id c /\
    od' = Some {| md_addr := cp_uba c;
                  md_length := len;
                  md_seid := md_seid d; md_deid := md_deid d;
                  md_tokenid := cp_tokenid c; md_scna := 0; md_dcna := 0;
                  md_priv_len := md_priv_len d; md_priv := md_priv d |}.
Proof.
  unfold obmm_export_useraddr. run.
  destruct (obmm_dev_get_fd E w) as [fd w1].
  destruct (fd <? 0); [intros H; inversion H; congruence|].
  destruct (vendor_adapt_export E U d vendor_out_zero w1) as [[rv out] w2].
  destruct (negb (rv =? 0)); [intros H; inversion H; congruence|].
  match goal with |- context [dev_export_pid E fd ?c] =>
    destruct (dev_export_pid E fd c) as [r e c'] end; simpl.
  destruct (r <? 0); intros H; inversion H; subst; [congruence|].
  intros _. eexists; split; reflexivity.
Qed.

(* ================================================================== *)
(** ** Teardown with the invalid id *)

(** C9.  For every flags value, [obmm_unexport] and [obmm_unimport] on the
    reserved mem_id 0 return -1 with errno EINVAL; the trace and the
    memoised descriptor are as before the call: the device handle is
    neither obtained nor used. *)
Theorem invalid_memid_rejected_locally (E : env) (flags : Z) (w : world) :
  obmm_unexport E OBMM_INVALID_MEMID flags w
    = (-1, mk_world EINVAL (obmm_dev_fd w) (trace w)) /\
  obmm_unimport E OBMM_INVALID_MEMID flags w
    = (-1, mk_world EINVAL (obmm_dev_fd w) (trace w)).
Proof. split; reflexivity. Qed.

(* ================================================================== *)
(** ** What a successful export writes *)

(** C8.  After a successful [obmm_export] the descriptor's length is the
    sum of the [OBMM_MAX_LOCAL_NUMA_NODES] entries of the length array,
    taken in the 64 bits of the field; it is the exact sum whenever that
    fits 64 bits.  Entries may be zero. *)
Theorem obmm_export_length_is_sum (E : env) (U : uapi) (len : list Z)
    (flags : Z) (d d' : obmm_mem_desc) (w w' : world) (memid : Z) :
  obmm_export E U (Some len) flags (Some d) w = (memid, Some d', w') ->
  memid <> OBMM_INVALID_MEMID ->
  md_length d' = Zsum (firstn (OBMM_MAX_LOCAL_NUMA_NODES U) len) mod 2 ^ 64 /\
  (0 <= Zsum (firstn (OBMM_MAX_LOCAL_NUMA_NODES U) len) < 2 ^ 64 ->
   md_length d' = Zsum (firstn (OBMM_MAX_LOCAL_NUMA_NODES U) len)).
Proof.
  intros Hrun Hok.
  destruct (obmm_export_success _ _ _ _ _ _ _ _ _ Hrun Hok) as (c & _ & Hd).
  inversion Hd; subst; simpl.
  rewrite sum_lengths_spec. split; [reflexivity|].
  intros Hr. now apply Z.mod_small.
Qed.

Lemma obmm_export_length_is_sum_witness :
  obmm_export Fixture.host Fixture.abi (Some Fixture.lengths) 0
    (Some Fixture.desc) initial_world
  = (42,
     Some (mk_mem_desc 1048576 4096 Fixture.eid_0x12 Fixture.eid_0x12 7 0 0 2
             [1; 2]),
     snd (obmm_export Fixture.host Fixture.abi (Some Fixture.lengths) 0
            (Some Fixture.desc) initial_world)) /\
  42 <> OBMM_INVALID_MEMID /\
  4096 = Zsum (firstn 16 Fixture.lengths) mod 2 ^ 64 /\
  (0 <= Zsum (firstn 16 Fixture.lengths) < 2 ^ 64 ->
   4096 = Zsum (firstn 16 Fixture.lengths)).
Proof.
  split; [vm_compute; reflexivity|]. split; [discriminate|].
  apply (obmm_export_length_is_sum Fixture.host Fixture.abi Fixture.lengths 0
           Fixture.desc
           (mk_mem_desc 1048576 4096 Fixture.eid_0x12 Fixture.eid_0x12 7 0 0 2
              [1; 2])
           initial_world
           (snd (obmm_export Fixture.host Fixture.abi (Some Fixture.lengths) 0
                   (Some Fixture.desc) initial_world)) 42).
  - vm_compute; reflexivity.
  - discriminate.
Defined.

(** C4, as the code has it.  A successful export, by either entry point,
    leaves seid, deid, priv_len and the private bytes of the descriptor as
    they were, and resets scna and dcna to 0 (besides writing address,
    length and tokenid). *)
Theorem export_frame (E : env) (U : uapi) (d d' : obmm_mem_desc)
    (w w' : world) (memid : Z) :
  ((exists pid va length flags,
      obmm_export_useraddr E U pid va length flags (Some d) w
      = (memid, Some d', w')) \/
   (exists len flags,
      obmm_export E U (Some len) flags (Some d) w = (memid, Some d', w'))) ->
  memid <> OBMM_INVALID_MEMID ->
  md_seid d' = md_seid d /\ md_deid d' = md_deid d /\
  md_priv_len d' = md_priv_len d /\ md_priv d' = md_priv d /\
  md_scna d' = 0 /\ md_dcna d' = 0.
Proof.
  intros [(pid & va & len & flags & Hrun)|(len & flags & Hrun)] Hok.
  - destruct (obmm_export_useraddr_success _ _ _ _ _ _ _ _ _ _ _ Hrun Hok)
      as (c & _ & Hd).
    inversion Hd; subst; simpl. repeat split.
  - destruct (obmm_export_success _ _ _ _ _ _ _ _ _ Hrun Hok) as (c & _ & Hd).
    inversion Hd; subst; simpl. repeat split.
Qed.

Lemma export_frame_witness :
  md_seid (mk_mem_desc 1048576 4096 Fixture.eid_0x12 Fixture.eid_0x12 7 0 0 2
             [1; 2]) = md_seid Fixture.desc /\
  md_deid (mk_mem_desc 1048576 4096 Fixture.eid_0x12 Fixture.eid_0x12 7 0 0 2
             [1; 2]) = md_deid Fixture.desc /\
  md_priv_len (mk_mem_desc 1048576 4096 Fixture.eid_0x12 Fixture.eid_0x12 7 0
                 0 2 [1; 2]) = md_priv_len Fixture.desc /\
  md_priv (mk_mem_desc 1048576 4096 Fixture.eid_0x12 Fixture.eid_0x12 7 0 0 2
             [1; 2]) = md_priv Fixture.desc /\
  md_scna (mk_mem_desc 1048576 4096 Fixture.eid_0x12 Fixture.eid_0x12 7 0 0 2
             [1; 2]) = 0 /\
  md_dcna (mk_mem_desc 1048576 4096 Fixture.eid_0x12 Fixture.eid_0x12 7 0 0 2
             [1; 2]) = 0.
Proof.
  apply (export_frame Fixture.host Fixture.abi Fixture.desc
           (mk_mem_desc 1048576 4096 Fixture.eid_0x12 Fixture.eid_0x12 7 0 0 2
              [1; 2])
           initial_world
           (snd (obmm_export Fixture.host Fixture.abi (Some Fixture.lengths) 0
                   (Some Fixture.desc) initial_world)) 42).
  - right. exists Fixture.lengths, 0. vm_compute; reflexivity.
  - discriminate.
Defined.

(** C4 as stated fails: on the healthy host both entry points succeed on a
    descriptor with scna 85 and dcna 9 and return it with scna 0 and
    dcna 0. *)
Lemma export_resets_channel_numbers :
  md_scna Fixture.desc = 85 /\ md_dcna Fixture.desc = 9 /\
  (let '(memid, d', _) :=
     obmm_export Fixture.host Fixture.abi (Some Fixture.lengths) 0
       (Some Fixture.desc) initial_world in
   memid = 42 /\ option_map md_scna d' = Some 0 /\
   option_map md_dcna d' = Some 0) /\
  (let '(memid, d', _) :=
     obmm_export_useraddr Fixture.host Fixture.abi 0 1234 8192 0
       (Some Fixture.desc) initial_world in
   memid = 42 /\ option_map md_scna d' = Some 0 /\
   option_map md_dcna d' = Some 0).
Proof. vm_compute. repeat split. Qed.

(* ================================================================== *)
(** ** Export to the all-zero endpoint *)

Lemma vendor_adapt_export_zero_deid E U d out w :
  md_deid d = g_invalid_eid ->
  vendor_adapt_export E U d out w = (EINVAL, out, w).
Proof. intros Hd. unfold vendor_adapt_export. rewrite Hd. reflexivity. Qed.

(** C7, as the code has it.  An export whose descriptor's destination
    endpoint id is all-zero returns the invalid mem_id, leaves the
    descriptor alone and resolves no topology: the only call that may
    leave the process is the open of the device.  errno is EINVAL when
    the device handle is there; the handle is obtained before the check,
    and when it cannot be opened errno is the one of the open.  (With a
    null length array [obmm_export] fails with EINVAL before anything
    else.) *)
Theorem export_zero_deid_rejected (E : env) (U : uapi) (d : obmm_mem_desc)
    (w : world) :
  md_deid d = g_invalid_eid ->
  let w' := mk_world (if handle E w <? 0 then snd (dev_open E) else EINVAL)
                     (handle E w) (trace w ++ open_events w) in
  (forall pid va length flags,
     obmm_export_useraddr E U pid va length flags (Some d) w
     = (OBMM_INVALID_MEMID, Some d, w')) /\
  (forall len flags,
     obmm_export E U (Some len) flags (Some d) w
     = (OBMM_INVALID_MEMID, Some d, w')) /\
  (forall flags,
     obmm_export E U None flags (Some d) w
     = (OBMM_INVALID_MEMID, Some d,
        mk_world EINVAL (obmm_dev_fd w) (trace w))) /\
  no_sysfs (open_events w) /\
  no_ioctl (open_events w).
Proof.
  intros Hd w'. subst w'. repeat split.
  - intros. unfold obmm_export_useraddr, bind at 1.
    rewrite obmm_dev_get_fd_spec.
    destruct (handle E w <? 0) eqn:Hh; [reflexivity|].
    unfold bind at 1. rewrite vendor_adapt_export_zero_deid by exact Hd.
    reflexivity.
  - intros. unfold obmm_export, bind at 1.
    rewrite obmm_dev_get_fd_spec.
    destruct (handle E w <? 0) eqn:Hh; [reflexivity|].
    unfold bind at 1. rewrite vendor_adapt_export_zero_deid by exact Hd.
    reflexivity.
  - unfold no_sysfs, open_events. destruct (obmm_dev_fd w <? 0); reflexivity.
  - unfold no_ioctl, open_events. destruct (obmm_dev_fd w <? 0); reflexivity.
Qed.

Lemma export_zero_deid_rejected_witness :
  md_deid Fixture.desc_zero_deid = g_invalid_eid /\
  (forall pid va length flags,
     obmm_export_useraddr Fixture.host Fixture.abi pid va length flags
       (Some Fixture.desc_zero_deid) initial_world
     = (OBMM_INVALID_MEMID, Some Fixture.desc_zero_deid,
        mk_world EINVAL 3 [EvOpen])) /\
  (forall len flags,
     obmm_export Fixture.host Fixture.abi (Some len) flags
       (Some Fixture.desc_zero_deid) initial_world
     = (OBMM_INVALID_MEMID, Some Fixture.desc_zero_deid,
        mk_world EINVAL 3 [EvOpen])) /\
  (forall flags,
     obmm_export Fixture.host Fixture.abi None flags
       (Some Fixture.desc_zero_deid) initial_world
     = (OBMM_INVALID_MEMID, Some Fixture.desc_zero_deid,
        mk_world EINVAL (-1) [])) /\
  no_sysfs [EvOpen] /\ no_ioctl [EvOpen].
Proof.
  split; [reflexivity|].
  exact (export_zero_deid_rejected Fixture.host Fixture.abi
           Fixture.desc_zero_deid initial_world eq_refl).
Defined.

(** C7 as stated fails: on the host without the control device the export
    to the all-zero endpoint id fails with the errno of the open, ENOENT,
    not with EINVAL. *)
Lemma export_zero_deid_without_device :
  md_deid Fixture.desc_zero_deid = g_invalid_eid /\
  obmm_export Fixture.host_no_device Fixture.abi (Some Fixture.lengths) 0
    (Some Fixture.desc_zero_deid) initial_world
  = (OBMM_INVALID_MEMID, Some Fixture.desc_zero_deid,
     mk_world ENOENT (-1) [EvOpen]) /\
  obmm_export_useraddr Fixture.host_no_device Fixture.abi 0 1234 8192 0
    (Some Fixture.desc_zero_deid) initial_world
  = (OBMM_INVALID_MEMID, Some Fixture.desc_zero_deid,
     mk_world ENOENT (-1) [EvOpen]) /\
  ENOENT <> EINVAL.
Proof. repeat split; try reflexivity. discriminate. Qed.

(* ================================================================== *)
(** ** Import and preimport: the local checks *)

Lemma sysfs_no_ioctl evs : forallb is_sysfs evs = true -> no_ioctl evs.
Proof.
  unfold no_ioctl. induction evs as [|ev evs IH]; [reflexivity|].
  simpl. intros H. apply andb_true_iff in H. destruct H as [H1 H2].
  rewrite IH by exact H2. destruct ev; try discriminate; reflexivity.
Qed.

Lemma open_events_no_ioctl w evs :
  no_ioctl evs -> no_ioctl (open_events w ++ evs).
Proof.
  unfold no_ioctl, open_events. intros H.
  destruct (obmm_dev_fd w <? 0); simpl; exact H.
Qed.

Lemma base_dist_gate (b : Z) :
  (b <? 0) || (UINT8_MAX <? b) = true <-> ~ 0 <= b <= UINT8_MAX.
Proof.
  rewrite orb_true_iff, !Z.ltb_lt. lia.
Qed.

(** C1, as the code has it.  For a non-null descriptor:
    - when flags have NUMA-remote set and preimport unset and base_dist is
      outside [0,255], the call is rejected with EINVAL and the invalid
      mem_id, and nothing leaves the process;
    - in every other case, whatever the flags, the device handle is
      obtained first; without it the call returns the invalid mem_id with
      the errno of the open;
    - with the handle, the live primary channel of the source endpoint id
      is resolved: a channel other than the descriptor's scna, or none,
      ends the call with ENODEV and the invalid mem_id before any device
      transaction; the descriptor's own channel lets the import
      transaction be issued. *)
Theorem obmm_import_validation (E : env) (U : uapi) (d : obmm_mem_desc)
    (flags base_dist : Z) (numa : option Z) (w : world) :
  (numa_remote_without_preimport U flags = true ->
   ~ 0 <= base_dist <= UINT8_MAX ->
   obmm_import E U (Some d) flags base_dist numa w
   = (OBMM_INVALID_MEMID, numa, mk_world EINVAL (obmm_dev_fd w) (trace w)))
  /\
  (numa_remote_without_preimport U flags = false \/
   0 <= base_dist <= UINT8_MAX ->
   (handle E w < 0 ->
    obmm_import E U (Some d) flags base_dist numa w
    = (OBMM_INVALID_MEMID, numa,
       mk_world (snd (dev_open E)) (handle E w) (trace w ++ open_events w)))
   /\
   (0 <= handle E w ->
    forall c, live_primary_cna E (md_seid d) = Some c -> c = md_scna d ->
    exists r w' evs rv,
      obmm_import E U (Some d) flags base_dist numa w = (r, w') /\
      trace w' = trace w ++ evs ++ [EvIoctl (handle E w) OBMM_CMD_IMPORT rv]
      /\ no_ioctl evs)
   /\
   (0 <= handle E w ->
    (forall c, live_primary_cna E (md_seid d) = Some c -> c <> md_scna d) ->
    exists w' evs,
      obmm_import E U (Some d) flags base_dist numa w
      = (OBMM_INVALID_MEMID, numa, w') /\
      errno w' = ENODEV /\
      trace w' = trace w ++ evs /\ no_ioctl evs)).
Proof.
  split.
  - intros Hf Hb. unfold obmm_import. rewrite Hf.
    apply base_dist_gate in Hb. rewrite Hb. reflexivity.
  - intros Hgate.
    assert (Hg : numa_remote_without_preimport U flags
                 && ((base_dist <? 0) || (UINT8_MAX <? base_dist)) = false).
    { destruct Hgate as [->|Hb]; [reflexivity|].
      destruct ((base_dist <? 0) || (UINT8_MAX <? base_dist)) eqn:Hc.
      - apply base_dist_gate in Hc. contradiction.
      - apply andb_false_r. }
    assert (Hstart : obmm_import E U (Some d) flags base_dist numa w =
      (let cmd_import := import_cmd d flags base_dist numa in
       if handle E w <? 0 then ret (OBMM_INVALID_MEMID, numa)
       else
         rv <- vendor_fixup_import_cmd E cmd_import ;;
         if negb (rv =? 0) then ret (OBMM_INVALID_MEMID, numa)
         else
           r <- ioctl OBMM_CMD_IMPORT (dev_import E) (handle E w)
                      cmd_import ;;
           let '(rv, cmd_import) := r in
           errsv <- get_errno ;;
           vendor_cleanup_import_cmd cmd_import ;;;
           set_errno errsv ;;;
           if rv <? 0 then ret (OBMM_INVALID_MEMID, numa)
           else
             ret (ci_mem_id cmd_import,
                  match numa with
                  | Some _ => Some (ci_numa_id cmd_import)
                  | None => None
                  end))
        (mk_world (if handle E w <? 0 then snd (dev_open E) else 0)
                  (handle E w) (trace w ++ open_events w))).
    { unfold obmm_import. rewrite Hg. unfold bind at 1.
      rewrite obmm_dev_get_fd_spec. reflexivity. }
    cbv zeta in Hstart. split; [|split].
    + intros Hh. rewrite Hstart. apply Z.ltb_lt in Hh. rewrite Hh.
      reflexivity.
    + intros Hh c Hc Heq. rewrite Hstart. apply Z.ltb_ge in Hh. rewrite Hh.
      unfold bind at 1.
      match goal with |- context [vendor_fixup_import_cmd E ?c ?w1] =>
        destruct (vendor_fixup_import_cmd_run E c w1)
          as (evs & e & rv & Hrun & Hs & Hres); rewrite Hrun end.
      cbn [ci_seid ci_scna import_cmd with_mem_id_numa fill_import_cmd_info] in Hres.
      rewrite live_primary_cna_firstn, Hc in Hres.
      apply Z.eqb_eq in Heq. rewrite Heq in Hres. subst rv.
      cbn [trace obmm_dev_fd]. change (negb (0 =? 0)) with false. run.
      match goal with |- context [dev_import E ?fd ?c] =>
        destruct (dev_import E fd c) as [r er c'] end.
      cbn [io_ret io_errno io_cmd errno trace obmm_dev_fd].
      destruct (r <? 0); eexists _, _, (open_events w ++ evs), r;
        (split; [reflexivity|]); cbn [trace];
        rewrite <- !app_assoc;
        (split; [reflexivity|]);
        apply open_events_no_ioctl, sysfs_no_ioctl, Hs.
    + intros Hh Hne. rewrite Hstart. apply Z.ltb_ge in Hh. rewrite Hh.
      unfold bind at 1.
      match goal with |- context [vendor_fixup_import_cmd E ?c ?w1] =>
        destruct (vendor_fixup_import_cmd_run E c w1)
          as (evs & e & rv & Hrun & Hs & Hres); rewrite Hrun end.
      cbn [ci_seid ci_scna import_cmd with_mem_id_numa fill_import_cmd_info] in Hres.
      rewrite live_primary_cna_firstn in Hres.
      assert (Hbad : rv = -1 /\ e = ENODEV).
      { destruct (live_primary_cna E (md_seid d)) as [c|]; [|exact Hres].
        specialize (Hne c eq_refl). apply Z.eqb_neq in Hne.
        rewrite Hne in Hres. exact Hres. }
      destruct Hbad as [-> ->]. change (negb (-1 =? 0)) with true.
      unfold ret. cbn [trace obmm_dev_fd].
      eexists _, (open_events w ++ evs). split; [reflexivity|].
      cbn [errno trace]. rewrite <- app_assoc. repeat split.
      apply open_events_no_ioctl, sysfs_no_ioctl, Hs.
Qed.

Lemma obmm_import_validation_witness :
  (numa_remote_without_preimport Fixture.abi 4 = true /\
   ~ 0 <= 300 <= UINT8_MAX /\
   obmm_import Fixture.host Fixture.abi (Some Fixture.desc) 4 300 (Some 5)
     initial_world
   = (OBMM_INVALID_MEMID, Some 5, mk_world EINVAL (-1) [])) /\
  (0 <= handle Fixture.host initial_world /\
   live_primary_cna Fixture.host (md_seid Fixture.desc) = Some 85 /\
   85 = md_scna Fixture.desc /\
   exists r w' evs rv,
     obmm_import Fixture.host Fixture.abi (Some Fixture.desc) 0 0 (Some 5)
       initial_world = (r, w') /\
     trace w' = trace initial_world ++ evs ++
                [EvIoctl (handle Fixture.host initial_world) OBMM_CMD_IMPORT rv]
     /\ no_ioctl evs) /\
  (85 <> md_scna Fixture.desc_stale /\
   exists w' evs,
     obmm_import Fixture.host Fixture.abi (Some Fixture.desc_stale) 4 10
       (Some 5) initial_world = (OBMM_INVALID_MEMID, Some 5, w') /\
     errno w' = ENODEV /\
     trace w' = trace initial_world ++ evs /\ no_ioctl evs).
Proof.
  assert (Hb : ~ 0 <= 300 <= UINT8_MAX) by (unfold UINT8_MAX; lia).
  assert (Hh : 0 <= handle Fixture.host initial_world)
    by (vm_compute; discriminate).
  assert (Hin : 0 <= 10 <= UINT8_MAX) by (unfold UINT8_MAX; lia).
  split; [|split]; cycle 2.
  { split; [discriminate|].
    apply (proj2 (proj2 (proj2 (obmm_import_validation Fixture.host
                    Fixture.abi Fixture.desc_stale 4 10 (Some 5)
                    initial_world) (or_intror Hin))) Hh).
    intros c Hc. vm_compute in Hc. inversion Hc. discriminate. }
  - split; [reflexivity|]. split; [exact Hb|].
    exact (proj1 (obmm_import_validation Fixture.host Fixture.abi Fixture.desc
                    4 300 (Some 5) initial_world) eq_refl Hb).
  - split; [exact Hh|]. split; [vm_compute; reflexivity|].
    split; [reflexivity|].
    apply (proj1 (proj2 (proj2 (obmm_import_validation Fixture.host
                    Fixture.abi Fixture.desc 0 0 (Some 5) initial_world)
                    (or_introl eq_refl))) Hh 85).
    + vm_compute; reflexivity.
    + reflexivity.
Defined.

(** C1 as stated fails.  On the host without the control device the flags
    are not NUMA-remote-without-preimport and the descriptor's scna is the
    live primary channel of its source endpoint, yet the call does not
    reach the device transaction: it returns the invalid mem_id with the
    errno of the open, and no channel is resolved. *)
Lemma import_without_device :
  numa_remote_without_preimport Fixture.abi 0 = false /\
  live_primary_cna Fixture.host_no_device (md_seid Fixture.desc)
  = Some (md_scna Fixture.desc) /\
  obmm_import Fixture.host_no_device Fixture.abi (Some Fixture.desc) 0 0
    (Some 5) initial_world
  = (OBMM_INVALID_MEMID, Some 5, mk_world ENOENT (-1) [EvOpen]) /\
  existsb is_ioctl [EvOpen] = false /\ existsb is_sysfs [EvOpen] = false /\
  ENOENT <> ENODEV.
Proof. repeat split; try (vm_compute; reflexivity). discriminate. Qed.

(** The channel is validated under every flags value: with NUMA-remote set,
    preimport unset and base_dist in range, a stale scna is still
    refused. *)
Example import_remote_validates_channel :
  numa_remote_without_preimport Fixture.abi 4 = true /\
  fst (obmm_import Fixture.host Fixture.abi (Some Fixture.desc_stale) 4 10
         (Some 5) initial_world) = (OBMM_INVALID_MEMID, Some 5) /\
  errno (snd (obmm_import Fixture.host Fixture.abi (Some Fixture.desc_stale)
                4 10 (Some 5) initial_world)) = ENODEV.
Proof. repeat split; vm_compute; reflexivity. Qed.

(** C3, as the code has it.
    - [obmm_preimport] rejects a base_dist outside [0,255] with EINVAL and
      -1 whatever the flags are, and nothing leaves the process.
    - With base_dist in range and the device handle, it resolves the live
      primary channel of the source endpoint id: the descriptor's own scna
      lets the declare transaction be issued; another channel, or none,
      ends the call with -1 and ENODEV before any device transaction.
    - [obmm_unpreimport] checks neither: with the device handle it issues
      the undeclare transaction for every base_dist, scna and flags, reads
      no sysfs, and returns what the device returns. *)
Theorem preimport_validation (E : env) (p : obmm_preimport_info) (flags : Z)
    (w : world) :
  (~ 0 <= pi_base_dist p <= UINT8_MAX ->
   obmm_preimport E (Some p) flags w
   = (-1, Some p, mk_world EINVAL (obmm_dev_fd w) (trace w)))
  /\
  (0 <= pi_base_dist p <= UINT8_MAX -> 0 <= handle E w ->
   forall c, live_primary_cna E (pi_seid p) = Some c -> c = pi_scna p ->
   exists r p' w' evs rv,
     obmm_preimport E (Some p) flags w = (r, p', w') /\
     trace w' = trace w ++ evs ++
                [EvIoctl (handle E w) OBMM_CMD_DECLARE_PREIMPORT rv] /\
     no_ioctl evs)
  /\
  (0 <= pi_base_dist p <= UINT8_MAX -> 0 <= handle E w ->
   (forall c, live_primary_cna E (pi_seid p) = Some c -> c <> pi_scna p) ->
   exists w' evs,
     obmm_preimport E (Some p) flags w = (-1, Some p, w') /\
     errno w' = ENODEV /\ trace w' = trace w ++ evs /\ no_ioctl evs)
  /\
  (0 <= handle E w ->
   let reply := dev_undeclare_preimport E (handle E w) (preimport_cmd p flags)
   in
   obmm_unpreimport E (Some p) flags w
   = (io_ret reply,
      mk_world (if io_ret reply <? 0 then io_errno reply else 0)
               (handle E w)
               ((trace w ++ open_events w) ++
                [EvIoctl (handle E w) OBMM_CMD_UNDECLARE_PREIMPORT
                   (io_ret reply)]))).
Proof.
  split; [|split; [|split]].
  - intros Hb. unfold obmm_preimport. apply base_dist_gate in Hb.
    rewrite Hb. reflexivity.
  - intros Hb Hh c Hc Heq.
    assert (Hg : (pi_base_dist p <? 0) || (UINT8_MAX <? pi_base_dist p)
                 = false).
    { destruct (_ || _) eqn:Hc'; [|reflexivity].
      apply base_dist_gate in Hc'. contradiction. }
    unfold obmm_preimport. rewrite Hg. unfold bind at 1.
    rewrite obmm_dev_get_fd_spec. apply Z.ltb_ge in Hh. rewrite Hh.
    unfold bind at 1.
    match goal with |- context [vendor_fixup_preimport_cmd E ?c ?w1] =>
      destruct (vendor_fixup_preimport_cmd_run E c w1)
        as (evs & e & rv & Hrun & Hs & Hres); rewrite Hrun end.
    cbn [cr_seid cr_scna preimport_cmd] in Hres.
    rewrite live_primary_cna_firstn, Hc in Hres.
    apply Z.eqb_eq in Heq. rewrite Heq in Hres. subst rv.
    cbn [trace obmm_dev_fd]. change (negb (0 =? 0)) with false. run.
    match goal with |- context [dev_declare_preimport E ?fd ?c] =>
      destruct (dev_declare_preimport E fd c) as [r er c'] end.
    cbn [io_ret io_errno io_cmd errno trace obmm_dev_fd].
    destruct (r <? 0); eexists _, _, _, (open_events w ++ evs), r;
      (split; [reflexivity|]); cbn [trace];
      rewrite <- !app_assoc;
      (split; [reflexivity|]);
      apply open_events_no_ioctl, sysfs_no_ioctl, Hs.
  - intros Hb Hh Hne.
    assert (Hg : (pi_base_dist p <? 0) || (UINT8_MAX <? pi_base_dist p)
                 = false).
    { destruct (_ || _) eqn:Hc'; [|reflexivity].
      apply base_dist_gate in Hc'. contradiction. }
    unfold obmm_preimport. rewrite Hg. unfold bind at 1.
    rewrite obmm_dev_get_fd_spec. apply Z.ltb_ge in Hh. rewrite Hh.
    unfold bind at 1.
    match goal with |- context [vendor_fixup_preimport_cmd E ?c ?w1] =>
      destruct (vendor_fixup_preimport_cmd_run E c w1)
        as (evs & e & rv & Hrun & Hs & Hres); rewrite Hrun end.
    cbn [cr_seid cr_scna preimport_cmd] in Hres.
    rewrite live_primary_cna_firstn in Hres.
    assert (Hbad : rv = -1 /\ e = ENODEV).
    { destruct (live_primary_cna E (pi_seid p)) as [c|]; [|exact Hres].
      specialize (Hne c eq_refl). apply Z.eqb_neq in Hne.
      rewrite Hne in Hres. exact Hres. }
    destruct Hbad as [-> ->]. change (negb (-1 =? 0)) with true.
    unfold ret. cbn [trace obmm_dev_fd].
    eexists _, (open_events w ++ evs). split; [reflexivity|].
    cbn [errno trace]. rewrite <- app_assoc. repeat split.
    apply open_events_no_ioctl, sysfs_no_ioctl, Hs.
  - intros Hh reply. subst reply. unfold obmm_unpreimport, bind at 1.
    rewrite obmm_dev_get_fd_spec. apply Z.ltb_ge in Hh. rewrite Hh.
    run. reflexivity.
Qed.

Lemma preimport_validation_witness :
  (~ 0 <= pi_base_dist (Fixture.preimport 300 85) <= UINT8_MAX /\
   obmm_preimport Fixture.host (Some (Fixture.preimport 300 85)) 0
     initial_world
   = (-1, Some (Fixture.preimport 300 85), mk_world EINVAL (-1) [])) /\
  (0 <= pi_base_dist (Fixture.preimport 10 85) <= UINT8_MAX /\
   0 <= handle Fixture.host initial_world /\
   live_primary_cna Fixture.host (pi_seid (Fixture.preimport 10 85)) = Some 85
   /\ 85 = pi_scna (Fixture.preimport 10 85) /\
   exists r p' w' evs rv,
     obmm_preimport Fixture.host (Some (Fixture.preimport 10 85)) 0
       initial_world = (r, p', w') /\
     trace w' = trace initial_world ++ evs ++
                [EvIoctl (handle Fixture.host initial_world)
                   OBMM_CMD_DECLARE_PREIMPORT rv] /\
     no_ioctl evs).
Proof.
  assert (Hb : ~ 0 <= pi_base_dist (Fixture.preimport 300 85) <= UINT8_MAX)
    by (unfold UINT8_MAX; simpl; lia).
  assert (Hb' : 0 <= pi_base_dist (Fixture.preimport 10 85) <= UINT8_MAX)
    by (unfold UINT8_MAX; simpl; lia).
  assert (Hh : 0 <= handle Fixture.host initial_world)
    by (vm_compute; discriminate).
  split.
  - split; [exact Hb|].
    exact (proj1 (preimport_validation Fixture.host
                    (Fixture.preimport 300 85) 0 initial_world) Hb).
  - split; [exact Hb'|]. split; [exact Hh|].
    split; [vm_compute; reflexivity|]. split; [reflexivity|].
    apply (proj1 (proj2 (preimport_validation Fixture.host
                    (Fixture.preimport 10 85) 0 initial_world)) Hb' Hh 85).
    + vm_compute; reflexivity.
    + reflexivity.
Defined.

(** C3 as stated fails, for both functions.
    [obmm_unpreimport] with NUMA-remote set, preimport unset, base_dist 300
    and a scna (86) that is not the live channel (85) is not rejected: the
    undeclare transaction is issued and the call returns 0.
    [obmm_preimport] with flags 0 and base_dist 300 is rejected with
    EINVAL although NUMA-remote is not set. *)
Lemma preimport_checks_differ_from_import :
  numa_remote_without_preimport Fixture.abi 4 = true /\
  live_primary_cna Fixture.host (pi_seid (Fixture.preimport 300 86))
  = Some 85 /\
  obmm_unpreimport Fixture.host (Some (Fixture.preimport 300 86)) 4
    initial_world
  = (0, mk_world 0 3 [EvOpen; EvIoctl 3 OBMM_CMD_UNDECLARE_PREIMPORT 0]) /\
  numa_remote_without_preimport Fixture.abi 0 = false /\
  obmm_preimport Fixture.host (Some (Fixture.preimport 300 85)) 0
    initial_world
  = (-1, Some (Fixture.preimport 300 85), mk_world EINVAL (-1) []).
Proof. repeat split; vm_compute; reflexivity. Qed.

(* ================================================================== *)
(** ** Topology resolution *)





(* ================================================================== *)
(** ** The vendor payload *)

Lemma shl_int_small (m : Z) : 0 <= m <= 30 -> u64 (shl_int 1 m) = 2 ^ m.
Proof.
  intros Hm. unfold shl_int, s32, u64.
  rewrite (Z.mod_small m 32) by lia.
  rewrite Z.shiftl_1_l.
  assert (H30 : 0 < 2 ^ m <= 2 ^ 30).
  { split; [apply Z.pow_pos_nonneg; lia|].
    apply Z.pow_le_mono_r; lia. }
  change (2 ^ 30) with 1073741824 in H30.
  rewrite (Z.mod_small (2 ^ m) (2 ^ 32)) by (change (2 ^ 32) with 4294967296; lia).
  destruct (Z.ltb_spec (2 ^ m) (2 ^ 31)) as [_|Hbad];
    [|change (2 ^ 31) with 2147483648 in Hbad; lia].
  apply Z.mod_small. change (2 ^ 64) with 18446744073709551616. lia.
Qed.

(** The payload for the mapping indices the [int] shift serves.  For a
    mapping index from 0 to 30 the payload built has version tag V1, the on-chip flag set, and the mask
    [2 ^ mapping_index]: exactly the bit at position [mapping_index] is
    set (index 3 gives 0b1000).  When the payload structure is larger than
    [OBMM_MAX_VENDOR_LEN] the build fails with EINVAL (with ENOMEM if the
    allocation has failed before) and writes nothing. *)
Theorem init_vendor_info_payload (E : env) (U : uapi) (m : Z)
    (out : vendor_out) (w : world) :
  (0 <= m <= 30 -> calloc_ok E = true ->
   sizeof_hisi_ummu_tdev_info <= OBMM_MAX_VENDOR_LEN U ->
   fst (init_vendor_info E U m out w)
   = (0, mk_vendor_out
           (Some {| ver := HISI_TDEV_INFO_V1; ummu_idx_mask := 2 ^ m;
                    on_chip := true |})
           sizeof_hisi_ummu_tdev_info (vo_numa out)) /\
   forall k, Z.testbit (2 ^ m) k = (m =? k))
  /\
  (OBMM_MAX_VENDOR_LEN U < sizeof_hisi_ummu_tdev_info ->
   fst (init_vendor_info E U m out w)
   = (if calloc_ok E then EINVAL else ENOMEM, out) /\
   EINVAL <> 0 /\ ENOMEM <> 0).
Proof.
  split.
  - intros Hm Hc Hs. split.
    + unfold init_vendor_info. run. rewrite Hc.
      apply Z.ltb_ge in Hs. rewrite Hs. simpl.
      rewrite shl_int_small by exact Hm. reflexivity.
    + intros k. apply Z.pow2_bits_eqb. lia.
  - intros Hs. unfold init_vendor_info. run.
    apply Z.ltb_lt in Hs. rewrite Hs.
    split; [|split; discriminate].
    destruct (calloc_ok E); reflexivity.
Qed.

Lemma init_vendor_info_payload_witness :
  0 <= 3 <= 30 /\ calloc_ok Fixture.host = true /\
  sizeof_hisi_ummu_tdev_info <= OBMM_MAX_VENDOR_LEN Fixture.abi /\
  fst (init_vendor_info Fixture.host Fixture.abi 3 vendor_out_zero
         initial_world)
  = (0, mk_vendor_out
          (Some {| ver := HISI_TDEV_INFO_V1; ummu_idx_mask := 2 ^ 3;
                   on_chip := true |})
          sizeof_hisi_ummu_tdev_info 0) /\
  (forall k, Z.testbit (2 ^ 3) k = (3 =? k)) /\
  2 ^ 3 = 8.
Proof.
  assert (H3 : 0 <= 3 <= 30) by lia.
  assert (Hs : sizeof_hisi_ummu_tdev_info <= OBMM_MAX_VENDOR_LEN Fixture.abi)
    by (vm_compute; discriminate).
  split; [exact H3|]. split; [reflexivity|]. split; [exact Hs|].
  destruct (proj1 (init_vendor_info_payload Fixture.host Fixture.abi 3
                     vendor_out_zero initial_world) H3 eq_refl Hs)
    as [Hp Hb].
  split; [exact Hp|]. split; [exact Hb|reflexivity].
Defined.

(** C6.  At mapping index 31 the payload does not carry the one-bit
    mask.  The mask is computed as the [int] expression
    [1 << ummu_mapping] and then converted to the 64-bit field: at index
    31 the [int] result is negative and its conversion sets bits 31 to 63,
    0xFFFFFFFF80000000, where the mask with exactly the bit at position 31
    is [2 ^ 31].  The version tag and the on-chip flag are as claimed.
    The index is one the code receives: on [host_map_31] the controller's
    [ummu_map] attribute reads 31 and [vendor_adapt_export] hands out that
    mask. *)
Theorem init_vendor_info_mask_31 :
  fst (init_vendor_info Fixture.host Fixture.abi 31 vendor_out_zero
         initial_world)
  = (0, mk_vendor_out
          (Some {| ver := HISI_TDEV_INFO_V1;
                   ummu_idx_mask := 18446744071562067968;
                   on_chip := true |})
          sizeof_hisi_ummu_tdev_info 0) /\
  18446744071562067968 <> 2 ^ 31 /\
  (forall k,
     Z.testbit 18446744071562067968 k = (31 <=? k) && (k <? 64)) /\
  attr_value EdgeFixture.host_map_31
    "/sys/devices/ub_bus_controller3/0000:03" "ummu_map" = 31 /\
  fst (vendor_adapt_export EdgeFixture.host_map_31 Fixture.abi Fixture.desc
         vendor_out_zero initial_world)
  = (0, mk_vendor_out
          (Some {| ver := HISI_TDEV_INFO_V1;
                   ummu_idx_mask := 18446744071562067968;
                   on_chip := true |})
          sizeof_hisi_ummu_tdev_info 1).
Proof.
  split; [vm_compute; reflexivity|]. split; [discriminate|].
  split; [|split; vm_compute; reflexivity].
  intros k. change 18446744071562067968 with (Z.shiftl (Z.ones 33) 31).
  destruct (Z.ltb_spec k 0) as [Hneg|Hk].
  { rewrite Z.testbit_neg_r by exact Hneg.
    destruct (Z.leb_spec 31 k); [lia|reflexivity]. }
  rewrite Z.shiftl_spec by exact Hk.
  destruct (Z.leb_spec 31 k) as [H31|H31].
  - destruct (Z.ltb_spec k 64) as [H64|H64].
    + apply Z.ones_spec_low. lia.
    + apply Z.ones_spec_high. lia.
  - apply Z.testbit_neg_r. lia.
Qed.

(** No 64-bit mask has a bit at position 64: there the build gives bit 0. *)
Example init_vendor_info_mask_64 :
  fst (init_vendor_info Fixture.host Fixture.abi 64 vendor_out_zero
         initial_world)
  = (0, mk_vendor_out
          (Some {| ver := HISI_TDEV_INFO_V1; ummu_idx_mask := 1;
                   on_chip := true |})
          sizeof_hisi_ummu_tdev_info 0).
Proof. vm_compute; reflexivity. Qed.

(* ================================================================== *)
(** ** Output locations *)

Lemma obmm_import_outcome E U desc flags base_dist numa w r numa' w' :
  obmm_import E U desc flags base_dist numa w = (r, numa', w') ->
  (r = OBMM_INVALID_MEMID /\ numa' = numa) \/
  (exists fd c,
     0 <= io_ret (dev_import E fd c) /\
     r = ci_mem_id (io_cmd (dev_import E fd c)) /\
     ends_granted OBMM_CMD_IMPORT w w').
Proof.
  unfold obmm_import. intros H.
  destruct desc as [d|]; [|inversion H; left; auto].
  destruct (_ && _); [inversion H; left; auto|].
  unfold bind at 1 in H. rewrite obmm_dev_get_fd_spec in H.
  destruct (handle E w <? 0); [inversion H; left; auto|].
  unfold bind at 1 in H.
  match type of H with context [vendor_fixup_import_cmd E ?c ?w1] =>
    destruct (vendor_fixup_import_cmd_run E c w1)
      as (evs & e & rv & Hrun & Hs & _); rewrite Hrun in H end.
  destruct (negb (rv =? 0)); [inversion H; left; auto|].
  run. cbn [trace obmm_dev_fd errno] in H.
  match type of H with context [dev_import E ?fd ?c] =>
    pose (fd0 := fd); pose (c0 := c);
    change (dev_import E fd c) with (dev_import E fd0 c0) in H;
    destruct (dev_import E fd0 c0) as [r0 er c'] eqn:Hdev end.
  cbn [io_ret io_errno io_cmd] in H.
  destruct (r0 <? 0) eqn:Hr; [inversion H; left; auto|].
  right. exists fd0, c0. rewrite Hdev. cbn [io_ret io_cmd].
  apply Z.ltb_ge in Hr. inversion H; subst. split; [exact Hr|].
  split; [reflexivity|].
  exists (open_events w ++ evs), fd0, r0. cbn [trace].
  rewrite <- !app_assoc. auto.
Qed.

Lemma obmm_preimport_outcome E info flags w r info' w' :
  obmm_preimport E info flags w = (r, info', w') ->
  (r <> 0 /\ info' = info) \/
  (r = 0 /\ ends_granted OBMM_CMD_DECLARE_PREIMPORT w w' /\
   exists p n, info = Some p /\ info' = Some (with_numa_id p n)).
Proof.
  unfold obmm_preimport. intros H.
  destruct info as [p|]; [|inversion H; left; split; [discriminate|auto]].
  destruct (_ || _);
    [inversion H; left; split; [discriminate|auto]|].
  unfold bind at 1 in H. rewrite obmm_dev_get_fd_spec in H.
  destruct (handle E w <? 0) eqn:Hh.
  { inversion H; left. apply Z.ltb_lt in Hh. split; [lia|auto]. }
  unfold bind at 1 in H.
  match type of H with context [vendor_fixup_preimport_cmd E ?c ?w1] =>
    destruct (vendor_fixup_preimport_cmd_run E c w1)
      as (evs & e & rv & Hrun & Hs & _); rewrite Hrun in H end.
  destruct (rv =? 0) eqn:Hrv; cbn [negb] in H.
  2: { inversion H; left. apply Z.eqb_neq in Hrv. subst. auto. }
  run. cbn [trace obmm_dev_fd errno] in H.
  match type of H with context [dev_declare_preimport E ?fd ?c] =>
    pose (fd0 := fd);
    change (dev_declare_preimport E fd c)
      with (dev_declare_preimport E fd0 c) in H;
    destruct (dev_declare_preimport E fd0 c) as [r0 er c'] end.
  cbn [io_ret io_errno io_cmd] in H.
  destruct (r0 <? 0) eqn:Hr.
  { inversion H; left. apply Z.ltb_lt in Hr. split; [lia|auto]. }
  right. apply Z.ltb_ge in Hr. inversion H; subst. split; [reflexivity|].
  split; [|eauto].
  exists (open_events w ++ evs), fd0, r0. cbn [trace].
  rewrite <- !app_assoc. auto.
Qed.

Lemma obmm_query_memid_by_pa_outcome E pa id offset w r id' offset' w' :
  obmm_query_memid_by_pa E pa id offset w = (r, id', offset', w') ->
  (r <> 0 /\ id' = id /\ offset' = offset) \/
  (r = 0 /\ ends_granted OBMM_CMD_ADDR_QUERY w w' /\
   (id = None -> id' = None) /\ (offset = None -> offset' = None)).
Proof.
  unfold obmm_query_memid_by_pa. intros H.
  unfold bind at 1 in H. rewrite obmm_dev_get_fd_spec in H.
  destruct (handle E w <? 0) eqn:Hh.
  { inversion H; left. apply Z.ltb_lt in Hh. split; [lia|auto]. }
  run. cbn [trace obmm_dev_fd errno] in H.
  match type of H with context [dev_addr_query E ?fd ?c] =>
    destruct (dev_addr_query E fd c) as [r0 er c'] end.
  cbn [io_ret io_errno io_cmd] in H.
  destruct (r0 <? 0) eqn:Hr.
  { inversion H; left. apply Z.ltb_lt in Hr. split; [lia|auto]. }
  right. apply Z.ltb_ge in Hr. inversion H; subst. split; [reflexivity|].
  split.
  - exists (open_events w), (handle E w), r0. cbn [trace].
    rewrite <- !app_assoc. auto.
  - split; intros ->; reflexivity.
Qed.

Lemma obmm_query_pa_by_memid_outcome E id offset pa w r pa' w' :
  obmm_query_pa_by_memid E id offset pa w = (r, pa', w') ->
  (r <> 0 /\ pa' = pa) \/
  (r = 0 /\ ends_granted OBMM_CMD_ADDR_QUERY w w' /\
   (pa = None -> pa' = None)).
Proof.
  unfold obmm_query_pa_by_memid. intros H.
  unfold bind at 1 in H. rewrite obmm_dev_get_fd_spec in H.
  destruct (handle E w <? 0) eqn:Hh.
  { inversion H; left. apply Z.ltb_lt in Hh. split; [lia|auto]. }
  run. cbn [trace obmm_dev_fd errno] in H.
  match type of H with context [dev_addr_query E ?fd ?c] =>
    destruct (dev_addr_query E fd c) as [r0 er c'] end.
  cbn [io_ret io_errno io_cmd] in H.
  destruct (r0 <? 0) eqn:Hr.
  { inversion H; left. apply Z.ltb_lt in Hr. split; [lia|auto]. }
  right. apply Z.ltb_ge in Hr. inversion H; subst. split; [reflexivity|].
  split.
  - exists (open_events w), (handle E w), r0. cbn [trace].
    rewrite <- !app_assoc. auto.
  - intros ->; reflexivity.
Qed.

(** C10.  Output locations are written only on success.
    - [obmm_import]: if [*numa] is not what it was, the call ended in a
      granted import transaction.  A call that returns the invalid mem_id
      has left [*numa] as it was, unless the device granted the import
      and handed out mem_id 0: the library returns the device's mem_id
      unchecked, after it has written [*numa].  So on every device that
      keeps mem_id 0 reserved, a call that returns the invalid mem_id has
      left [*numa] as it was.
    - [obmm_preimport]: a call that returns non-zero leaves the whole of
      [*preimport_info], its numa_id included, as it was.
    - [obmm_query_memid_by_pa], [obmm_query_pa_by_memid]: a call that
      returns non-zero leaves [*id], [*offset], [*pa] as they were; if one
      of them changed, the call ended in a granted query transaction; a
      null output pointer stays null and the call goes through. *)
Theorem outputs_written_only_on_success (E : env) (U : uapi) (w : world) :
  (forall desc flags base_dist numa r numa' w',
     obmm_import E U desc flags base_dist numa w = (r, numa', w') ->
     (numa' <> numa -> ends_granted OBMM_CMD_IMPORT w w') /\
     (r = OBMM_INVALID_MEMID ->
      numa' = numa \/
      exists fd c,
        0 <= io_ret (dev_import E fd c) /\
        ci_mem_id (io_cmd (dev_import E fd c)) = OBMM_INVALID_MEMID /\
        ends_granted OBMM_CMD_IMPORT w w') /\
     (import_ids_valid E -> r = OBMM_INVALID_MEMID -> numa' = numa))
  /\
  (forall info flags r info' w',
     obmm_preimport E info flags w = (r, info', w') ->
     (r <> 0 -> info' = info) /\
     (info' <> info -> ends_granted OBMM_CMD_DECLARE_PREIMPORT w w'))
  /\
  (forall pa id offset r id' offset' w',
     obmm_query_memid_by_pa E pa id offset w = (r, id', offset', w') ->
     (r <> 0 -> id' = id /\ offset' = offset) /\
     (id' <> id \/ offset' <> offset ->
      ends_granted OBMM_CMD_ADDR_QUERY w w') /\
     (id = None -> id' = None) /\ (offset = None -> offset' = None))
  /\
  (forall id offset pa r pa' w',
     obmm_query_pa_by_memid E id offset pa w = (r, pa', w') ->
     (r <> 0 -> pa' = pa) /\
     (pa' <> pa -> ends_granted OBMM_CMD_ADDR_QUERY w w') /\
     (pa = None -> pa' = None)).
Proof.
  split; [|split; [|split]].
  - intros desc flags base_dist numa r numa' w' H.
    destruct (obmm_import_outcome _ _ _ _ _ _ _ _ _ _ H)
      as [[Hr Hn]|(fd & c & Hok & Hr & Hend)].
    + split; [intros Hne; contradiction|]. split; auto.
    + split; [auto|]. split.
      * intros Hinv. right. exists fd, c. split; [exact Hok|].
        split; [congruence|exact Hend].
      * intros Hids Hinv. exfalso.
        apply (Hids fd c Hok). congruence.
  - intros info flags r info' w' H.
    destruct (obmm_preimport_outcome _ _ _ _ _ _ _ H)
      as [[Hr Hn]|(Hr & Hend & _)].
    + split; [auto|intros Hne; contradiction].
    + split; [intros Hne; contradiction|auto].
  - intros pa id offset r id' offset' w' H.
    destruct (obmm_query_memid_by_pa_outcome _ _ _ _ _ _ _ _ _ H)
      as [(Hr & Hi & Ho)|(Hr & Hend & Hi & Ho)].
    + subst. split; [auto|]. split; [|auto].
      intros [Hne|Hne]; contradiction.
    + split; [intros Hne; contradiction|]. split; [auto|]. split; auto.
  - intros id offset pa r pa' w' H.
    destruct (obmm_query_pa_by_memid_outcome _ _ _ _ _ _ _ _ H)
      as [(Hr & Hp)|(Hr & Hend & Hp)].
    + subst. split; [auto|]. split; [|auto].
      intros Hne; contradiction.
    + split; [intros Hne; contradiction|]. split; auto.
Qed.

Lemma outputs_written_only_on_success_witness :
  import_ids_valid Fixture.host /\
  obmm_import Fixture.host Fixture.abi (Some Fixture.desc_stale) 0 0 (Some 5)
    initial_world
  = (OBMM_INVALID_MEMID, Some 5,
     snd (obmm_import Fixture.host Fixture.abi (Some Fixture.desc_stale) 0 0
            (Some 5) initial_world)) /\
  Some 5 = Some 5 /\
  obmm_preimport Fixture.host (Some (Fixture.preimport 10 86)) 0 initial_world
  = (-1, Some (Fixture.preimport 10 86),
     snd (obmm_preimport Fixture.host (Some (Fixture.preimport 10 86)) 0
            initial_world)) /\
  -1 <> 0 /\
  Some (Fixture.preimport 10 86) = Some (Fixture.preimport 10 86) /\
  obmm_query_memid_by_pa Fixture.host_rejecting 4096 (Some 1) None
    initial_world
  = (-1, Some 1, None,
     snd (obmm_query_memid_by_pa Fixture.host_rejecting 4096 (Some 1) None
            initial_world)) /\
  (Some 1 = Some 1 /\ @None Z = None).
Proof.
  assert (Hids : import_ids_valid Fixture.host)
    by (intros fd cmd _; simpl; discriminate).
  assert (Hi : obmm_import Fixture.host Fixture.abi (Some Fixture.desc_stale)
                 0 0 (Some 5) initial_world
               = (OBMM_INVALID_MEMID, Some 5,
                  snd (obmm_import Fixture.host Fixture.abi
                         (Some Fixture.desc_stale) 0 0 (Some 5)
                         initial_world)))
    by (vm_compute; reflexivity).
  assert (Hp : obmm_preimport Fixture.host (Some (Fixture.preimport 10 86)) 0
                 initial_world
               = (-1, Some (Fixture.preimport 10 86),
                  snd (obmm_preimport Fixture.host
                         (Some (Fixture.preimport 10 86)) 0 initial_world)))
    by (vm_compute; reflexivity).
  assert (Hq : obmm_query_memid_by_pa Fixture.host_rejecting 4096 (Some 1)
                 None initial_world
               = (-1, Some 1, None,
                  snd (obmm_query_memid_by_pa Fixture.host_rejecting 4096
                         (Some 1) None initial_world)))
    by (vm_compute; reflexivity).
  assert (Hne : -1 <> 0) by discriminate.
  split; [exact Hids|]. split; [exact Hi|].
  split.
  { exact (proj2 (proj2 (proj1 (outputs_written_only_on_success
                                  Fixture.host Fixture.abi initial_world)
                           _ _ _ _ _ _ _ Hi)) Hids eq_refl). }
  split; [exact Hp|]. split; [exact Hne|].
  split.
  { exact (proj1 (proj1 (proj2 (outputs_written_only_on_success Fixture.host
                                  Fixture.abi initial_world))
                    _ _ _ _ _ Hp) Hne). }
  split; [exact Hq|].
  exact (proj1 (proj1 (proj2 (proj2 (outputs_written_only_on_success
                                       Fixture.host_rejecting Fixture.abi
                                       initial_world)))
                  _ _ _ _ _ _ _ Hq) Hne).
Defined.

(** C10 as stated fails where the device does not keep mem_id 0
    reserved: a device that grants an import and hands out mem_id 0 makes
    [obmm_import] return the invalid mem_id after it has written [*numa],
    here 2 over the caller's 5. *)
Example import_granted_without_id :
  let E := {| sys_glob := sys_glob Fixture.host;
              sys_file := sys_file Fixture.host;
              lib_errno := Fixture.quiet_errno;
              calloc_ok := true;
              dev_open := (3, 0);
              dev_addr_query := Fixture.grant_addr_query;
              dev_export_pid := Fixture.grant_export_pid;
              dev_export := Fixture.grant_export;
              dev_import := Fixture.grant_import_no_id;
              dev_unexport := Fixture.reject;
              dev_unimport := Fixture.reject;
              dev_declare_preimport := Fixture.grant_preimport;
              dev_undeclare_preimport := Fixture.reject |} in
  fst (obmm_import E Fixture.abi (Some Fixture.desc) 0 0 (Some 5)
         initial_world) = (OBMM_INVALID_MEMID, Some 2).
Proof. vm_compute; reflexivity. Qed.

(* ================================================================== *)
(** ** The vendor payload around the export transaction *)

(** [obmm_export]: once the payload is built, the transaction is issued,
    the payload is released whatever the device answered, and errno is
    the one the transaction left. *)
Lemma obmm_export_restores_errno E U len flags d w out w2 :
  0 <= handle E w ->
  vendor_adapt_export E U d vendor_out_zero (snd (obmm_dev_get_fd E w))
  = (0, out, w2) ->
  let w3 := snd (ioctl OBMM_CMD_EXPORT (dev_export E) (handle E w)
                      (export_cmd U len flags d out) w2) in
  let w' := snd (obmm_export E U (Some len) flags (Some d) w) in
  trace w' = trace w3 ++ [EvFree] /\ errno w' = errno w3.
Proof.
  intros Hh Hv w3 w'. subst w3 w'.
  remember (obmm_export E U (Some len) flags (Some d) w) as res eqn:Hres.
  unfold obmm_export, bind at 1 in Hres.
  rewrite obmm_dev_get_fd_spec in *. cbn [snd] in Hv.
  apply Z.ltb_ge in Hh. rewrite Hh in *.
  unfold bind at 1 in Hres. rewrite Hv in Hres. cbn [Z.eqb negb] in Hres.
  run. cbn [trace errno obmm_dev_fd fst snd] in *.
  destruct (dev_export E (handle E w) (export_cmd U len flags d out))
    as [r0 er c'].
  cbn [io_ret io_errno io_cmd] in *.
  destruct (r0 <? 0); subst res; cbn [snd trace errno]; split; reflexivity.
Qed.

(** [obmm_export_useraddr]: the payload is released whatever the device
    answered, but errno is what [free] made of the one the transaction
    left. *)
Lemma obmm_export_useraddr_errno_after_free E U pid va len flags d w out w2 :
  0 <= handle E w ->
  vendor_adapt_export E U d vendor_out_zero (snd (obmm_dev_get_fd E w))
  = (0, out, w2) ->
  let w3 :=
    snd (ioctl OBMM_CMD_EXPORT_PID (dev_export_pid E) (handle E w)
               (export_pid_cmd pid va len flags d out) w2) in
  let w' := snd (obmm_export_useraddr E U pid va len flags (Some d) w) in
  trace w' = trace w3 ++ [EvFree] /\
  errno w' = lib_errno E EvFree (errno w3).
Proof.
  intros Hh Hv w3 w'. subst w3 w'.
  remember (obmm_export_useraddr E U pid va len flags (Some d) w)
    as res eqn:Hres.
  unfold obmm_export_useraddr, bind at 1 in Hres.
  rewrite obmm_dev_get_fd_spec in *. cbn [snd] in Hv.
  apply Z.ltb_ge in Hh. rewrite Hh in *.
  unfold bind at 1 in Hres. rewrite Hv in Hres. cbn [Z.eqb negb] in Hres.
  run. cbn [trace errno obmm_dev_fd fst snd] in *.
  destruct (dev_export_pid E (handle E w)
              (export_pid_cmd pid va len flags d out)) as [r0 er c'].
  cbn [io_ret io_errno io_cmd] in *.
  destruct (r0 <? 0); subst res; cbn [snd trace errno]; split; reflexivity.
Qed.

(** C2.  Both export paths release the vendor payload after the device
    transaction whatever its outcome, but only [obmm_export] saves errno
    before the release and restores it after; [obmm_export_useraddr]
    releases the payload without saving errno.  On the host whose device rejects every transaction with EIO and
    whose [free] leaves ENOMEM in errno, both calls issue the transaction
    and release the payload; [obmm_export] returns with EIO,
    [obmm_export_useraddr] with ENOMEM. *)
Theorem export_useraddr_loses_transaction_errno :
  let w1 := snd (obmm_export Fixture.host_rejecting Fixture.abi
                   (Some Fixture.lengths) 0 (Some Fixture.desc)
                   initial_world) in
  let w2 := snd (obmm_export_useraddr Fixture.host_rejecting Fixture.abi 0
                   1234 8192 0 (Some Fixture.desc) initial_world) in
  skipn 9 (trace w1) = [EvCalloc; EvIoctl 3 OBMM_CMD_EXPORT (-1); EvFree] /\
  skipn 9 (trace w2) = [EvCalloc; EvIoctl 3 OBMM_CMD_EXPORT_PID (-1); EvFree]
  /\ errno w1 = EIO /\ errno w2 = ENOMEM.
Proof. repeat split; vm_compute; reflexivity. Qed.

(* ================================================================== *)
(** ** Which calls leave the process: composition *)

Section Emits.
Variable P : event -> bool.

Lemma emits_ret {A} (a : A) : emits P (ret a).
Proof. intros w. split; [reflexivity|]. exists []. now rewrite app_nil_r. Qed.

Lemma emits_set_errno (e : Z) : emits P (set_errno e).
Proof. intros w. split; [reflexivity|]. exists []. simpl. now rewrite app_nil_r. Qed.

Lemma emits_get_errno : emits P get_errno.
Proof. intros w. split; [reflexivity|]. exists []. simpl. now rewrite app_nil_r. Qed.

Lemma emits_lib_call (E : env) (ev : event) :
  P ev = true -> emits P (lib_call E ev).
Proof.
  intros Hev w. split; [reflexivity|]. exists [ev]. simpl.
  now rewrite Hev.
Qed.

Lemma emits_ioctl {C} (req : ioctl_req) (dev : Z -> C -> ioctl_reply C)
    (fd : Z) (cmd : C) :
  (forall rv, P (EvIoctl fd req rv) = true) -> emits P (ioctl req dev fd cmd).
Proof.
  intros Hev w. split; [reflexivity|]. eexists [_]. simpl.
  split; [reflexivity|]. now rewrite Hev.
Qed.

Lemma emits_bind {A B} (m : M A) (k : A -> M B) :
  emits P m -> (forall a, emits P (k a)) -> emits P (bind m k).
Proof.
  intros Hm Hk w. unfold bind.
  destruct (Hm w) as (Hfd & evs & Ht & Hp).
  destruct (m w) as [a w1]. simpl in *.
  destruct (Hk a w1) as (Hfd' & evs' & Ht' & Hp').
  split; [congruence|]. exists (evs ++ evs').
  rewrite Ht', Ht, app_assoc, forallb_app, Hp, Hp'. auto.
Qed.

Lemma emits_steady {A} (m : M A) : emits P m -> steady P m.
Proof. intros Hm w _. apply Hm. Qed.

Lemma steady_bind {A B} (m : M A) (k : A -> M B) :
  steady P m -> (forall a, steady P (k a)) -> steady P (bind m k).
Proof.
  intros Hm Hk w Hw. unfold bind.
  destruct (Hm w Hw) as (Hfd & evs & Ht & Hp).
  destruct (m w) as [a w1]. simpl in *.
  destruct (Hk a w1) as (Hfd' & evs' & Ht' & Hp'); [lia|].
  split; [congruence|]. exists (evs ++ evs').
  rewrite Ht', Ht, app_assoc, forallb_app, Hp, Hp'. auto.
Qed.

Lemma steady_get_fd (E : env) : steady P (obmm_dev_get_fd E).
Proof.
  intros w Hw. unfold obmm_dev_get_fd.
  apply Z.ltb_ge in Hw. rewrite Hw. simpl. split; [reflexivity|].
  exists []. now rewrite app_nil_r.
Qed.

End Emits.

Lemma emits_weaken (P Q : event -> bool) {A} (m : M A) :
  (forall ev, P ev = true -> Q ev = true) -> emits P m -> emits Q m.
Proof.
  intros HPQ Hm w. destruct (Hm w) as (Hfd & evs & Ht & Hp).
  split; [exact Hfd|]. exists evs. split; [exact Ht|].
  rewrite forallb_forall in *. auto.
Qed.

(** Reducing a goal [emits P m] or [steady P m] along the structure of
    [m]. *)
Ltac emits_step :=
  first
    [ apply emits_ret | apply emits_set_errno | apply emits_get_errno
    | apply emits_lib_call; reflexivity
    | apply emits_ioctl; intros; reflexivity
    | apply emits_bind; [|intros ?]
    | apply steady_get_fd
    | apply steady_bind; [|intros ?]
    | match goal with
      | |- emits _ (if ?c then _ else _) => destruct c
      | |- steady _ (if ?c then _ else _) => destruct c
      | |- emits _ (match ?x with _ => _ end) => destruct x
      | |- steady _ (match ?x with _ => _ end) => destruct x
      end
    | progress cbv zeta
    | apply emits_steady ].

Lemma emits_read_int_from_file E path :
  emits is_sysfs (read_int_from_file E path).
Proof. unfold read_int_from_file. repeat emits_step. Qed.

Lemma emits_get_ubc_attr E p a : emits is_sysfs (get_ubc_attr E p a).
Proof.
  unfold get_ubc_attr. cbv zeta.
  destruct (_ <=? 0); [apply emits_ret|apply emits_read_int_from_file].
Qed.

Lemma emits_get_ubc_path E i n : emits is_sysfs (get_ubc_path E i n).
Proof. unfold get_ubc_path. repeat emits_step. Qed.

Lemma emits_get_ubc_by_eid_from E n : forall i len eid,
  emits is_sysfs (get_ubc_by_eid_from E n i len eid).
Proof.
  induction n as [|n IH]; intros i len eid; cbn [get_ubc_by_eid_from].
  - repeat emits_step.
  - apply emits_bind; [apply emits_get_ubc_path|]. intros [e|p]; [apply IH|].
    apply emits_bind; [apply emits_get_ubc_attr|]. intros v.
    destruct (v <? 0); [repeat emits_step|].
    destruct (negb _); [apply IH|apply emits_ret].
Qed.

Lemma emits_get_ctl_by_eid E eid : emits is_sysfs (get_ctl_by_eid E eid).
Proof.
  unfold get_ctl_by_eid, get_ubc_by_eid.
  apply emits_bind; [apply emits_get_ubc_by_eid_from|].
  intros [[i p]|]; [|apply emits_ret].
  apply emits_bind; [apply emits_get_ubc_attr|]. intros m.
  destruct (m <? 0); [apply emits_ret|].
  apply emits_bind; [apply emits_get_ubc_attr|]. intros n.
  destruct (n <? 0); apply emits_ret.
Qed.

Lemma emits_get_primary_cna_by_eid E eid :
  emits is_sysfs (get_primary_cna_by_eid E eid).
Proof.
  unfold get_primary_cna_by_eid, get_ubc_by_eid.
  apply emits_bind; [apply emits_get_ubc_by_eid_from|].
  intros [[i p]|]; [|apply emits_ret].
  apply emits_bind; [apply emits_get_ubc_attr|]. intros v.
  destruct (v <? 0); repeat emits_step.
Qed.

Lemma is_sysfs_local ev : is_sysfs ev = true -> is_local ev = true.
Proof. unfold is_local. intros ->. reflexivity. Qed.

Lemma emits_init_vendor_info E U m out :
  emits is_local (init_vendor_info E U m out).
Proof. unfold init_vendor_info. repeat emits_step. Qed.

Lemma emits_vendor_adapt_export E U d out :
  emits is_local (vendor_adapt_export E U d out).
Proof.
  unfold vendor_adapt_export.
  destruct (memcmp_eq _ _ _); [apply emits_ret|].
  apply emits_bind.
  { apply (emits_weaken is_sysfs); [apply is_sysfs_local|].
    apply emits_get_ctl_by_eid. }
  intros node. destruct (negb _); [apply emits_ret|].
  apply emits_bind; [apply emits_init_vendor_info|].
  intros [rv out']. destruct (negb _); apply emits_ret.
Qed.

Lemma emits_vendor_fixup_import_cmd E cmd :
  emits is_sysfs (vendor_fixup_import_cmd E cmd).
Proof.
  unfold vendor_fixup_import_cmd.
  apply emits_bind; [apply emits_get_primary_cna_by_eid|].
  intros [c|]; repeat emits_step.
Qed.

Lemma emits_vendor_fixup_preimport_cmd E cmd :
  emits is_sysfs (vendor_fixup_preimport_cmd E cmd).
Proof.
  unfold vendor_fixup_preimport_cmd.
  apply emits_bind; [apply emits_get_primary_cna_by_eid|].
  intros [c|]; repeat emits_step.
Qed.

(** X1.  The topology resolver and the vendor layer never open or call the
    control device, and never touch the memoised descriptor: the resolver
    and the two validators only read sysfs, [vendor_adapt_export] reads
    sysfs and uses the allocator. *)
Theorem vendor_layer_stays_local (E : env) (U : uapi) :
  (forall eid, emits is_sysfs (get_ubc_by_eid E MAX_PATH eid)) /\
  (forall eid, emits is_sysfs (get_ctl_by_eid E eid)) /\
  (forall eid, emits is_sysfs (get_primary_cna_by_eid E eid)) /\
  (forall cmd, emits is_sysfs (vendor_fixup_import_cmd E cmd)) /\
  (forall cmd, emits is_sysfs (vendor_fixup_preimport_cmd E cmd)) /\
  (forall d out, emits is_local (vendor_adapt_export E U d out)).
Proof.
  split; [|split; [|split; [|split; [|split]]]]; intros.
  - apply emits_get_ubc_by_eid_from.
  - apply emits_get_ctl_by_eid.
  - apply emits_get_primary_cna_by_eid.
  - apply emits_vendor_fixup_import_cmd.
  - apply emits_vendor_fixup_preimport_cmd.
  - apply emits_vendor_adapt_export.
Qed.

(* ================================================================== *)
(** ** The device handle over the life of the process *)

(** X2.  [obmm_dev_get_fd] memoises a descriptor it obtained and does not
    memoise a failure.  After a call that returned a descriptor [fd >= 0],
    every later call returns [fd] without opening anything, whatever has
    become of the device, and sets errno to 0.  A call that returned a
    negative value did open the device, left the errno of that open, and
    the next call opens the device again and returns what that open
    gives. *)
Theorem obmm_dev_get_fd_memoises (E E' : env) (w : world) :
  let fd := fst (obmm_dev_get_fd E w) in
  let w1 := snd (obmm_dev_get_fd E w) in
  (0 <= fd ->
   errno w1 = 0 /\
   obmm_dev_get_fd E' w1 = (fd, mk_world 0 fd (trace w1)))
  /\
  (fd < 0 ->
   trace w1 = trace w ++ [EvOpen] /\
   errno w1 = snd (dev_open E) /\
   fst (obmm_dev_get_fd E' w1) = fst (dev_open E') /\
   trace (snd (obmm_dev_get_fd E' w1)) = trace w ++ [EvOpen; EvOpen]).
Proof.
  cbv zeta. unfold obmm_dev_get_fd.
  destruct (obmm_dev_fd w <? 0) eqn:Hw; cbn [fst snd errno obmm_dev_fd trace].
  - split.
    + intros Hfd. apply Z.ltb_ge in Hfd. rewrite Hfd. auto.
    + intros Hfd. apply Z.ltb_lt in Hfd. rewrite Hfd.
      rewrite <- app_assoc. auto.
  - split.
    + intros Hfd. rewrite Hw. auto.
    + intros Hfd. apply Z.ltb_lt in Hfd. congruence.
Qed.

Lemma obmm_dev_get_fd_memoises_witness :
  (0 <= fst (obmm_dev_get_fd Fixture.host initial_world) /\
   obmm_dev_get_fd Fixture.host_no_device
     (snd (obmm_dev_get_fd Fixture.host initial_world))
   = (3, mk_world 0 3 [EvOpen])) /\
  (fst (obmm_dev_get_fd Fixture.host_no_device initial_world) < 0 /\
   obmm_dev_get_fd Fixture.host
     (snd (obmm_dev_get_fd Fixture.host_no_device initial_world))
   = (3, mk_world 0 3 [EvOpen; EvOpen])).
Proof.
  assert (H1 : 0 <= fst (obmm_dev_get_fd Fixture.host initial_world))
    by (vm_compute; discriminate).
  assert (H2 : fst (obmm_dev_get_fd Fixture.host_no_device initial_world) < 0)
    by (vm_compute; reflexivity).
  split.
  - split; [exact H1|].
    exact (proj2 (proj1 (obmm_dev_get_fd_memoises Fixture.host
                           Fixture.host_no_device initial_world) H1)).
  - split; [exact H2|].
    pose proof (proj2 (obmm_dev_get_fd_memoises Fixture.host_no_device
                         Fixture.host initial_world) H2) as H.
    vm_compute. reflexivity.
Defined.

Lemma local_not_open ev : is_local ev = true -> not_open ev = true.
Proof. destruct ev; simpl; try reflexivity; discriminate. Qed.

Lemma sysfs_not_open ev : is_sysfs ev = true -> not_open ev = true.
Proof. destruct ev; simpl; try reflexivity; discriminate. Qed.

(** X3.  Once the control device is open, no call of the library opens it
    again or changes the memoised descriptor: whatever the arguments and
    whatever the outcome, the calls add no [open] to the trace. *)
Theorem api_keeps_the_handle (E : env) (U : uapi) :
  (forall pa id offset,
     steady not_open (obmm_query_memid_by_pa E pa id offset)) /\
  (forall id offset pa,
     steady not_open (obmm_query_pa_by_memid E id offset pa)) /\
  (forall pid va length flags desc,
     steady not_open (obmm_export_useraddr E U pid va length flags desc)) /\
  (forall length flags desc,
     steady not_open (obmm_export E U length flags desc)) /\
  (forall desc flags base_dist numa,
     steady not_open (obmm_import E U desc flags base_dist numa)) /\
  (forall id flags, steady not_open (obmm_unexport E id flags)) /\
  (forall id flags, steady not_open (obmm_unimport E id flags)) /\
  (forall info flags, steady not_open (obmm_preimport E info flags)) /\
  (forall info flags, steady not_open (obmm_unpreimport E info flags)).
Proof.
  assert (Hadapt : forall d out,
            emits not_open (vendor_adapt_export E U d out)).
  { intros. apply (emits_weaken is_local); [apply local_not_open|].
    apply emits_vendor_adapt_export. }
  assert (Himp : forall cmd, emits not_open (vendor_fixup_import_cmd E cmd)).
  { intros. apply (emits_weaken is_sysfs); [apply sysfs_not_open|].
    apply emits_vendor_fixup_import_cmd. }
  assert (Hpre : forall cmd,
            emits not_open (vendor_fixup_preimport_cmd E cmd)).
  { intros. apply (emits_weaken is_sysfs); [apply sysfs_not_open|].
    apply emits_vendor_fixup_preimport_cmd. }
  split; [|split; [|split; [|split; [|split; [|split; [|split; [|split]]]]]]];
    intros.
  - unfold obmm_query_memid_by_pa. repeat emits_step.
  - unfold obmm_query_pa_by_memid. repeat emits_step.
  - unfold obmm_export_useraddr, free_vendor_info.
    destruct desc as [d|]; [|repeat emits_step].
    apply steady_bind; [apply steady_get_fd|]. intros fd.
    destruct (fd <? 0); [repeat emits_step|].
    apply steady_bind; [apply emits_steady, Hadapt|]. intros [rv out].
    repeat emits_step.
  - unfold obmm_export, free_vendor_info.
    destruct length as [len|], desc as [d|]; try (repeat emits_step; fail).
    apply steady_bind; [apply steady_get_fd|]. intros fd.
    destruct (fd <? 0); [repeat emits_step|].
    apply steady_bind; [apply emits_steady, Hadapt|]. intros [rv out].
    repeat emits_step.
  - unfold obmm_import, vendor_cleanup_import_cmd.
    destruct desc as [d|]; [|repeat emits_step].
    destruct (_ && _); [repeat emits_step|]. cbv zeta.
    apply steady_bind; [apply steady_get_fd|]. intros fd.
    destruct (fd <? 0); [repeat emits_step|].
    apply steady_bind; [apply emits_steady, Himp|]. intros rv.
    repeat emits_step.
  - unfold obmm_unexport. repeat emits_step.
  - unfold obmm_unimport. repeat emits_step.
  - unfold obmm_preimport, vendor_cleanup_preimport_cmd.
    destruct info as [p|]; [|repeat emits_step].
    destruct (_ || _); [repeat emits_step|]. cbv zeta.
    apply steady_bind; [apply steady_get_fd|]. intros fd.
    destruct (fd <? 0); [repeat emits_step|].
    apply steady_bind; [apply emits_steady, Hpre|]. intros rv.
    repeat emits_step.
  - unfold obmm_unpreimport. repeat emits_step.
Qed.

(* ================================================================== *)
(** ** What a resolution tells *)

Section Sound.
Variables (E : env) (eid : list Z).

Lemma scan_sound (n : nat) : forall i w k p w',
  get_ubc_by_eid_from E n i MAX_PATH eid w = (Some (k, p), w') ->
  i <= k < i + Z.of_nat n /\ matches E eid k p /\
  forall j, i <= j < k -> skipped E eid j.
Proof.
  induction n as [|n IH]; intros i w k p w' H; [discriminate|].
  destruct (slot_cases E eid i) as [Ha|[Hd|[[q Hm]|[q Hu]]]].
  - destruct (scan_skipped E eid n i w (or_introl Ha)) as (w1 & ? & Heq & _).
    rewrite Heq in H. destruct (IH _ _ _ _ _ H) as (Hk & Hm & Hs).
    split; [lia|]. split; [exact Hm|]. intros j Hj.
    destruct (Z.eq_dec j i) as [->|Hne]; [left; exact Ha|apply Hs; lia].
  - destruct (scan_skipped E eid n i w (or_intror Hd)) as (w1 & ? & Heq & _).
    rewrite Heq in H. destruct (IH _ _ _ _ _ H) as (Hk & Hm & Hs).
    split; [lia|]. split; [exact Hm|]. intros j Hj.
    destruct (Z.eq_dec j i) as [->|Hne]; [right; exact Hd|apply Hs; lia].
  - destruct (scan_matches E eid n i q w Hm) as (w1 & Heq & _).
    rewrite Heq in H. inversion H; subst. split; [lia|].
    split; [exact Hm|]. intros j Hj. lia.
  - destruct (scan_unreadable E eid n i q w Hu) as (w1 & Heq & _).
    rewrite Heq in H. discriminate.
Qed.

Lemma scan_failed (n : nat) : forall i w w',
  get_ubc_by_eid_from E n i MAX_PATH eid w = (None, w') ->
  errno w' = ENODEV /\
  ((forall j, i <= j < i + Z.of_nat n -> skipped E eid j) \/
   exists k p, i <= k < i + Z.of_nat n /\ unreadable E k p /\
               forall j, i <= j < k -> skipped E eid j).
Proof.
  induction n as [|n IH]; intros i w w' H.
  - inversion H; subst. split; [reflexivity|]. left. intros j Hj. lia.
  - destruct (slot_cases E eid i) as [Ha|[Hd|[[q Hm]|[q Hu]]]].
    + destruct (scan_skipped E eid n i w (or_introl Ha))
        as (w1 & ? & Heq & _).
      rewrite Heq in H. destruct (IH _ _ _ H) as (He & Hc).
      split; [exact He|]. destruct Hc as [Hall|(k & p & Hk & Hu & Hs)].
      * left. intros j Hj.
        destruct (Z.eq_dec j i) as [->|Hne]; [left; exact Ha|apply Hall; lia].
      * right. exists k, p. split; [lia|]. split; [exact Hu|].
        intros j Hj.
        destruct (Z.eq_dec j i) as [->|Hne]; [left; exact Ha|apply Hs; lia].
    + destruct (scan_skipped E eid n i w (or_intror Hd))
        as (w1 & ? & Heq & _).
      rewrite Heq in H. destruct (IH _ _ _ H) as (He & Hc).
      split; [exact He|]. destruct Hc as [Hall|(k & p & Hk & Hu & Hs)].
      * left. intros j Hj.
        destruct (Z.eq_dec j i) as [->|Hne]; [right; exact Hd|apply Hall; lia].
      * right. exists k, p. split; [lia|]. split; [exact Hu|].
        intros j Hj.
        destruct (Z.eq_dec j i) as [->|Hne]; [right; exact Hd|apply Hs; lia].
    + destruct (scan_matches E eid n i q w Hm) as (w1 & Heq & _).
      rewrite Heq in H. discriminate.
    + destruct (scan_unreadable E eid n i q w Hu) as (w1 & Heq & He & _).
      rewrite Heq in H. inversion H; subst. split; [exact He|].
      right. exists i, q. split; [lia|]. split; [exact Hu|].
      intros j Hj. lia.
Qed.

End Sound.

(** X4.  A resolution can be trusted.  When [get_ubc_by_eid] returns slot
    [k] with directory [p], [k] is one of the slots 0..7, it is located at
    [p], its eid attribute zero-extended to 16 bytes is the requested id,
    and every slot before [k] was absent or carried another id.  When it
    returns -1, errno is ENODEV and either all 8 slots were passed over or
    the first slot not passed over has an eid attribute that does not
    read. *)
Theorem get_ubc_by_eid_sound (E : env) (eid : list Z) (w w' : world) :
  (forall k p,
     get_ubc_by_eid E MAX_PATH eid w = (Some (k, p), w') ->
     0 <= k < Z.of_nat MAX_CONTROLLERS /\ matches E eid k p /\
     forall j, 0 <= j < k -> skipped E eid j)
  /\
  (get_ubc_by_eid E MAX_PATH eid w = (None, w') ->
   errno w' = ENODEV /\
   ((forall j, 0 <= j < Z.of_nat MAX_CONTROLLERS -> skipped E eid j) \/
    exists k p, 0 <= k < Z.of_nat MAX_CONTROLLERS /\ unreadable E k p /\
                forall j, 0 <= j < k -> skipped E eid j)).
Proof.
  unfold get_ubc_by_eid. split.
  - intros k p H. exact (scan_sound E eid _ _ _ _ _ _ H).
  - intros H. exact (scan_failed E eid _ _ _ _ H).
Qed.

Lemma get_ubc_by_eid_sound_witness :
  get_ubc_by_eid Fixture.host MAX_PATH Fixture.eid_0x12 initial_world
  = (Some (3, "/sys/devices/ub_bus_controller3/0000:03"%string),
     snd (get_ubc_by_eid Fixture.host MAX_PATH Fixture.eid_0x12
            initial_world)) /\
  (0 <= 3 < Z.of_nat MAX_CONTROLLERS /\
   matches Fixture.host Fixture.eid_0x12 3
     "/sys/devices/ub_bus_controller3/0000:03" /\
   forall j, 0 <= j < 3 -> skipped Fixture.host Fixture.eid_0x12 j) /\
  get_ubc_by_eid Fixture.host MAX_PATH Fixture.eid_0x99 initial_world
  = (None,
     snd (get_ubc_by_eid Fixture.host MAX_PATH Fixture.eid_0x99
            initial_world)) /\
  errno (snd (get_ubc_by_eid Fixture.host MAX_PATH Fixture.eid_0x99
                initial_world)) = ENODEV.
Proof.
  assert (H1 : get_ubc_by_eid Fixture.host MAX_PATH Fixture.eid_0x12
                 initial_world
               = (Some (3, "/sys/devices/ub_bus_controller3/0000:03"%string),
                  snd (get_ubc_by_eid Fixture.host MAX_PATH Fixture.eid_0x12
                         initial_world))) by (vm_compute; reflexivity).
  assert (H2 : get_ubc_by_eid Fixture.host MAX_PATH Fixture.eid_0x99
                 initial_world
               = (None,
                  snd (get_ubc_by_eid Fixture.host MAX_PATH Fixture.eid_0x99
                         initial_world))) by (vm_compute; reflexivity).
  split; [exact H1|]. split.
  - exact (proj1 (get_ubc_by_eid_sound Fixture.host Fixture.eid_0x12
                    initial_world _) 3 _ H1).
  - split; [exact H2|].
    exact (proj1 (proj2 (get_ubc_by_eid_sound Fixture.host Fixture.eid_0x99
                           initial_world _) H2)).
Defined.

(* ================================================================== *)
(** ** Endpoint ids the resolver cannot match *)

Lemma sysfs_eid_shape (v : Z) :
  0 <= v <= INT_MAX ->
  skipn 4 (sysfs_eid_of v) = repeat 0 12 /\ 0 <= nth 3 (sysfs_eid_of v) 0 < 128.
Proof.
  intros Hv. unfold sysfs_eid_of, INT_MAX in *. cbn [app skipn nth].
  split; [reflexivity|].
  rewrite (Z.mod_small v (2 ^ 32)) by lia.
  assert (H : 0 <= v / 16777216 < 128).
  { split; [apply Z.div_pos; lia|apply Z.div_lt_upper_bound; lia]. }
  rewrite Z.mod_small; lia.
Qed.

Lemma matches_shape E eid k p : matches E eid k p -> resolvable_shape eid.
Proof.
  intros (_ & Hv & He). unfold resolvable_shape.
  pose proof (attr_value_range E p "eid") as Hr.
  destruct (sysfs_eid_shape (attr_value E p "eid")) as [H1 H2]; [lia|].
  rewrite He in H1, H2. split; [exact H1|].
  rewrite nth_firstn in H2. exact H2.
Qed.

Lemma zero_eid_shape eid :
  memcmp_eq EID_SIZE eid g_invalid_eid = true -> resolvable_shape eid.
Proof.
  unfold memcmp_eq. rewrite bytes_eqb_eq. intros H.
  change (firstn EID_SIZE g_invalid_eid) with (repeat 0 16) in H.
  unfold resolvable_shape. rewrite H. split; [reflexivity|].
  assert (Hn : nth 3 (firstn EID_SIZE eid) 0 = 0) by (rewrite H; reflexivity).
  rewrite nth_firstn in Hn. simpl in Hn. lia.
Qed.

Lemma get_ctl_by_eid_unresolved E eid w :
  fst (get_ubc_by_eid E MAX_PATH eid w) = None ->
  fst (get_ctl_by_eid E eid w) = mk_ctl_node 0 0 false.
Proof.
  unfold get_ctl_by_eid, bind. destruct (get_ubc_by_eid E MAX_PATH eid w) as [r w1].
  simpl. intros ->. reflexivity.
Qed.

(** X5.  An endpoint id that is not a number below [2 ^ 31] written in
    little-endian (a non-zero byte among bytes 4 to 15, or byte 3 not
    below 128) never resolves, whatever sysfs holds: the scan returns -1
    with ENODEV, the controller node is invalid, there is no live primary
    channel, and [vendor_adapt_export] to such a destination fails with
    ENODEV and writes nothing. *)
Theorem unresolvable_ids (E : env) (U : uapi) (eid : list Z) (w : world) :
  ~ resolvable_shape eid ->
  fst (get_ubc_by_eid E MAX_PATH eid w) = None /\
  errno (snd (get_ubc_by_eid E MAX_PATH eid w)) = ENODEV /\
  valid (fst (get_ctl_by_eid E eid w)) = false /\
  fst (get_primary_cna_by_eid E eid w) = None /\
  (forall d out,
     md_deid d = eid ->
     fst (vendor_adapt_export E U d out w) = (ENODEV, out)) /\
  (forall d len flags,
     md_deid d = eid -> 0 <= handle E w ->
     fst (obmm_export E U (Some len) flags (Some d) w)
     = (OBMM_INVALID_MEMID, Some d) /\
     errno (snd (obmm_export E U (Some len) flags (Some d) w)) = ENODEV).
Proof.
  intros Hshape. revert w.
  assert (Hall : forall w,
    fst (get_ubc_by_eid E MAX_PATH eid w) = None /\
    errno (snd (get_ubc_by_eid E MAX_PATH eid w)) = ENODEV /\
    valid (fst (get_ctl_by_eid E eid w)) = false /\
    fst (get_primary_cna_by_eid E eid w) = None /\
    (forall d out,
       md_deid d = eid ->
       fst (vendor_adapt_export E U d out w) = (ENODEV, out))).
  2: { intros w. destruct (Hall w) as (H1 & H2 & H3 & H4 & H5).
       split; [exact H1|]. split; [exact H2|]. split; [exact H3|].
       split; [exact H4|]. split; [exact H5|].
       intros d len flags Hd Hh.
       remember (obmm_export E U (Some len) flags (Some d) w) as res eqn:Hres.
       unfold obmm_export, bind at 1 in Hres.
       rewrite obmm_dev_get_fd_spec in Hres. apply Z.ltb_ge in Hh.
       rewrite Hh in Hres. unfold bind at 1 in Hres.
       match type of Hres with context [vendor_adapt_export E U d ?o ?w1] =>
         pose proof (proj2 (proj2 (proj2 (proj2 (Hall w1)))) d o Hd) as Hv;
         destruct (vendor_adapt_export E U d o w1) as [[rv out'] w2] end.
       simpl in Hv. inversion Hv; subst rv out'.
       change (negb (ENODEV =? 0)) with true in Hres. run.
       subst res. split; reflexivity. }
  intros w.
  assert (Hnone : forall w0, fst (get_ubc_by_eid E MAX_PATH eid w0) = None).
  { intros w0. destruct (get_ubc_by_eid E MAX_PATH eid w0) as [[[k p]|] w1] eqn:H;
      [|reflexivity].
    exfalso. apply Hshape.
    destruct (scan_sound E eid MAX_CONTROLLERS 0 w0 k p w1 H)
      as (_ & Hm & _).
    exact (matches_shape _ _ _ _ Hm). }
  split; [apply Hnone|]. split.
  { destruct (get_ubc_by_eid E MAX_PATH eid w) as [r w1] eqn:H.
    pose proof (Hnone w) as Hr. rewrite H in Hr. simpl in Hr. subst r.
    exact (proj1 (scan_failed E eid _ _ _ _ H)). }
  split; [rewrite get_ctl_by_eid_unresolved by apply Hnone; reflexivity|].
  split.
  { unfold get_primary_cna_by_eid, bind. pose proof (Hnone w) as Hr.
    destruct (get_ubc_by_eid E MAX_PATH eid w) as [r w1]. simpl in Hr.
    subst r. reflexivity. }
  intros d out Hd. unfold vendor_adapt_export. rewrite Hd.
  destruct (memcmp_eq EID_SIZE eid g_invalid_eid) eqn:Hz.
  { exfalso. apply Hshape. exact (zero_eid_shape _ Hz). }
  unfold bind. pose proof (get_ctl_by_eid_unresolved E eid w (Hnone w)) as Hc.
  destruct (get_ctl_by_eid E eid w) as [node w1]. simpl in Hc. subst node.
  reflexivity.
Qed.

Lemma unresolvable_ids_witness :
  ~ resolvable_shape (18 :: 0 :: 0 :: 0 :: 1 :: repeat 0 11) /\
  fst (get_ubc_by_eid Fixture.host MAX_PATH
         (18 :: 0 :: 0 :: 0 :: 1 :: repeat 0 11) initial_world) = None /\
  ~ resolvable_shape (18 :: 0 :: 0 :: 128 :: repeat 0 12) /\
  fst (get_ubc_by_eid Fixture.host MAX_PATH
         (18 :: 0 :: 0 :: 128 :: repeat 0 12) initial_world) = None.
Proof.
  assert (H1 : ~ resolvable_shape (18 :: 0 :: 0 :: 0 :: 1 :: repeat 0 11))
    by (intros [H _]; vm_compute in H; discriminate).
  assert (H2 : ~ resolvable_shape (18 :: 0 :: 0 :: 128 :: repeat 0 12))
    by (intros [_ H]; vm_compute in H; destruct H as [_ H]; discriminate).
  split; [exact H1|]. split.
  - exact (proj1 (unresolvable_ids Fixture.host Fixture.abi _ initial_world
                    H1)).
  - split; [exact H2|].
    exact (proj1 (unresolvable_ids Fixture.host Fixture.abi _ initial_world
                    H2)).
Defined.

(* ================================================================== *)
(** ** The controller node of an endpoint *)

Lemma get_ubc_by_eid_value E eid w w0 :
  fst (get_ubc_by_eid E MAX_PATH eid w) = fst (get_ubc_by_eid E MAX_PATH eid w0).
Proof. apply get_ubc_by_eid_from_value. Qed.

Lemma get_ctl_by_eid_value E eid w :
  fst (get_ctl_by_eid E eid w) = live_ctl E eid.
Proof.
  unfold live_ctl, get_ctl_by_eid, bind.
  pose proof (get_ubc_by_eid_value E eid w initial_world) as Hv.
  destruct (get_ubc_by_eid E MAX_PATH eid w) as [r w1].
  destruct (get_ubc_by_eid E MAX_PATH eid initial_world) as [r0 w0].
  simpl in Hv. subst r0. destruct r as [[k p]|]; [|reflexivity].
  rewrite !get_ubc_attr_run.
  destruct (attr_value E p "ummu_map" <? 0); [reflexivity|].
  rewrite !get_ubc_attr_run.
  destruct (attr_value E p "numa" <? 0); reflexivity.
Qed.

Lemma live_ctl_cases E eid :
  (exists k p,
     0 <= k < Z.of_nat MAX_CONTROLLERS /\ matches E eid k p /\
     (forall j, 0 <= j < k -> skipped E eid j) /\
     live_ctl E eid =
       (if attr_value E p "ummu_map" <? 0
        then mk_ctl_node (attr_value E p "ummu_map") 0 false
        else if attr_value E p "numa" <? 0
        then mk_ctl_node (attr_value E p "ummu_map")
                         (attr_value E p "numa") false
        else mk_ctl_node (attr_value E p "ummu_map")
                         (attr_value E p "numa") true)) \/
  (fst (get_ubc_by_eid E MAX_PATH eid initial_world) = None /\
   live_ctl E eid = mk_ctl_node 0 0 false).
Proof.
  unfold live_ctl, get_ctl_by_eid, bind.
  destruct (get_ubc_by_eid E MAX_PATH eid initial_world) as [[[k p]|] w1] eqn:H.
  - left. exists k, p.
    destruct (scan_sound E eid _ _ _ _ _ _ H) as (Hk & Hm & Hs).
    split; [exact Hk|]. split; [exact Hm|]. split; [exact Hs|].
    rewrite !get_ubc_attr_run.
    destruct (attr_value E p "ummu_map" <? 0); [reflexivity|].
    rewrite !get_ubc_attr_run.
    destruct (attr_value E p "numa" <? 0); reflexivity.
  - right. split; reflexivity.
Qed.

(** X6.  The node [get_ctl_by_eid] returns is decided by sysfs alone, and a
    valid node can be trusted: it belongs to the first slot, among 0..7,
    whose eid attribute matches the id; its mapping index and NUMA id are
    that slot's [ummu_map] and [numa] attributes, both between 0 and
    INT_MAX.  Conversely, when the id resolves to a slot whose two
    attributes read non-negative, the node is valid. *)
Theorem get_ctl_by_eid_valid_node (E : env) (eid : list Z) :
  (forall w, fst (get_ctl_by_eid E eid w) = live_ctl E eid) /\
  (valid (live_ctl E eid) = true ->
   exists k p,
     0 <= k < Z.of_nat MAX_CONTROLLERS /\ matches E eid k p /\
     (forall j, 0 <= j < k -> skipped E eid j) /\
     ummu_mapping (live_ctl E eid) = attr_value E p "ummu_map" /\
     numa_id (live_ctl E eid) = attr_value E p "numa" /\
     0 <= ummu_mapping (live_ctl E eid) <= INT_MAX /\
     0 <= numa_id (live_ctl E eid) <= INT_MAX) /\
  (forall k p,
     0 <= k < Z.of_nat MAX_CONTROLLERS -> matches E eid k p ->
     (forall j, 0 <= j < k -> skipped E eid j) ->
     0 <= attr_value E p "ummu_map" -> 0 <= attr_value E p "numa" ->
     live_ctl E eid
     = mk_ctl_node (attr_value E p "ummu_map") (attr_value E p "numa") true).
Proof.
  split; [intros w; apply get_ctl_by_eid_value|]. split.
  - intros Hv. destruct (live_ctl_cases E eid)
      as [(k & p & Hk & Hm & Hs & Heq)|[_ Heq]].
    + exists k, p. split; [exact Hk|]. split; [exact Hm|]. split; [exact Hs|].
      pose proof (attr_value_range E p "ummu_map") as Hr1.
      pose proof (attr_value_range E p "numa") as Hr2.
      rewrite Heq in *.
      destruct (Z.ltb_spec (attr_value E p "ummu_map") 0); [discriminate|].
      destruct (Z.ltb_spec (attr_value E p "numa") 0); [discriminate|].
      simpl. repeat split; lia.
    + rewrite Heq in Hv. discriminate.
  - intros k p Hk Hm Hs H1 H2.
    destruct (scan_first_match E eid (Z.to_nat k) MAX_CONTROLLERS 0
                initial_world p) as (w' & Hr & _).
    + unfold MAX_CONTROLLERS in *. lia.
    + intros j Hj. apply Hs. lia.
    + replace (0 + Z.of_nat (Z.to_nat k)) with k by lia. exact Hm.
    + unfold live_ctl, get_ctl_by_eid, get_ubc_by_eid, bind. rewrite Hr.
      rewrite !get_ubc_attr_run.
      apply Z.ltb_ge in H1. rewrite H1. rewrite !get_ubc_attr_run.
      apply Z.ltb_ge in H2. rewrite H2. reflexivity.
Qed.

Lemma get_ctl_by_eid_valid_node_witness :
  valid (live_ctl Fixture.host Fixture.eid_0x12) = true /\
  live_ctl Fixture.host Fixture.eid_0x12 = mk_ctl_node 3 1 true /\
  exists k p,
    0 <= k < Z.of_nat MAX_CONTROLLERS /\
    matches Fixture.host Fixture.eid_0x12 k p /\
    (forall j, 0 <= j < k -> skipped Fixture.host Fixture.eid_0x12 j) /\
    ummu_mapping (live_ctl Fixture.host Fixture.eid_0x12)
    = attr_value Fixture.host p "ummu_map" /\
    numa_id (live_ctl Fixture.host Fixture.eid_0x12)
    = attr_value Fixture.host p "numa" /\
    0 <= ummu_mapping (live_ctl Fixture.host Fixture.eid_0x12) <= INT_MAX /\
    0 <= numa_id (live_ctl Fixture.host Fixture.eid_0x12) <= INT_MAX.
Proof.
  split; [vm_compute; reflexivity|]. split; [vm_compute; reflexivity|].
  apply (proj1 (proj2 (get_ctl_by_eid_valid_node Fixture.host
                         Fixture.eid_0x12))).
  vm_compute; reflexivity.
Defined.

(* ================================================================== *)
(** ** What [vendor_adapt_export] answers *)

Lemma init_vendor_info_value E U m out w :
  fst (init_vendor_info E U m out w)
  = if negb (calloc_ok E) then (ENOMEM, out)
    else if OBMM_MAX_VENDOR_LEN U <? sizeof_hisi_ummu_tdev_info
    then (EINVAL, out)
    else (0, mk_vendor_out (Some (payload_of m)) sizeof_hisi_ummu_tdev_info
                           (vo_numa out)).
Proof.
  unfold init_vendor_info. run.
  destruct (negb (calloc_ok E)); [reflexivity|].
  destruct (_ <? _); reflexivity.
Qed.

Lemma vendor_adapt_export_value E U d out w :
  fst (vendor_adapt_export E U d out w)
  = if memcmp_eq EID_SIZE (md_deid d) g_invalid_eid then (EINVAL, out)
    else if negb (valid (live_ctl E (md_deid d))) then (ENODEV, out)
    else if negb (calloc_ok E) then (ENOMEM, out)
    else if OBMM_MAX_VENDOR_LEN U <? sizeof_hisi_ummu_tdev_info
    then (EINVAL, out)
    else (0, vendor_out_of (live_ctl E (md_deid d))).
Proof.
  unfold vendor_adapt_export.
  destruct (memcmp_eq _ _ _); [reflexivity|]. unfold bind at 1.
  pose proof (get_ctl_by_eid_value E (md_deid d) w) as Hn.
  destruct (get_ctl_by_eid E (md_deid d) w) as [node w1]. simpl in Hn.
  subst node. destruct (negb (valid _)); [reflexivity|].
  unfold bind.
  pose proof (init_vendor_info_value E U
                (ummu_mapping (live_ctl E (md_deid d))) out w1) as Hi.
  destruct (init_vendor_info E U _ out w1) as [[rv out'] w2]. simpl in Hi.
  destruct (negb (calloc_ok E)); [inversion Hi; reflexivity|].
  destruct (_ <? _); inversion Hi; reflexivity.
Qed.

(** X7.  The answer of [vendor_adapt_export] is decided by the descriptor's
    destination id, sysfs and the allocator, not by the world it runs in.
    It returns 0 exactly when the destination id is not all-zero, resolves
    to a valid controller node, the allocation succeeds and the payload
    fits [OBMM_MAX_VENDOR_LEN]; it then writes the payload of the node's
    mapping index, the payload size and the node's NUMA id.  Every other
    answer is one of EINVAL, ENODEV and ENOMEM and leaves the three output
    locations as they were. *)
Theorem vendor_adapt_export_outcome (E : env) (U : uapi) (d : obmm_mem_desc)
    (out : vendor_out) (w : world) :
  let rv := fst (fst (vendor_adapt_export E U d out w)) in
  let out' := snd (fst (vendor_adapt_export E U d out w)) in
  (rv = 0 <->
   memcmp_eq EID_SIZE (md_deid d) g_invalid_eid = false /\
   valid (live_ctl E (md_deid d)) = true /\
   calloc_ok E = true /\
   sizeof_hisi_ummu_tdev_info <= OBMM_MAX_VENDOR_LEN U) /\
  (rv = 0 -> out' = vendor_out_of (live_ctl E (md_deid d))) /\
  (rv <> 0 -> out' = out /\ (rv = EINVAL \/ rv = ENODEV \/ rv = ENOMEM)).
Proof.
  cbv zeta. rewrite vendor_adapt_export_value.
  destruct (memcmp_eq _ _ _); cbn [fst snd].
  { split; [split; [discriminate|intros (H & _); discriminate]|].
    split; [discriminate|]. auto. }
  destruct (valid (live_ctl E (md_deid d))); cbn [negb fst snd].
  2: { split; [split; [discriminate|intros (_ & H & _); discriminate]|].
       split; [discriminate|]. auto. }
  destruct (calloc_ok E); cbn [negb fst snd].
  2: { split; [split; [discriminate|intros (_ & _ & H & _); discriminate]|].
       split; [discriminate|]. auto. }
  destruct (Z.ltb_spec (OBMM_MAX_VENDOR_LEN U) sizeof_hisi_ummu_tdev_info);
    cbn [fst snd].
  { split; [split; [discriminate|intros (_ & _ & _ & H'); lia]|].
    split; [discriminate|]. auto. }
  split; [split; auto|]. split; [auto|]. intros H'. congruence.
Qed.

Lemma vendor_adapt_export_outcome_witness :
  fst (fst (vendor_adapt_export Fixture.host Fixture.abi Fixture.desc
              vendor_out_zero initial_world)) = 0 /\
  snd (fst (vendor_adapt_export Fixture.host Fixture.abi Fixture.desc
              vendor_out_zero initial_world))
  = mk_vendor_out (Some (mk_tdev_info HISI_TDEV_INFO_V1 8 true)) 24 1 /\
  fst (fst (vendor_adapt_export Fixture.host Fixture.abi
              Fixture.desc_zero_deid vendor_out_zero initial_world)) <> 0 /\
  snd (fst (vendor_adapt_export Fixture.host Fixture.abi
              Fixture.desc_zero_deid vendor_out_zero initial_world))
  = vendor_out_zero.
Proof.
  assert (H0 : fst (fst (vendor_adapt_export Fixture.host Fixture.abi
                           Fixture.desc vendor_out_zero initial_world)) = 0)
    by (vm_compute; reflexivity).
  assert (H1 : fst (fst (vendor_adapt_export Fixture.host Fixture.abi
                           Fixture.desc_zero_deid vendor_out_zero
                           initial_world)) <> 0)
    by (vm_compute; discriminate).
  split; [exact H0|]. split.
  - rewrite (proj1 (proj2 (vendor_adapt_export_outcome Fixture.host
                             Fixture.abi Fixture.desc vendor_out_zero
                             initial_world)) H0).
    vm_compute. reflexivity.
  - split; [exact H1|].
    exact (proj1 (proj2 (proj2 (vendor_adapt_export_outcome Fixture.host
                                  Fixture.abi Fixture.desc_zero_deid
                                  vendor_out_zero initial_world)) H1)).
Defined.

(* ================================================================== *)
(** ** The export calls from end to end *)

Lemma count_app p (a b : list event) :
  count p (a ++ b) = (count p a + count p b)%nat.
Proof. unfold count. now rewrite filter_app, length_app. Qed.

Lemma count_sysfs evs :
  forallb is_sysfs evs = true ->
  count is_calloc evs = 0%nat /\ count is_free evs = 0%nat.
Proof.
  unfold count. induction evs as [|ev evs IH]; [auto|].
  simpl. intros H. apply andb_true_iff in H. destruct H as [H1 H2].
  destruct (IH H2) as [Hc Hf].
  destruct ev; try discriminate; simpl; auto.
Qed.

Lemma count_open_events p w :
  p EvOpen = false -> count p (open_events w) = 0%nat.
Proof.
  intros Hp. unfold open_events, count.
  destruct (obmm_dev_fd w <? 0); simpl; [rewrite Hp|]; reflexivity.
Qed.

(** The run of [vendor_adapt_export]: sysfs reads, then what the
    allocator was asked. *)
Lemma vendor_adapt_export_run E U d out w rv out' w' :
  vendor_adapt_export E U d out w = (rv, out', w') ->
  exists evs tail,
    obmm_dev_fd w' = obmm_dev_fd w /\
    trace w' = trace w ++ evs ++ tail /\
    forallb is_sysfs evs = true /\
    ((rv = 0 /\ tail = [EvCalloc] /\ calloc_ok E = true) \/
     (rv <> 0 /\
      (tail = [] \/ (tail = [EvCalloc] /\ calloc_ok E = false) \/
       (tail = [EvCalloc; EvFree] /\ calloc_ok E = true)))).
Proof.
  unfold vendor_adapt_export. intros H.
  destruct (memcmp_eq _ _ _).
  { inversion H; subst. exists [], []. simpl. rewrite app_nil_r.
    repeat split; auto. right. split; [discriminate|auto]. }
  unfold bind at 1 in H.
  destruct (emits_get_ctl_by_eid E (md_deid d) w) as (Hfd & evs & Ht & Hs).
  destruct (get_ctl_by_eid E (md_deid d) w) as [node w1].
  simpl in Hfd, Ht.
  destruct (negb (valid node)).
  { inversion H; subst. exists evs, []. rewrite app_nil_r.
    repeat split; auto. right. split; [discriminate|auto]. }
  unfold init_vendor_info in H. run. cbn [errno obmm_dev_fd trace] in H.
  destruct (calloc_ok E) eqn:Hcalloc; cbn [negb] in H.
  2: { inversion H; subst. exists evs, [EvCalloc]. cbn [obmm_dev_fd trace].
       rewrite Ht, <- app_assoc. repeat split; auto. right.
       split; [discriminate|auto]. }
  destruct (_ <? _); cbn [errno obmm_dev_fd trace negb Z.eqb] in H.
  - inversion H; subst. exists evs, [EvCalloc; EvFree].
    cbn [obmm_dev_fd trace]. rewrite Ht, <- !app_assoc.
    repeat split; auto. right. split; [discriminate|auto].
  - inversion H; subst. exists evs, [EvCalloc]. cbn [obmm_dev_fd trace].
    rewrite Ht, <- app_assoc. repeat split; auto.
Qed.

(** The run of [obmm_export] on non-null arguments, path by path. *)
Lemma obmm_export_run E U len flags d w r od' w' :
  obmm_export E U (Some len) flags (Some d) w = (r, od', w') ->
  let fd := handle E w in
  (fd < 0 /\ r = OBMM_INVALID_MEMID /\ od' = Some d /\
   w' = mk_world (snd (dev_open E)) fd (trace w ++ open_events w))
  \/
  (0 <= fd /\
   exists rv out w2,
     vendor_adapt_export E U d vendor_out_zero
       (mk_world 0 fd (trace w ++ open_events w)) = (rv, out, w2) /\
     ((rv <> 0 /\ r = OBMM_INVALID_MEMID /\ od' = Some d /\
       w' = mk_world rv (obmm_dev_fd w2) (trace w2))
      \/
      (rv = 0 /\
       let reply := dev_export E fd (export_cmd U len flags d out) in
       w' = mk_world (if io_ret reply <? 0 then io_errno reply else errno w2)
                     (obmm_dev_fd w2)
                     (trace w2 ++
                      [EvIoctl fd OBMM_CMD_EXPORT (io_ret reply); EvFree]) /\
       (r, od') =
         (if io_ret reply <? 0 then (OBMM_INVALID_MEMID, Some d)
          else (ce_mem_id (io_cmd reply),
                Some (exported_desc d (ce_uba (io_cmd reply))
                        (sum_lengths (OBMM_MAX_LOCAL_NUMA_NODES U) len)
                        (ce_tokenid (io_cmd reply)))))))).
Proof.
  intros H fd. subst fd. unfold obmm_export, bind at 1 in H.
  rewrite obmm_dev_get_fd_spec in H.
  destruct (Z.ltb_spec (handle E w) 0) as [Hh|Hh].
  { left. inversion H; subst. auto. }
  right. split; [exact Hh|]. unfold bind at 1 in H.
  destruct (vendor_adapt_export E U d vendor_out_zero _) as [[rv out] w2].
  exists rv, out, w2. split; [reflexivity|].
  destruct (Z.eqb_spec rv 0) as [Hrv|Hrv]; cbn [negb] in H.
  - right. split; [exact Hrv|]. run.
    destruct (dev_export E (handle E w) (export_cmd U len flags d out))
      as [r0 er c'].
    cbn [io_ret io_errno io_cmd errno obmm_dev_fd trace] in *.
    unfold exported_desc.
    destruct (r0 <? 0); inversion H; subst; rewrite <- app_assoc; auto.
  - left. split; [exact Hrv|]. run. inversion H; subst. auto.
Qed.

Lemma obmm_export_useraddr_run E U pid va length flags d w r od' w' :
  obmm_export_useraddr E U pid va length flags (Some d) w = (r, od', w') ->
  let fd := handle E w in
  (fd < 0 /\ r = OBMM_INVALID_MEMID /\ od' = Some d /\
   w' = mk_world (snd (dev_open E)) fd (trace w ++ open_events w))
  \/
  (0 <= fd /\
   exists rv out w2,
     vendor_adapt_export E U d vendor_out_zero
       (mk_world 0 fd (trace w ++ open_events w)) = (rv, out, w2) /\
     ((rv <> 0 /\ r = OBMM_INVALID_MEMID /\ od' = Some d /\
       w' = mk_world rv (obmm_dev_fd w2) (trace w2))
      \/
      (rv = 0 /\
       let reply :=
         dev_export_pid E fd (export_pid_cmd pid va length flags d out) in
       w' = mk_world (lib_errno E EvFree
                        (if io_ret reply <? 0 then io_errno reply
                         else errno w2))
                     (obmm_dev_fd w2)
                     (trace w2 ++
                      [EvIoctl fd OBMM_CMD_EXPORT_PID (io_ret reply); EvFree])
       /\
       (r, od') =
         (if io_ret reply <? 0 then (OBMM_INVALID_MEMID, Some d)
          else (cp_mem_id (io_cmd reply),
                Some (exported_desc d (cp_uba (io_cmd reply)) length
                        (cp_tokenid (io_cmd reply)))))))).
Proof.
  intros H fd. subst fd. unfold obmm_export_useraddr, bind at 1 in H.
  rewrite obmm_dev_get_fd_spec in H.
  destruct (Z.ltb_spec (handle E w) 0) as [Hh|Hh].
  { left. inversion H; subst. auto. }
  right. split; [exact Hh|]. unfold bind at 1 in H.
  destruct (vendor_adapt_export E U d vendor_out_zero _) as [[rv out] w2].
  exists rv, out, w2. split; [reflexivity|].
  destruct (Z.eqb_spec rv 0) as [Hrv|Hrv]; cbn [negb] in H.
  - right. split; [exact Hrv|]. run.
    destruct (dev_export_pid E (handle E w)
                (export_pid_cmd pid va length flags d out)) as [r0 er c'].
    cbn [io_ret io_errno io_cmd errno obmm_dev_fd trace] in *.
    unfold exported_desc.
    destruct (r0 <? 0); inversion H; subst; rewrite <- app_assoc; auto.
  - left. split; [exact Hrv|]. run. inversion H; subst. auto.
Qed.

Lemma vendor_adapt_export_ok E U d out w :
  memcmp_eq EID_SIZE (md_deid d) g_invalid_eid = false ->
  valid (live_ctl E (md_deid d)) = true ->
  calloc_ok E = true ->
  sizeof_hisi_ummu_tdev_info <= OBMM_MAX_VENDOR_LEN U ->
  fst (vendor_adapt_export E U d out w)
  = (0, vendor_out_of (live_ctl E (md_deid d))).
Proof.
  intros H1 H2 H3 H4. rewrite vendor_adapt_export_value, H1, H2, H3.
  apply Z.ltb_ge in H4. rewrite H4. reflexivity.
Qed.

(** X8.  Export from end to end.  With the control device open, a
    destination id that is not all-zero and resolves to a valid controller
    node, a successful allocation and a payload that fits, each export
    call submits exactly the command built from its arguments, the
    descriptor's private data and destination id, the payload of the
    node's mapping index and the node's NUMA id.  If the device refuses
    (negative return) the call returns the invalid mem_id and the
    descriptor is as before; otherwise it returns the device's mem_id and
    the descriptor carries the device's address and token, the length (the
    argument for [obmm_export_useraddr], the sum of the per-node lengths
    for [obmm_export]), and channel numbers 0.  After a refusal errno is
    the device's for [obmm_export], and what [free] made of it for
    [obmm_export_useraddr]. *)
Theorem export_end_to_end (E : env) (U : uapi) (d : obmm_mem_desc)
    (flags : Z) (w : world) :
  0 <= handle E w ->
  memcmp_eq EID_SIZE (md_deid d) g_invalid_eid = false ->
  valid (live_ctl E (md_deid d)) = true ->
  calloc_ok E = true ->
  sizeof_hisi_ummu_tdev_info <= OBMM_MAX_VENDOR_LEN U ->
  let out := vendor_out_of (live_ctl E (md_deid d)) in
  (forall len,
     let reply := dev_export E (handle E w) (export_cmd U len flags d out) in
     fst (obmm_export E U (Some len) flags (Some d) w)
     = (if io_ret reply <? 0 then (OBMM_INVALID_MEMID, Some d)
        else (ce_mem_id (io_cmd reply),
              Some (exported_desc d (ce_uba (io_cmd reply))
                      (sum_lengths (OBMM_MAX_LOCAL_NUMA_NODES U) len)
                      (ce_tokenid (io_cmd reply))))) /\
     (io_ret reply < 0 ->
      errno (snd (obmm_export E U (Some len) flags (Some d) w))
      = io_errno reply))
  /\
  (forall pid va length,
     let reply :=
       dev_export_pid E (handle E w)
         (export_pid_cmd pid va length flags d out) in
     fst (obmm_export_useraddr E U pid va length flags (Some d) w)
     = (if io_ret reply <? 0 then (OBMM_INVALID_MEMID, Some d)
        else (cp_mem_id (io_cmd reply),
              Some (exported_desc d (cp_uba (io_cmd reply)) length
                      (cp_tokenid (io_cmd reply))))) /\
     (io_ret reply < 0 ->
      errno (snd (obmm_export_useraddr E U pid va length flags (Some d) w))
      = lib_errno E EvFree (io_errno reply))).
Proof.
  intros Hh Hz Hv Hc Hs out. subst out. split.
  - intros len reply. subst reply.
    destruct (obmm_export E U (Some len) flags (Some d) w) as [[r od'] w']
      eqn:Hrun.
    destruct (obmm_export_run _ _ _ _ _ _ _ _ _ Hrun)
      as [(Hn & _)|(_ & rv & o & w2 & Hva & Hcase)]; [lia|].
    pose proof (vendor_adapt_export_ok E U d vendor_out_zero
                  (mk_world 0 (handle E w) (trace w ++ open_events w))
                  Hz Hv Hc Hs) as Hok.
    rewrite Hva in Hok. simpl in Hok. inversion Hok; subst rv o.
    destruct Hcase as [(Hne & _)|(_ & Hw' & Hres)]; [congruence|].
    cbv zeta in Hw', Hres. cbn [fst snd]. split; [exact Hres|].
    intros Hneg. apply Z.ltb_lt in Hneg. rewrite Hw', Hneg. reflexivity.
  - intros pid va length reply. subst reply.
    destruct (obmm_export_useraddr E U pid va length flags (Some d) w)
      as [[r od'] w'] eqn:Hrun.
    destruct (obmm_export_useraddr_run _ _ _ _ _ _ _ _ _ _ _ Hrun)
      as [(Hn & _)|(_ & rv & o & w2 & Hva & Hcase)]; [lia|].
    pose proof (vendor_adapt_export_ok E U d vendor_out_zero
                  (mk_world 0 (handle E w) (trace w ++ open_events w))
                  Hz Hv Hc Hs) as Hok.
    rewrite Hva in Hok. simpl in Hok. inversion Hok; subst rv o.
    destruct Hcase as [(Hne & _)|(_ & Hw' & Hres)]; [congruence|].
    cbv zeta in Hw', Hres. cbn [fst snd]. split; [exact Hres|].
    intros Hneg. apply Z.ltb_lt in Hneg. rewrite Hw', Hneg. reflexivity.
Qed.

Lemma export_end_to_end_witness :
  0 <= handle Fixture.host initial_world /\
  memcmp_eq EID_SIZE (md_deid Fixture.desc) g_invalid_eid = false /\
  valid (live_ctl Fixture.host (md_deid Fixture.desc)) = true /\
  calloc_ok Fixture.host = true /\
  sizeof_hisi_ummu_tdev_info <= OBMM_MAX_VENDOR_LEN Fixture.abi /\
  vendor_out_of (live_ctl Fixture.host (md_deid Fixture.desc))
  = mk_vendor_out (Some (mk_tdev_info HISI_TDEV_INFO_V1 8 true)) 24 1 /\
  fst (obmm_export Fixture.host Fixture.abi (Some Fixture.lengths) 0
         (Some Fixture.desc) initial_world)
  = (42, Some (exported_desc Fixture.desc 1048576 4096 7)).
Proof.
  assert (Hh : 0 <= handle Fixture.host initial_world)
    by (vm_compute; discriminate).
  assert (Hs : sizeof_hisi_ummu_tdev_info <= OBMM_MAX_VENDOR_LEN Fixture.abi)
    by (vm_compute; discriminate).
  assert (Hv : valid (live_ctl Fixture.host (md_deid Fixture.desc)) = true)
    by (vm_compute; reflexivity).
  split; [exact Hh|]. split; [reflexivity|]. split; [exact Hv|].
  split; [reflexivity|]. split; [exact Hs|].
  split; [vm_compute; reflexivity|].
  rewrite (proj1 (proj1 (export_end_to_end Fixture.host Fixture.abi
                           Fixture.desc 0 initial_world Hh eq_refl Hv
                           eq_refl Hs) Fixture.lengths)).
  vm_compute. reflexivity.
Defined.

(** X9.  An export writes the caller's descriptor only after the device
    has granted the transaction.  For every argument, null ones included:
    if the descriptor is not what it was, or the call did not return the
    invalid mem_id, then the call ended with a granted export transaction
    followed by the release of the vendor payload. *)
Theorem export_writes_only_when_granted (E : env) (U : uapi) (w : world) :
  (forall length flags desc r od' w',
     obmm_export E U length flags desc w = (r, od', w') ->
     od' <> desc \/ r <> OBMM_INVALID_MEMID ->
     granted_then_released OBMM_CMD_EXPORT w w')
  /\
  (forall pid va length flags desc r od' w',
     obmm_export_useraddr E U pid va length flags desc w = (r, od', w') ->
     od' <> desc \/ r <> OBMM_INVALID_MEMID ->
     granted_then_released OBMM_CMD_EXPORT_PID w w').
Proof.
  split.
  - intros length flags desc r od' w' Hrun Hch.
    destruct length as [len|], desc as [d|];
      try (inversion Hrun; subst; destruct Hch; congruence).
    destruct (obmm_export_run _ _ _ _ _ _ _ _ _ Hrun)
      as [(_ & -> & -> & _)|(Hh & rv & o & w2 & Hva & Hcase)];
      [destruct Hch; congruence|].
    destruct Hcase as [(_ & -> & -> & _)|(_ & Hw' & Hres)];
      [destruct Hch; congruence|].
    cbv zeta in Hw', Hres.
    destruct (vendor_adapt_export_run _ _ _ _ _ _ _ _ Hva)
      as (evs & tail & _ & Ht & _).
    destruct (Z.ltb_spec (io_ret (dev_export E (handle E w)
                                   (export_cmd U len flags d o))) 0).
    { inversion Hres; subst. destruct Hch; congruence. }
    exists (open_events w ++ evs ++ tail), (handle E w). eexists.
    split; [|eassumption]. rewrite Hw'. cbn [trace]. rewrite Ht.
    cbn [trace]. rewrite <- !app_assoc. reflexivity.
  - intros pid va length flags desc r od' w' Hrun Hch.
    destruct desc as [d|];
      try (inversion Hrun; subst; destruct Hch; congruence).
    destruct (obmm_export_useraddr_run _ _ _ _ _ _ _ _ _ _ _ Hrun)
      as [(_ & -> & -> & _)|(Hh & rv & o & w2 & Hva & Hcase)];
      [destruct Hch; congruence|].
    destruct Hcase as [(_ & -> & -> & _)|(_ & Hw' & Hres)];
      [destruct Hch; congruence|].
    cbv zeta in Hw', Hres.
    destruct (vendor_adapt_export_run _ _ _ _ _ _ _ _ Hva)
      as (evs & tail & _ & Ht & _).
    destruct (Z.ltb_spec (io_ret (dev_export_pid E (handle E w)
                                   (export_pid_cmd pid va length flags d o)))
                0).
    { inversion Hres; subst. destruct Hch; congruence. }
    exists (open_events w ++ evs ++ tail), (handle E w). eexists.
    split; [|eassumption]. rewrite Hw'. cbn [trace]. rewrite Ht.
    cbn [trace]. rewrite <- !app_assoc. reflexivity.
Qed.

Lemma export_writes_only_when_granted_witness :
  obmm_export Fixture.host Fixture.abi (Some Fixture.lengths) 0
    (Some Fixture.desc) initial_world
  = (42, Some (exported_desc Fixture.desc 1048576 4096 7),
     snd (obmm_export Fixture.host Fixture.abi (Some Fixture.lengths) 0
            (Some Fixture.desc) initial_world)) /\
  (Some (exported_desc Fixture.desc 1048576 4096 7) <> Some Fixture.desc \/
   42 <> OBMM_INVALID_MEMID) /\
  granted_then_released OBMM_CMD_EXPORT initial_world
    (snd (obmm_export Fixture.host Fixture.abi (Some Fixture.lengths) 0
            (Some Fixture.desc) initial_world)).
Proof.
  assert (Hrun : obmm_export Fixture.host Fixture.abi (Some Fixture.lengths) 0
                   (Some Fixture.desc) initial_world
                 = (42, Some (exported_desc Fixture.desc 1048576 4096 7),
                    snd (obmm_export Fixture.host Fixture.abi
                           (Some Fixture.lengths) 0 (Some Fixture.desc)
                           initial_world))) by (vm_compute; reflexivity).
  assert (Hch : Some (exported_desc Fixture.desc 1048576 4096 7)
                <> Some Fixture.desc \/ 42 <> OBMM_INVALID_MEMID)
    by (right; discriminate).
  split; [exact Hrun|]. split; [exact Hch|].
  exact (proj1 (export_writes_only_when_granted Fixture.host Fixture.abi
                  initial_world) _ _ _ _ _ _ Hrun Hch).
Defined.

(** What an export adds to the trace, by the allocator's calls. *)
Lemma export_events_balance E w rv w2 evs tail (fin : list event) :
  trace w2 = trace (mk_world 0 (handle E w) (trace w ++ open_events w))
             ++ evs ++ tail ->
  forallb is_sysfs evs = true ->
  ((rv = 0 /\ tail = [EvCalloc] /\ calloc_ok E = true) \/
   (rv <> 0 /\
    (tail = [] \/ (tail = [EvCalloc] /\ calloc_ok E = false) \/
     (tail = [EvCalloc; EvFree] /\ calloc_ok E = true)))) ->
  (rv = 0 -> exists e, fin = [e; EvFree] /\ is_ioctl e = true) ->
  (rv <> 0 -> fin = []) ->
  exists all,
    trace w2 ++ fin = trace w ++ all /\
    (count is_calloc all <= 1)%nat /\
    (calloc_ok E = true -> count is_free all = count is_calloc all) /\
    (calloc_ok E = false -> count is_free all = 0%nat /\ no_ioctl all).
Proof.
  intros Ht Hs Hcase Hfin0 Hfin1. cbn [trace] in Ht.
  exists (open_events w ++ evs ++ tail ++ fin).
  split; [rewrite Ht, <- !app_assoc; reflexivity|].
  destruct (count_sysfs evs Hs) as [Hc Hf].
  assert (Hni : no_ioctl (open_events w ++ evs)).
  { apply open_events_no_ioctl, sysfs_no_ioctl, Hs. }
  unfold no_ioctl in *. rewrite forallb_app in Hni.
  apply andb_true_iff in Hni. destruct Hni as [Hn1 Hn2].
  rewrite !forallb_app, Hn1, Hn2.
  rewrite !count_app, Hc, Hf, !count_open_events by reflexivity.
  destruct Hcase as [(Hrv & Htl & Hok)|(Hrv & Htail)]; [subst tail|].
  - destruct (Hfin0 Hrv) as (e & Hfe & He). subst fin.
    destruct e; try discriminate.
    cbn. repeat split; try lia. all: congruence.
  - rewrite (Hfin1 Hrv).
    destruct Htail as [Htl|[[Htl Hok]|[Htl Hok]]]; subst tail; cbn;
      repeat split; try lia; congruence.
Qed.

Lemma no_events_balance E w :
  exists all : list event,
    trace w = trace w ++ all /\
    (count is_calloc all <= 1)%nat /\
    (calloc_ok E = true -> count is_free all = count is_calloc all) /\
    (calloc_ok E = false -> count is_free all = 0%nat /\ no_ioctl all).
Proof. exists []. rewrite app_nil_r. cbn. repeat split; lia. Qed.

Lemma open_events_balance E w :
  exists all : list event,
    trace w ++ open_events w = trace w ++ all /\
    (count is_calloc all <= 1)%nat /\
    (calloc_ok E = true -> count is_free all = count is_calloc all) /\
    (calloc_ok E = false -> count is_free all = 0%nat /\ no_ioctl all).
Proof.
  exists (open_events w). split; [reflexivity|].
  rewrite !count_open_events by reflexivity.
  pose proof (open_events_no_ioctl w [] eq_refl) as Hn.
  rewrite app_nil_r in Hn.
  repeat split; try lia. exact Hn.
Qed.

(** X10.  The vendor payload never leaks and is never released twice.
    Whatever the arguments and the outcome, an export call asks the
    allocator for at most one payload; when the allocation succeeds the
    payload is released exactly once before the call returns, and when it
    fails nothing is released and no device transaction is issued. *)
Theorem export_payload_balance (E : env) (U : uapi) (w : world) :
  (forall length flags desc,
   exists evs,
     trace (snd (obmm_export E U length flags desc w)) = trace w ++ evs /\
     (count is_calloc evs <= 1)%nat /\
     (calloc_ok E = true -> count is_free evs = count is_calloc evs) /\
     (calloc_ok E = false -> count is_free evs = 0%nat /\ no_ioctl evs))
  /\
  (forall pid va length flags desc,
   exists evs,
     trace (snd (obmm_export_useraddr E U pid va length flags desc w))
     = trace w ++ evs /\
     (count is_calloc evs <= 1)%nat /\
     (calloc_ok E = true -> count is_free evs = count is_calloc evs) /\
     (calloc_ok E = false -> count is_free evs = 0%nat /\ no_ioctl evs)).
Proof.
  split.
  - intros length flags desc.
    destruct length as [len|], desc as [d|];
      try (exact (no_events_balance E w)).
    destruct (obmm_export E U (Some len) flags (Some d) w) as [[r od'] w']
      eqn:Hrun. cbn [snd].
    destruct (obmm_export_run _ _ _ _ _ _ _ _ _ Hrun)
      as [(_ & _ & _ & ->)|(Hh & rv & o & w2 & Hva & Hcase)];
      [apply open_events_balance|].
    destruct (vendor_adapt_export_run _ _ _ _ _ _ _ _ Hva)
      as (evs & tail & _ & Ht & Hs & Htail).
    destruct Hcase as [(Hrv & _ & _ & ->)|(Hrv & Hw' & _)].
    + cbn [trace]. rewrite <- (app_nil_r (trace w2)).
      apply (export_events_balance E w rv w2 evs tail [] Ht Hs Htail);
        intros; [congruence|reflexivity].
    + cbv zeta in Hw'. rewrite Hw'. cbn [trace].
      apply (export_events_balance E w rv w2 evs tail _ Ht Hs Htail);
        intros; [|congruence].
      eexists. split; reflexivity.
  - intros pid va length flags desc.
    destruct desc as [d|]; try (exact (no_events_balance E w)).
    destruct (obmm_export_useraddr E U pid va length flags (Some d) w)
      as [[r od'] w'] eqn:Hrun. cbn [snd].
    destruct (obmm_export_useraddr_run _ _ _ _ _ _ _ _ _ _ _ Hrun)
      as [(_ & _ & _ & ->)|(Hh & rv & o & w2 & Hva & Hcase)];
      [apply open_events_balance|].
    destruct (vendor_adapt_export_run _ _ _ _ _ _ _ _ Hva)
      as (evs & tail & _ & Ht & Hs & Htail).
    destruct Hcase as [(Hrv & _ & _ & ->)|(Hrv & Hw' & _)].
    + cbn [trace]. rewrite <- (app_nil_r (trace w2)).
      apply (export_events_balance E w rv w2 evs tail [] Ht Hs Htail);
        intros; [congruence|reflexivity].
    + cbv zeta in Hw'. rewrite Hw'. cbn [trace].
      apply (export_events_balance E w rv w2 evs tail _ Ht Hs Htail);
        intros; [|congruence].
      eexists. split; reflexivity.
Qed.

Lemma export_payload_balance_witness :
  calloc_ok Fixture.host = true /\
  exists evs,
    trace (snd (obmm_export Fixture.host Fixture.abi (Some Fixture.lengths) 0
                  (Some Fixture.desc) initial_world))
    = trace initial_world ++ evs /\
    count is_free evs = count is_calloc evs.
Proof.
  split; [reflexivity|].
  destruct (proj1 (export_payload_balance Fixture.host Fixture.abi
                     initial_world) (Some Fixture.lengths) 0
              (Some Fixture.desc)) as (evs & Ht & _ & Hb & _).
  exists evs. split; [exact Ht|]. exact (Hb eq_refl).
Defined.

(* ================================================================== *)
(** ** Import and preimport from end to end *)

Lemma live_primary_cna_range E eid c :
  live_primary_cna E eid = Some c -> 0 <= c <= INT_MAX.
Proof.
  unfold live_primary_cna, get_primary_cna_by_eid, bind.
  destruct (get_ubc_by_eid E MAX_PATH eid initial_world) as [[[k p]|] w1];
    [|discriminate].
  rewrite get_ubc_attr_run.
  pose proof (attr_value_range E p "primary_cna") as Hr.
  destruct (Z.ltb_spec (attr_value E p "primary_cna") 0); [discriminate|].
  unfold ret. cbn [fst]. intros H'. inversion H'; subst.
  unfold INT_MAX in *. rewrite Z.mod_small; lia.
Qed.

(** The run of [obmm_import] once the base distance has passed and the
    device is open. *)
Lemma obmm_import_run E U d flags base_dist numa w :
  numa_remote_without_preimport U flags
  && ((base_dist <? 0) || (UINT8_MAX <? base_dist)) = false ->
  0 <= handle E w ->
  exists evs e,
    forallb is_sysfs evs = true /\
    let reply :=
      dev_import E (handle E w) (import_cmd d flags base_dist numa) in
    obmm_import E U (Some d) flags base_dist numa w =
    match live_primary_cna E (md_seid d) with
    | Some c =>
        if c =? md_scna d then
          (if io_ret reply <? 0 then (OBMM_INVALID_MEMID, numa)
           else (ci_mem_id (io_cmd reply),
                 match numa with
                 | Some _ => Some (ci_numa_id (io_cmd reply))
                 | None => None
                 end),
           mk_world (if io_ret reply <? 0 then io_errno reply else e)
                    (handle E w)
                    (trace w ++ open_events w ++ evs ++
                     [EvIoctl (handle E w) OBMM_CMD_IMPORT (io_ret reply)]))
        else
          (OBMM_INVALID_MEMID, numa,
           mk_world ENODEV (handle E w) (trace w ++ open_events w ++ evs))
    | None =>
        (OBMM_INVALID_MEMID, numa,
         mk_world ENODEV (handle E w) (trace w ++ open_events w ++ evs))
    end.
Proof.
  intros Hg Hh. apply Z.ltb_ge in Hh.
  destruct (vendor_fixup_import_cmd_run E
              (import_cmd d flags base_dist numa)
              (mk_world 0 (handle E w) (trace w ++ open_events w)))
    as (evs & e & rv & Hrun & Hs & Hres).
  cbn [ci_seid ci_scna import_cmd with_mem_id_numa fill_import_cmd_info
       obmm_dev_fd trace] in Hres, Hrun.
  rewrite live_primary_cna_firstn in Hres.
  exists evs, e. split; [exact Hs|]. cbv zeta.
  unfold obmm_import. rewrite Hg. unfold bind at 1.
  rewrite obmm_dev_get_fd_spec. cbv beta iota zeta. rewrite Hh.
  unfold bind at 1. rewrite Hrun. cbv beta iota.
  destruct (live_primary_cna E (md_seid d)) as [c|].
  - destruct (c =? md_scna d).
    + subst rv. change (negb (0 =? 0)) with false. run.
      destruct (dev_import E (handle E w) (import_cmd d flags base_dist numa))
        as [r0 er c'].
      cbn [io_ret io_errno io_cmd errno obmm_dev_fd trace].
      rewrite <- !app_assoc. destruct (r0 <? 0); reflexivity.
    + destruct Hres as [-> ->]. change (negb (-1 =? 0)) with true.
      unfold ret. rewrite <- app_assoc. reflexivity.
  - destruct Hres as [-> ->]. change (negb (-1 =? 0)) with true.
    unfold ret. rewrite <- app_assoc. reflexivity.
Qed.

Lemma obmm_preimport_run E p flags w :
  (pi_base_dist p <? 0) || (UINT8_MAX <? pi_base_dist p) = false ->
  0 <= handle E w ->
  exists evs e,
    forallb is_sysfs evs = true /\
    let reply :=
      dev_declare_preimport E (handle E w) (preimport_cmd p flags) in
    obmm_preimport E (Some p) flags w =
    match live_primary_cna E (pi_seid p) with
    | Some c =>
        if c =? pi_scna p then
          (if io_ret reply <? 0 then (io_ret reply, Some p)
           else (0, Some (with_numa_id p (cr_numa_id (io_cmd reply)))),
           mk_world (if io_ret reply <? 0 then io_errno reply else e)
                    (handle E w)
                    (trace w ++ open_events w ++ evs ++
                     [EvIoctl (handle E w) OBMM_CMD_DECLARE_PREIMPORT
                        (io_ret reply)]))
        else
          (-1, Some p,
           mk_world ENODEV (handle E w) (trace w ++ open_events w ++ evs))
    | None =>
        (-1, Some p,
         mk_world ENODEV (handle E w) (trace w ++ open_events w ++ evs))
    end.
Proof.
  intros Hg Hh. apply Z.ltb_ge in Hh.
  destruct (vendor_fixup_preimport_cmd_run E (preimport_cmd p flags)
              (mk_world 0 (handle E w) (trace w ++ open_events w)))
    as (evs & e & rv & Hrun & Hs & Hres).
  cbn [cr_seid cr_scna preimport_cmd obmm_dev_fd trace] in Hres, Hrun.
  rewrite live_primary_cna_firstn in Hres.
  exists evs, e. split; [exact Hs|]. cbv zeta.
  unfold obmm_preimport. rewrite Hg. unfold bind at 1.
  rewrite obmm_dev_get_fd_spec. cbv beta iota zeta. rewrite Hh.
  unfold bind at 1. rewrite Hrun. cbv beta iota.
  destruct (live_primary_cna E (pi_seid p)) as [c|].
  - destruct (c =? pi_scna p).
    + subst rv. change (negb (0 =? 0)) with false. run.
      destruct (dev_declare_preimport E (handle E w) (preimport_cmd p flags))
        as [r0 er c'].
      cbn [io_ret io_errno io_cmd errno obmm_dev_fd trace].
      rewrite <- !app_assoc. destruct (r0 <? 0); reflexivity.
    + destruct Hres as [-> ->]. change (negb (-1 =? 0)) with true.
      unfold ret. rewrite <- app_assoc. reflexivity.
  - destruct Hres as [-> ->]. change (negb (-1 =? 0)) with true.
    unfold ret. rewrite <- app_assoc. reflexivity.
Qed.

(** X11.  Import and preimport-declare from end to end.  When the base
    distance passes, the control device is open and the descriptor's scna
    is the live primary channel of its source endpoint id, the call
    submits exactly one command: the descriptor's fields, the flags and
    the base distance as given, mem_id 0, and as NUMA hint the caller's
    value or, for a null [numa], NUMA_NO_NODE.  A device refusal (negative
    return) comes back as the invalid mem_id (for [obmm_preimport]: as the
    device's return value) with the device's errno and leaves the outputs
    alone; otherwise [obmm_import] returns the device's mem_id and writes
    the device's NUMA id through a non-null [numa], and [obmm_preimport]
    returns 0 and writes the device's NUMA id into the descriptor, and
    nothing else of it. *)
Theorem import_end_to_end (E : env) (U : uapi) (flags : Z) (w : world) :
  0 <= handle E w ->
  (forall d base_dist numa,
     numa_remote_without_preimport U flags
     && ((base_dist <? 0) || (UINT8_MAX <? base_dist)) = false ->
     live_primary_cna E (md_seid d) = Some (md_scna d) ->
     let cmd := import_cmd d flags base_dist numa in
     let reply := dev_import E (handle E w) cmd in
     cmd = {| ci_addr := md_addr d; ci_length := md_length d;
              ci_tokenid := md_tokenid d; ci_scna := md_scna d;
              ci_dcna := md_dcna d; ci_priv_len := md_priv_len d;
              ci_priv := md_priv d; ci_flags := flags;
              ci_base_dist := base_dist;
              ci_deid := firstn EID_SIZE (md_deid d);
              ci_seid := firstn EID_SIZE (md_seid d);
              ci_mem_id := 0;
              ci_numa_id := match numa with
                            | Some n => n
                            | None => NUMA_NO_NODE
                            end |} /\
     fst (obmm_import E U (Some d) flags base_dist numa w)
     = (if io_ret reply <? 0 then (OBMM_INVALID_MEMID, numa)
        else (ci_mem_id (io_cmd reply),
              match numa with
              | Some _ => Some (ci_numa_id (io_cmd reply))
              | None => None
              end)) /\
     (io_ret reply < 0 ->
      errno (snd (obmm_import E U (Some d) flags base_dist numa w))
      = io_errno reply) /\
     count is_ioctl
       (skipn (List.length (trace w))
          (trace (snd (obmm_import E U (Some d) flags base_dist numa w))))
     = 1%nat)
  /\
  (forall p,
     0 <= pi_base_dist p <= UINT8_MAX ->
     live_primary_cna E (pi_seid p) = Some (pi_scna p) ->
     let reply :=
       dev_declare_preimport E (handle E w) (preimport_cmd p flags) in
     fst (obmm_preimport E (Some p) flags w)
     = (if io_ret reply <? 0 then (io_ret reply, Some p)
        else (0, Some (with_numa_id p (cr_numa_id (io_cmd reply))))) /\
     (io_ret reply < 0 ->
      errno (snd (obmm_preimport E (Some p) flags w)) = io_errno reply)).
Proof.
  intros Hh. split.
  - intros d base_dist numa Hg Hc cmd reply. subst cmd reply.
    split; [reflexivity|].
    destruct (obmm_import_run E U d flags base_dist numa w Hg Hh)
      as (evs & e & Hs & Hrun).
    cbv zeta in Hrun. rewrite Hc, Z.eqb_refl in Hrun. rewrite Hrun.
    cbn [fst snd errno trace]. split; [reflexivity|]. split.
    + intros Hneg. apply Z.ltb_lt in Hneg. rewrite Hneg. reflexivity.
    + rewrite skipn_app, skipn_all, Nat.sub_diag. cbn [skipn app].
      rewrite !count_app.
      assert (Hni : count is_ioctl (open_events w ++ evs) = 0%nat).
      { pose proof (open_events_no_ioctl w evs (sysfs_no_ioctl evs Hs)) as Hn.
        unfold no_ioctl in Hn. unfold count.
        induction (open_events w ++ evs) as [|ev l IH]; [reflexivity|].
        simpl in Hn. apply andb_true_iff in Hn. destruct Hn as [Hn1 Hn2].
        simpl. destruct (is_ioctl ev); [discriminate|]. apply IH, Hn2. }
      rewrite count_app in Hni. cbn. lia.
  - intros p Hb Hc reply. subst reply.
    assert (Hg : (pi_base_dist p <? 0) || (UINT8_MAX <? pi_base_dist p)
                 = false).
    { destruct (_ || _) eqn:Hc'; [|reflexivity].
      apply base_dist_gate in Hc'. contradiction. }
    destruct (obmm_preimport_run E p flags w Hg Hh) as (evs & e & Hs & Hrun).
    cbv zeta in Hrun. rewrite Hc, Z.eqb_refl in Hrun. rewrite Hrun.
    cbn [fst snd errno]. split; [reflexivity|].
    intros Hneg. apply Z.ltb_lt in Hneg. rewrite Hneg. reflexivity.
Qed.

Lemma import_end_to_end_witness :
  0 <= handle Fixture.host initial_world /\
  live_primary_cna Fixture.host (md_seid Fixture.desc)
  = Some (md_scna Fixture.desc) /\
  fst (obmm_import Fixture.host Fixture.abi (Some Fixture.desc) 0 0 None
         initial_world) = (43, None) /\
  fst (obmm_import Fixture.host Fixture.abi (Some Fixture.desc) 0 0 (Some 5)
         initial_world) = (43, Some 2) /\
  0 <= pi_base_dist (Fixture.preimport 10 85) <= UINT8_MAX /\
  fst (obmm_preimport Fixture.host (Some (Fixture.preimport 10 85)) 0
         initial_world)
  = (0, Some (with_numa_id (Fixture.preimport 10 85) 2)).
Proof.
  assert (Hh : 0 <= handle Fixture.host initial_world)
    by (vm_compute; discriminate).
  assert (Hc : live_primary_cna Fixture.host (md_seid Fixture.desc)
               = Some (md_scna Fixture.desc)) by (vm_compute; reflexivity).
  assert (Hb : 0 <= pi_base_dist (Fixture.preimport 10 85) <= UINT8_MAX)
    by (unfold UINT8_MAX; simpl; lia).
  split; [exact Hh|]. split; [exact Hc|].
  pose proof (proj1 (import_end_to_end Fixture.host Fixture.abi 0
                       initial_world Hh)) as Hi.
  split.
  { rewrite (proj1 (proj2 (Hi Fixture.desc 0 None eq_refl Hc))).
    vm_compute. reflexivity. }
  split.
  { rewrite (proj1 (proj2 (Hi Fixture.desc 0 (Some 5) eq_refl Hc))).
    vm_compute. reflexivity. }
  split; [exact Hb|].
  rewrite (proj1 (proj2 (import_end_to_end Fixture.host Fixture.abi 0
                           initial_world Hh)
                    (Fixture.preimport 10 85) Hb
                    ltac:(vm_compute; reflexivity))).
  vm_compute. reflexivity.
Defined.

(** X12.  A channel number outside [0, INT_MAX] can never be validated:
    the live channel is read through [int], so for a descriptor whose scna
    (a [uint32_t]) is [2 ^ 31] or more, [obmm_import] and [obmm_preimport]
    with the control device open and the base distance in range fail with
    ENODEV whatever sysfs holds, and no device transaction is issued. *)
Theorem scna_beyond_int_is_refused (E : env) (U : uapi) (flags : Z)
    (w : world) :
  0 <= handle E w ->
  (forall d base_dist numa,
     numa_remote_without_preimport U flags
     && ((base_dist <? 0) || (UINT8_MAX <? base_dist)) = false ->
     INT_MAX < md_scna d ->
     exists evs,
       no_ioctl evs /\
       obmm_import E U (Some d) flags base_dist numa w
       = (OBMM_INVALID_MEMID, numa,
          mk_world ENODEV (handle E w) (trace w ++ evs)))
  /\
  (forall p,
     0 <= pi_base_dist p <= UINT8_MAX ->
     INT_MAX < pi_scna p ->
     exists evs,
       no_ioctl evs /\
       obmm_preimport E (Some p) flags w
       = (-1, Some p, mk_world ENODEV (handle E w) (trace w ++ evs))).
Proof.
  intros Hh. split.
  - intros d base_dist numa Hg Hbig.
    destruct (obmm_import_run E U d flags base_dist numa w Hg Hh)
      as (evs & e & Hs & Hrun).
    cbv zeta in Hrun. exists (open_events w ++ evs).
    split; [apply open_events_no_ioctl, sysfs_no_ioctl, Hs|].
    rewrite Hrun.
    destruct (live_primary_cna E (md_seid d)) as [c|] eqn:Hc; [|reflexivity].
    pose proof (live_primary_cna_range _ _ _ Hc) as Hr.
    destruct (Z.eqb_spec c (md_scna d)); [lia|reflexivity].
  - intros p Hb Hbig.
    assert (Hg : (pi_base_dist p <? 0) || (UINT8_MAX <? pi_base_dist p)
                 = false).
    { destruct (_ || _) eqn:Hc'; [|reflexivity].
      apply base_dist_gate in Hc'. contradiction. }
    destruct (obmm_preimport_run E p flags w Hg Hh) as (evs & e & Hs & Hrun).
    cbv zeta in Hrun. exists (open_events w ++ evs).
    split; [apply open_events_no_ioctl, sysfs_no_ioctl, Hs|].
    rewrite Hrun.
    destruct (live_primary_cna E (pi_seid p)) as [c|] eqn:Hc; [|reflexivity].
    pose proof (live_primary_cna_range _ _ _ Hc) as Hr.
    destruct (Z.eqb_spec c (pi_scna p)); [lia|reflexivity].
Qed.

Lemma scna_beyond_int_is_refused_witness :
  0 <= handle Fixture.host initial_world /\
  0 <= pi_base_dist (Fixture.preimport 10 2147483648) <= UINT8_MAX /\
  INT_MAX < pi_scna (Fixture.preimport 10 2147483648) /\
  fst (obmm_preimport Fixture.host (Some (Fixture.preimport 10 2147483648)) 0
         initial_world)
  = (-1, Some (Fixture.preimport 10 2147483648)).
Proof.
  assert (Hh : 0 <= handle Fixture.host initial_world)
    by (vm_compute; discriminate).
  assert (Hb : 0 <= pi_base_dist (Fixture.preimport 10 2147483648)
               <= UINT8_MAX) by (unfold UINT8_MAX; simpl; lia).
  assert (Hbig : INT_MAX < pi_scna (Fixture.preimport 10 2147483648))
    by (unfold INT_MAX; simpl; lia).
  split; [exact Hh|]. split; [exact Hb|]. split; [exact Hbig|].
  destruct (proj2 (scna_beyond_int_is_refused Fixture.host Fixture.abi 0
                     initial_world Hh)
              (Fixture.preimport 10 2147483648) Hb Hbig) as (evs & _ & Hrun).
  rewrite Hrun. reflexivity.
Defined.

(* ================================================================== *)
(** ** Queries and teardown *)

Lemma handle_after E w :
  0 <= handle E w ->
  forall E' tr e,
    handle E' (mk_world e (handle E w) tr) = handle E w /\
    open_events (mk_world e (handle E w) tr) = [].
Proof.
  intros Hh E' tr e. apply Z.ltb_ge in Hh.
  unfold handle at 1, obmm_dev_get_fd, open_events.
  cbn [obmm_dev_fd]. rewrite Hh. auto.
Qed.

(** X13.  The two queries and the three teardown calls are single
    transactions on the control device.  With the device open (and, for
    [obmm_unexport] and [obmm_unimport], a mem_id other than the invalid
    one) each call submits exactly one command that carries the arguments
    unchanged and zero in the fields the caller does not supply, and
    leaves in errno the device's errno on refusal and 0 otherwise, whatever
    errno held before.  The teardown calls return the transaction's value
    as it is, positive values included; the queries return it only when
    negative and otherwise return 0, writing the device's answer through
    the non-null output pointers. *)
Theorem device_forwarding (E : env) (flags : Z) (w : world) :
  0 <= handle E w ->
  let fd := handle E w in
  let after {C} (req : ioctl_req) (r : ioctl_reply C) :=
    mk_world (if io_ret r <? 0 then io_errno r else 0) fd
             (trace w ++ open_events w ++ [EvIoctl fd req (io_ret r)]) in
  (forall pa id offset,
     let r := dev_addr_query E fd (mk_cmd_addr_query OBMM_QUERY_BY_PA pa 0 0) in
     obmm_query_memid_by_pa E pa id offset w
     = (if io_ret r <? 0 then (io_ret r, id, offset)
        else (0,
              match id with
              | Some _ => Some (cq_mem_id (io_cmd r))
              | None => None
              end,
              match offset with
              | Some _ => Some (cq_offset (io_cmd r))
              | None => None
              end),
        after OBMM_CMD_ADDR_QUERY r)) /\
  (forall id offset pa,
     let r := dev_addr_query E fd
                (mk_cmd_addr_query OBMM_QUERY_BY_ID_OFFSET 0 id offset) in
     obmm_query_pa_by_memid E id offset pa w
     = (if io_ret r <? 0 then (io_ret r, pa)
        else (0, match pa with
                 | Some _ => Some (cq_pa (io_cmd r))
                 | None => None
                 end),
        after OBMM_CMD_ADDR_QUERY r)) /\
  (forall id,
     id <> OBMM_INVALID_MEMID ->
     let r := dev_unexport E fd (mk_cmd_unexport id flags) in
     obmm_unexport E id flags w = (io_ret r, after OBMM_CMD_UNEXPORT r)) /\
  (forall id,
     id <> OBMM_INVALID_MEMID ->
     let r := dev_unimport E fd (mk_cmd_unimport id flags) in
     obmm_unimport E id flags w = (io_ret r, after OBMM_CMD_UNIMPORT r)) /\
  (forall p,
     let r := dev_undeclare_preimport E fd (preimport_cmd p flags) in
     obmm_unpreimport E (Some p) flags w
     = (io_ret r, after OBMM_CMD_UNDECLARE_PREIMPORT r)).
Proof.
  intros Hh. cbv zeta. apply Z.ltb_ge in Hh.
  split; [|split; [|split; [|split]]].
  - intros pa id offset. unfold obmm_query_memid_by_pa.
    unfold bind at 1. rewrite obmm_dev_get_fd_spec. cbv beta iota zeta.
    rewrite Hh. run. cbn [trace obmm_dev_fd errno].
    destruct (dev_addr_query E _ _) as [r0 er c'].
    cbn [io_ret io_errno io_cmd fst snd]. rewrite <- app_assoc.
    destruct (r0 <? 0); reflexivity.
  - intros id offset pa. unfold obmm_query_pa_by_memid.
    unfold bind at 1. rewrite obmm_dev_get_fd_spec. cbv beta iota zeta.
    rewrite Hh. run. cbn [trace obmm_dev_fd errno].
    destruct (dev_addr_query E _ _) as [r0 er c'].
    cbn [io_ret io_errno io_cmd fst snd]. rewrite <- app_assoc.
    destruct (r0 <? 0); reflexivity.
  - intros id Hid. unfold obmm_unexport.
    destruct (Z.eqb_spec id OBMM_INVALID_MEMID); [contradiction|].
    unfold bind at 1. rewrite obmm_dev_get_fd_spec. cbv beta iota zeta.
    rewrite Hh. run. cbn [trace obmm_dev_fd errno fst snd].
    rewrite <- app_assoc. reflexivity.
  - intros id Hid. unfold obmm_unimport.
    destruct (Z.eqb_spec id OBMM_INVALID_MEMID); [contradiction|].
    unfold bind at 1. rewrite obmm_dev_get_fd_spec. cbv beta iota zeta.
    rewrite Hh. run. cbn [trace obmm_dev_fd errno fst snd].
    rewrite <- app_assoc. reflexivity.
  - intros p. unfold obmm_unpreimport.
    unfold bind at 1. rewrite obmm_dev_get_fd_spec. cbv beta iota zeta.
    rewrite Hh. run. cbn [trace obmm_dev_fd errno fst snd].
    rewrite <- app_assoc. reflexivity.
Qed.

Lemma device_forwarding_witness :
  0 <= handle Fixture.host (mk_world EINVAL (-1) []) /\
  7 <> OBMM_INVALID_MEMID /\
  obmm_unexport Fixture.host 7 0 (mk_world EINVAL (-1) [])
  = (0, mk_world 0 3 [EvOpen; EvIoctl 3 OBMM_CMD_UNEXPORT 0]).
Proof.
  assert (Hh : 0 <= handle Fixture.host (mk_world EINVAL (-1) []))
    by (vm_compute; discriminate).
  assert (Hid : 7 <> OBMM_INVALID_MEMID) by discriminate.
  split; [exact Hh|]. split; [exact Hid|].
  rewrite (proj1 (proj2 (proj2 (device_forwarding Fixture.host 0
                                  (mk_world EINVAL (-1) []) Hh))) 7 Hid).
  vm_compute. reflexivity.
Defined.

(** X14.  Declaring a preimport and undeclaring it with the descriptor the
    declaration wrote back.  When [obmm_preimport] returns 0 the descriptor
    it leaves is the caller's with the device's NUMA id, and
    [obmm_unpreimport] on that descriptor submits one command, on the
    descriptor [obmm_preimport] used, that differs from the declared
    command in the NUMA id (now the device's) and the flags (the second
    call's) only; it opens nothing and reads no sysfs file, so it goes
    through even when the channel has changed since. *)
Theorem declare_then_undeclare (E E' : env) (p : obmm_preimport_info)
    (flags flags' : Z) (info' : option obmm_preimport_info) (w w1 : world) :
  obmm_preimport E (Some p) flags w = (0, info', w1) ->
  let declared := preimport_cmd p flags in
  let granted := dev_declare_preimport E (handle E w) declared in
  let undeclared :=
    {| cr_pa := cr_pa declared; cr_length := cr_length declared;
       cr_base_dist := cr_base_dist declared;
       cr_numa_id := cr_numa_id (io_cmd granted);
       cr_scna := cr_scna declared; cr_dcna := cr_dcna declared;
       cr_priv_len := cr_priv_len declared; cr_priv := cr_priv declared;
       cr_flags := flags'; cr_deid := cr_deid declared;
       cr_seid := cr_seid declared |} in
  let r := dev_undeclare_preimport E' (handle E w) undeclared in
  info' = Some (with_numa_id p (cr_numa_id (io_cmd granted))) /\
  obmm_unpreimport E' info' flags' w1
  = (io_ret r,
     mk_world (if io_ret r <? 0 then io_errno r else 0) (handle E w)
              (trace w1 ++
               [EvIoctl (handle E w) OBMM_CMD_UNDECLARE_PREIMPORT
                  (io_ret r)])).
Proof.
  intros H. cbv zeta.
  destruct ((pi_base_dist p <? 0) || (UINT8_MAX <? pi_base_dist p)) eqn:Hg.
  { unfold obmm_preimport in H. rewrite Hg in H. run. discriminate. }
  destruct (Z.ltb_spec (handle E w) 0) as [Hneg|Hh].
  { unfold obmm_preimport in H. rewrite Hg in H.
    unfold bind at 1 in H. rewrite obmm_dev_get_fd_spec in H.
    cbv beta iota zeta in H. apply Z.ltb_lt in Hneg. rewrite Hneg in H.
    unfold ret in H. apply Z.ltb_lt in Hneg. inversion H. lia. }
  destruct (obmm_preimport_run E p flags w Hg Hh) as (evs & e & Hs & Hrun).
  cbv zeta in Hrun. rewrite Hrun in H. clear Hrun.
  destruct (live_primary_cna E (pi_seid p)) as [c|]; [|discriminate].
  destruct (c =? pi_scna p); [|discriminate].
  destruct (dev_declare_preimport E (handle E w) (preimport_cmd p flags))
    as [r0 er c'].
  cbn [io_ret io_errno io_cmd] in *.
  destruct (Z.ltb_spec r0 0) as [Hr|Hr].
  { inversion H. lia. }
  inversion H; subst info' w1. clear H. split; [reflexivity|].
  unfold obmm_unpreimport. unfold bind at 1.
  rewrite obmm_dev_get_fd_spec.
  destruct (handle_after E w Hh E' 
              (trace w ++ open_events w ++ evs ++
               [EvIoctl (handle E w) OBMM_CMD_DECLARE_PREIMPORT r0]) e)
    as [Hh' Ho'].
  rewrite Hh', Ho'. cbv beta iota zeta.
  apply Z.ltb_ge in Hh. rewrite Hh. run.
  cbn [trace obmm_dev_fd errno fst snd]. rewrite app_nil_r. reflexivity.
Qed.

Lemma declare_then_undeclare_witness :
  obmm_preimport Fixture.host (Some (Fixture.preimport 10 85)) 0 initial_world
  = (0, Some (with_numa_id (Fixture.preimport 10 85) 2),
     snd (obmm_preimport Fixture.host (Some (Fixture.preimport 10 85)) 0
            initial_world)) /\
  fst (obmm_unpreimport Fixture.host_corrupt
         (Some (with_numa_id (Fixture.preimport 10 85) 2)) 0
         (snd (obmm_preimport Fixture.host (Some (Fixture.preimport 10 85)) 0
                 initial_world))) = 0.
Proof.
  assert (H : obmm_preimport Fixture.host (Some (Fixture.preimport 10 85)) 0
                initial_world
              = (0, Some (with_numa_id (Fixture.preimport 10 85) 2),
                 snd (obmm_preimport Fixture.host
                        (Some (Fixture.preimport 10 85)) 0 initial_world)))
    by (vm_compute; reflexivity).
  split; [exact H|].
  rewrite (proj2 (declare_then_undeclare Fixture.host Fixture.host_corrupt
                    (Fixture.preimport 10 85) 0 0 _ initial_world _ H)).
  vm_compute. reflexivity.
Defined.

(* ================================================================== *)
(** ** A host without the control device *)

(** X15.  While the control device cannot be opened the library does
    nothing but try to open it.  Every entry point either rejects its
    arguments with EINVAL without any event, or makes one attempt to open
    the device and fails with the errno of that attempt: no sysfs file is
    read, nothing is allocated, no transaction is issued, the descriptor
    stays unset, the outputs keep their contents, and the value returned
    is the invalid mem_id for the calls that return a mem_id and is
    negative for the others. *)
Theorem without_the_device (E : env) (U : uapi) (w : world) :
  handle E w < 0 ->
  let failed (w' : world) :=
    obmm_dev_fd w' < 0 /\
    ((trace w' = trace w /\ errno w' = EINVAL) \/
     (trace w' = trace w ++ [EvOpen] /\ errno w' = snd (dev_open E))) in
  (forall pa id offset,
     exists r w', obmm_query_memid_by_pa E pa id offset w = (r, id, offset, w')
                  /\ r < 0 /\ failed w') /\
  (forall id offset pa,
     exists r w', obmm_query_pa_by_memid E id offset pa w = (r, pa, w')
                  /\ r < 0 /\ failed w') /\
  (forall pid va length flags desc,
     exists w', obmm_export_useraddr E U pid va length flags desc w
                = (OBMM_INVALID_MEMID, desc, w') /\ failed w') /\
  (forall length flags desc,
     exists w', obmm_export E U length flags desc w
                = (OBMM_INVALID_MEMID, desc, w') /\ failed w') /\
  (forall desc flags base_dist numa,
     exists w', obmm_import E U desc flags base_dist numa w
                = (OBMM_INVALID_MEMID, numa, w') /\ failed w') /\
  (forall id flags,
     exists r w', obmm_unexport E id flags w = (r, w') /\ r < 0 /\ failed w') /\
  (forall id flags,
     exists r w', obmm_unimport E id flags w = (r, w') /\ r < 0 /\ failed w') /\
  (forall info flags,
     exists r w', obmm_preimport E info flags w = (r, info, w')
                  /\ r < 0 /\ failed w') /\
  (forall info flags,
     exists r w', obmm_unpreimport E info flags w = (r, w')
                  /\ r < 0 /\ failed w').
Proof.
  intros Hh. cbv zeta.
  assert (Hfd : obmm_dev_fd w < 0).
  { unfold handle, obmm_dev_get_fd in Hh.
    destruct (Z.ltb_spec (obmm_dev_fd w) 0); [assumption|].
    simpl in Hh. lia. }
  assert (Ho : open_events w = [EvOpen]).
  { unfold open_events. apply Z.ltb_lt in Hfd. rewrite Hfd. reflexivity. }
  assert (Hlt : (handle E w <? 0) = true) by (apply Z.ltb_lt; exact Hh).
  assert (Hopened : obmm_dev_fd
                      (mk_world (snd (dev_open E)) (handle E w)
                                (trace w ++ [EvOpen])) < 0 /\
                    ((trace (mk_world (snd (dev_open E)) (handle E w)
                                      (trace w ++ [EvOpen])) = trace w /\
                      errno (mk_world (snd (dev_open E)) (handle E w)
                                      (trace w ++ [EvOpen])) = EINVAL) \/
                     (trace (mk_world (snd (dev_open E)) (handle E w)
                                      (trace w ++ [EvOpen]))
                      = trace w ++ [EvOpen] /\
                      errno (mk_world (snd (dev_open E)) (handle E w)
                                      (trace w ++ [EvOpen]))
                      = snd (dev_open E)))).
  { cbn [obmm_dev_fd trace errno]. split; [exact Hh|]. right. auto. }
  assert (Hlocal : obmm_dev_fd (mk_world EINVAL (obmm_dev_fd w) (trace w)) < 0
                   /\
                   ((trace (mk_world EINVAL (obmm_dev_fd w) (trace w))
                     = trace w /\
                     errno (mk_world EINVAL (obmm_dev_fd w) (trace w))
                     = EINVAL) \/
                    (trace (mk_world EINVAL (obmm_dev_fd w) (trace w))
                     = trace w ++ [EvOpen] /\
                     errno (mk_world EINVAL (obmm_dev_fd w) (trace w))
                     = snd (dev_open E)))).
  { cbn [obmm_dev_fd trace errno]. split; [exact Hfd|]. left. auto. }
  split; [|split; [|split; [|split; [|split; [|split; [|split; [|split]]]]]]].
  - intros pa id offset. unfold obmm_query_memid_by_pa, bind at 1.
    rewrite obmm_dev_get_fd_spec, Hlt, Ho. unfold ret.
    eexists _, _. split; [reflexivity|]. split; [exact Hh|exact Hopened].
  - intros id offset pa. unfold obmm_query_pa_by_memid, bind at 1.
    rewrite obmm_dev_get_fd_spec, Hlt, Ho. unfold ret.
    eexists _, _. split; [reflexivity|]. split; [exact Hh|exact Hopened].
  - intros pid va length flags [d|]; unfold obmm_export_useraddr.
    + unfold bind at 1. rewrite obmm_dev_get_fd_spec, Hlt, Ho. unfold ret.
      eexists. split; [reflexivity|exact Hopened].
    + run. eexists. split; [reflexivity|exact Hlocal].
  - intros [len|] flags [d|]; unfold obmm_export;
      try (run; eexists; split; [reflexivity|exact Hlocal]).
    unfold bind at 1. rewrite obmm_dev_get_fd_spec, Hlt, Ho. unfold ret.
    eexists. split; [reflexivity|exact Hopened].
  - intros [d|] flags base_dist numa; unfold obmm_import;
      try (run; eexists; split; [reflexivity|exact Hlocal]).
    destruct (_ && _);
      [run; eexists; split; [reflexivity|exact Hlocal]|].
    unfold bind at 1. rewrite obmm_dev_get_fd_spec, Hlt, Ho. unfold ret.
    eexists. split; [reflexivity|exact Hopened].
  - intros id flags. unfold obmm_unexport.
    destruct (_ =? _).
    + run. eexists _, _. split; [reflexivity|]. split; [lia|exact Hlocal].
    + unfold bind at 1. rewrite obmm_dev_get_fd_spec, Hlt, Ho. unfold ret.
      eexists _, _. split; [reflexivity|]. split; [exact Hh|exact Hopened].
  - intros id flags. unfold obmm_unimport.
    destruct (_ =? _).
    + run. eexists _, _. split; [reflexivity|]. split; [lia|exact Hlocal].
    + unfold bind at 1. rewrite obmm_dev_get_fd_spec, Hlt, Ho. unfold ret.
      eexists _, _. split; [reflexivity|]. split; [exact Hh|exact Hopened].
  - intros [p|] flags; unfold obmm_preimport.
    + destruct (_ || _).
      * run. eexists _, _. split; [reflexivity|]. split; [lia|exact Hlocal].
      * unfold bind at 1. rewrite obmm_dev_get_fd_spec, Hlt, Ho. unfold ret.
        eexists _, _. split; [reflexivity|]. split; [exact Hh|exact Hopened].
    + run. eexists _, _. split; [reflexivity|]. split; [lia|exact Hlocal].
  - intros [p|] flags; unfold obmm_unpreimport.
    + unfold bind at 1. rewrite obmm_dev_get_fd_spec, Hlt, Ho. unfold ret.
      eexists _, _. split; [reflexivity|]. split; [exact Hh|exact Hopened].
    + run. eexists _, _. split; [reflexivity|]. split; [lia|exact Hlocal].
Qed.

Lemma without_the_device_witness :
  handle Fixture.host_no_device initial_world < 0 /\
  obmm_import Fixture.host_no_device Fixture.abi (Some Fixture.desc) 0 0
    (Some 5) initial_world
  = (OBMM_INVALID_MEMID, Some 5, mk_world ENOENT (-1) [EvOpen]).
Proof.
  assert (Hh : handle Fixture.host_no_device initial_world < 0)
    by (vm_compute; reflexivity).
  split; [exact Hh|].
  destruct (proj1 (proj2 (proj2 (proj2 (proj2
              (without_the_device Fixture.host_no_device Fixture.abi
                 initial_world Hh)))))
              (Some Fixture.desc) 0 0 (Some 5)) as (w' & Hrun & _).
  rewrite Hrun. f_equal.
  assert (Hw : w' = snd (obmm_import Fixture.host_no_device Fixture.abi
                           (Some Fixture.desc) 0 0 (Some 5) initial_world))
    by (rewrite Hrun; reflexivity).
  rewrite Hw. vm_compute. reflexivity.
Defined.

(* ================================================================== *)
(** ** Ownership of a shared range *)

(** X16.  [obmm_set_ownership] submits a transaction exactly when [prot]
    is one of PROT_NONE, PROT_READ, PROT_WRITE and PROT_READ|PROT_WRITE,
    that is an integer from 0 to 3: any other value, in particular one
    with PROT_EXEC or another bit set, fails with EINVAL and the memory
    device is not called.  A submitted transaction goes to the caller's
    descriptor with [start] and [end] unchanged; its result is returned as
    it is and errno changes only when the device refuses.  Write-only is
    submitted as read-write, so the two requests are indistinguishable to
    the device. *)
Theorem obmm_set_ownership_requests (K : shm_uapi)
    (shmdev : Z -> obmm_cmd_update_range -> ioctl_reply obmm_cmd_update_range)
    (fd start end_ prot errno0 : Z) :
  let result := obmm_set_ownership K shmdev fd start end_ prot errno0 in
  (0 <= prot <= 3 <->
   exists mem_state,
     snd result
     = [(fd, {| ur_start := start; ur_end := end_; ur_mem_state := mem_state;
                ur_cache_ops := OBMM_SHM_CACHE_INFER K |})]) /\
  (~ 0 <= prot <= 3 <-> result = (-1, EINVAL, [])) /\
  (forall c, In c (snd result) ->
     fst (fst result) = io_ret (shmdev (fst c) (snd c)) /\
     snd (fst result)
     = (if io_ret (shmdev (fst c) (snd c)) <? 0
        then io_errno (shmdev (fst c) (snd c)) else errno0)) /\
  obmm_set_ownership K shmdev fd start end_ PROT_WRITE errno0
  = obmm_set_ownership K shmdev fd start end_ (Z.lor PROT_READ PROT_WRITE)
      errno0.
Proof.
  cbv zeta. unfold obmm_set_ownership, PROT_NONE, PROT_READ, PROT_WRITE.
  change (Z.lor 1 2) with 3.
  split; [|split; [|split]].
  - destruct (Z.eqb_spec prot 0); [subst prot; split; [intros _; eexists; reflexivity|intros _; lia]|].
    destruct (Z.eqb_spec prot 1); [subst prot; split; [intros _; eexists; reflexivity|intros _; lia]|].
    destruct (Z.eqb_spec prot 2); [subst prot; split; [intros _; eexists; reflexivity|intros _; lia]|].
    destruct (Z.eqb_spec prot 3); [subst prot; split; [intros _; eexists; reflexivity|intros _; lia]|].
    cbn [orb snd]. split; [lia|]. intros [m Hm]. discriminate.
  - destruct (Z.eqb_spec prot 0); [subst prot; split; [intros Hn; exfalso; apply Hn; lia|discriminate]|].
    destruct (Z.eqb_spec prot 1); [subst prot; split; [intros Hn; exfalso; apply Hn; lia|discriminate]|].
    destruct (Z.eqb_spec prot 2); [subst prot; split; [intros Hn; exfalso; apply Hn; lia|discriminate]|].
    destruct (Z.eqb_spec prot 3); [subst prot; split; [intros Hn; exfalso; apply Hn; lia|discriminate]|].
    cbn [orb]. split; [reflexivity|lia].
  - intros c.
    destruct (prot =? 0); [intros [<-|[]]; auto|].
    destruct (prot =? 1); [intros [<-|[]]; auto|].
    destruct ((prot =? 2) || (prot =? 3)); [intros [<-|[]]; auto|].
    intros [].
  - reflexivity.
Qed.

Lemma obmm_set_ownership_requests_witness :
  ~ 0 <= ShmFixture.PROT_EXEC <= 3 /\
  obmm_set_ownership ShmFixture.consts ShmFixture.grant 5 4096 8192
    ShmFixture.PROT_EXEC 0 = (-1, EINVAL, []).
Proof.
  assert (H : ~ 0 <= ShmFixture.PROT_EXEC <= 3)
    by (unfold ShmFixture.PROT_EXEC; lia).
  split; [exact H|].
  exact (proj1 (proj1 (proj2 (obmm_set_ownership_requests ShmFixture.consts
                                ShmFixture.grant 5 4096 8192
                                ShmFixture.PROT_EXEC 0))) H).
Defined.

(* ================================================================== *)
(** ** The sysfs paths *)

Lemma substring_0_all (s : string) (n : nat) :
  (String.length s <= n)%nat -> substring 0 n s = s.
Proof.
  revert n. induction s as [|c s IH]; intros [|n] H; simpl in *;
    try reflexivity; try lia.
  rewrite IH by lia. reflexivity.
Qed.

Lemma substring_0_app (a b : string) (n : nat) :
  (n <= String.length a)%nat -> substring 0 n (a ++ b) = substring 0 n a.
Proof.
  revert n. induction a as [|c a IH]; intros [|n] H; simpl in *;
    try reflexivity; try lia.
  - destruct b; reflexivity.
  - rewrite IH by lia. reflexivity.
Qed.

Lemma string_length_append (a b : string) :
  String.length (a ++ b) = (String.length a + String.length b)%nat.
Proof. induction a as [|c a IH]; simpl; [reflexivity|]. rewrite IH. reflexivity. Qed.

(** X17.  How the sysfs paths are formed.  [get_ubc_path] returns only 0,
    ENODEV or EINVAL; on 0 the buffer holds the directory of the first
    glob match in full, shorter than the buffer, and EINVAL means that
    directory did not fit.  [get_ubc_attr] opens [ubc_path/attr] when that
    name has at most 255 characters; a longer name is cut to its first 255
    characters without an error, so that for a directory of 255 characters
    or more every attribute opens one and the same file, named by the
    directory's first 255 characters. *)
Theorem sysfs_paths (E : env) (w : world) :
  (forall i path_len,
     match fst (get_ubc_path E i path_len w) with
     | inr p =>
         exists first rest,
           sys_glob E (ubc_pattern i) = Some (first :: rest) /\
           p = Libc.dirname first /\
           (String.length p < path_len)%nat
     | inl e =>
         (e = ENODEV /\
          (sys_glob E (ubc_pattern i) = None \/
           sys_glob E (ubc_pattern i) = Some [])) \/
         (e = EINVAL /\
          exists first rest,
            sys_glob E (ubc_pattern i) = Some (first :: rest) /\
            (path_len <= String.length (Libc.dirname first))%nat)
     end) /\
  (forall ubc_path attr,
     trace (snd (get_ubc_attr E ubc_path attr w))
     = trace w ++ [EvFopen (attr_file ubc_path attr)] /\
     (String.length (attr_file ubc_path attr) <= 255)%nat /\
     ((String.length ubc_path + 1 + String.length attr <= 255)%nat ->
      attr_file ubc_path attr = (ubc_path ++ "/" ++ attr)%string) /\
     ((255 <= String.length ubc_path)%nat ->
      attr_file ubc_path attr = substring 0 255 ubc_path)).
Proof.
  split.
  - intros i path_len. rewrite get_ubc_path_run. cbn [fst].
    unfold get_ubc_path. run. cbn [fst].
    destruct (sys_glob E (ubc_pattern i)) as [[|first rest]|]; cbn [fst];
      [left; auto|idtac|left; auto].
    destruct (Nat.leb_spec path_len (String.length (Libc.dirname first)));
      cbn [fst].
    + right. split; [reflexivity|]. eauto.
    + exists first, rest. split; [reflexivity|].
      unfold Libc.snprintf_buf. rewrite substring_0_all by lia. auto.
  - intros ubc_path attr. rewrite get_ubc_attr_run. cbn [snd trace].
    split; [reflexivity|]. unfold attr_file, Libc.snprintf_buf, MAX_PATH.
    change (256 - 1)%nat with 255%nat. split; [|split].
    + generalize (ubc_path ++ "/" ++ attr)%string. generalize 255%nat.
      intros n s. revert n. induction s as [|c s IH]; intros [|n]; simpl;
        try lia. specialize (IH n). lia.
    + intros Hfit. apply substring_0_all.
      rewrite !string_length_append. simpl. lia.
    + intros Hlong. apply substring_0_app. exact Hlong.
Qed.

Lemma sysfs_paths_witness :
  (String.length "/sys/devices/ub_bus_controller3/0003"%string
   + 1 + String.length "eid"%string <= 255)%nat /\
  attr_file "/sys/devices/ub_bus_controller3/0003"%string "eid"%string
  = "/sys/devices/ub_bus_controller3/0003/eid"%string.
Proof.
  assert (H : (String.length "/sys/devices/ub_bus_controller3/0003"%string
               + 1 + String.length "eid"%string <= 255)%nat) by (simpl; lia).
  split; [exact H|].
  exact (proj1 (proj2 (proj2 (proj2 (sysfs_paths Fixture.host initial_world)
                                "/sys/devices/ub_bus_controller3/0003"%string "eid"%string)))
           H).
Defined.

(* ================================================================== *)
(** ** Reading back what the kernel prints *)

Lemma list_ascii_of_string_app (a b : string) :
  list_ascii_of_string (a ++ b)
  = list_ascii_of_string a ++ list_ascii_of_string b.
Proof. induction a as [|c a IH]; simpl; [reflexivity|]. rewrite IH. reflexivity. Qed.

Lemma digits_length (d : Decimal.uint) :
  List.length (list_ascii_of_string (NilEmpty.string_of_uint d))
  = Decimal.nb_digits d.
Proof. induction d; simpl; congruence. Qed.

Lemma scan_digits_acc (d : Decimal.uint) (rest : list ascii) (acc : positive) :
  Libc.scan_digits 10
    (list_ascii_of_string (NilEmpty.string_of_uint d) ++ rest) (Zpos acc) true
  = Libc.scan_digits 10 rest (Zpos (Pos.of_uint_acc d acc)) true.
Proof.
  revert acc. induction d; intros acc; [reflexivity|..];
    cbn [NilEmpty.string_of_uint list_ascii_of_string app Libc.scan_digits];
    match goal with
    | |- context [Libc.digit_in 10 ?c] =>
        change (Libc.digit_in 10 c) with (Some (Libc.code c - 48))
    end; cbv beta iota; cbn [Pos.of_uint_acc]; rewrite <- IHd; f_equal;
    match goal with
    | |- context [Libc.code ?c] =>
        let v := eval vm_compute in (Libc.code c) in
        change (Libc.code c) with v
    end; lia.
Qed.

Lemma of_uint_acc_lower (d : Decimal.uint) (acc : positive) :
  Zpos acc * 10 ^ Z.of_nat (Decimal.nb_digits d)
  <= Zpos (Pos.of_uint_acc d acc).
Proof.
  revert acc. induction d; intros acc;
    cbn [Decimal.nb_digits Pos.of_uint_acc];
    [simpl; lia|..];
    rewrite Nat2Z.inj_succ, Z.pow_succ_r by lia;
    match goal with
    | |- _ <= Zpos (Pos.of_uint_acc _ ?a) => specialize (IHd a)
    end;
    pose proof (Z.pow_nonneg 10 (Z.of_nat (Decimal.nb_digits d))
                  ltac:(lia)) as Hp;
    nia.
Qed.

Lemma to_uint_head (p : positive) :
  match Pos.to_uint p with
  | Decimal.Nil | Decimal.D0 _ => False
  | _ => True
  end.
Proof.
  pose proof (Unsigned.to_of (Pos.to_uint p)) as Hn.
  rewrite Unsigned.of_to in Hn. cbn [N.to_uint] in Hn.
  pose proof (Unsigned.to_uint_nonzero p) as Hz.
  pose proof (Unsigned.to_uint_nonnil p) as Hnil.
  destruct (Pos.to_uint p) as [|d'| | | | | | | | |]; try exact I.
  - apply Hnil. reflexivity.
  - rewrite DecimalFacts.unorm_D0 in Hn.
    destruct d' as [|d''| | | | | | | | |];
      try (apply Hz; reflexivity);
      match type of Hn with
      | _ = Decimal.unorm ?u =>
          pose proof (DecimalFacts.nb_digits_unorm u ltac:(discriminate)) as Hle;
          rewrite <- Hn in Hle; cbn [Decimal.nb_digits] in Hle; lia
      end.
Qed.

Lemma strtol_plain (c : ascii) (s : list ascii) :
  Libc.isspace c = false ->
  Libc.code c <> 45 -> Libc.code c <> 43 -> Libc.code c <> 48 ->
  Libc.strtol (c :: s)
  = (let '(v, any) := Libc.scan_digits 10 (c :: s) 0 false in
     if any then Some (Libc.clamp_long v) else None).
Proof.
  intros Hs H45 H43 H48. unfold Libc.strtol.
  cbn [Libc.skip_spaces]. rewrite Hs.
  apply Z.eqb_neq in H45, H43, H48. rewrite H45, H43.
  destruct s as [|x [|h s']]; rewrite H48; reflexivity.
Qed.

Lemma strtol_minus (c : ascii) (s : list ascii) :
  Libc.code c <> 48 ->
  Libc.strtol ("-"%char :: c :: s)
  = (let '(v, any) := Libc.scan_digits 10 (c :: s) 0 false in
     if any then Some (Libc.clamp_long (- v)) else None).
Proof.
  intros H48. unfold Libc.strtol.
  cbn [Libc.skip_spaces].
  change (Libc.isspace "-") with false. cbv beta iota.
  change (Libc.code "-" =? 45) with true. cbv beta iota.
  apply Z.eqb_neq in H48.
  destruct s as [|x [|h s']]; rewrite H48; reflexivity.
Qed.

Lemma scan_digits_stop (rest : list ascii) (acc : Z) :
  Libc.scan_digits 10 (ascii_of_nat 10 :: rest) acc true = (acc, true).
Proof. reflexivity. Qed.

Lemma strtol_decimal (p : positive) (rest : list ascii) :
  let text := list_ascii_of_string (NilEmpty.string_of_uint (Pos.to_uint p))
              ++ ascii_of_nat 10 :: rest in
  Libc.strtol text = Some (Libc.clamp_long (Zpos p)) /\
  Libc.strtol ("-"%char :: text) = Some (Libc.clamp_long (Zneg p)).
Proof.
  cbv zeta. pose proof (to_uint_head p) as Hhead.
  pose proof (Unsigned.of_to p) as Hval.
  destruct (Pos.to_uint p) as [|l|l|l|l|l|l|l|l|l|l]; try contradiction;
    cbn [NilEmpty.string_of_uint list_ascii_of_string app];
    (rewrite strtol_plain, strtol_minus;
     [|discriminate|reflexivity|discriminate|discriminate|discriminate]);
    cbn [Libc.scan_digits];
    match goal with
    | |- context [Libc.digit_in 10 ?c] =>
        let v := eval vm_compute in (Libc.digit_in 10 c) in
        change (Libc.digit_in 10 c) with v
    end; cbv beta iota;
    match goal with
    | |- context [Libc.scan_digits 10 _ ?a true] =>
        let v := eval vm_compute in a in
        change a with v
    end;
    rewrite scan_digits_acc, scan_digits_stop;
    cbn [Pos.of_uint] in Hval; injection Hval as Hval; rewrite Hval;
    split; reflexivity.
Qed.

Lemma to_uint_digits (p : positive) :
  Zpos p <= 2147483648 -> (Decimal.nb_digits (Pos.to_uint p) <= 10)%nat.
Proof.
  intros Hp. pose proof (to_uint_head p) as Hhead.
  pose proof (Unsigned.of_to p) as Hval.
  destruct (Pos.to_uint p) as [|l|l|l|l|l|l|l|l|l|l]; try contradiction;
    cbn [Pos.of_uint] in Hval; injection Hval as Hval;
    cbn [Decimal.nb_digits];
    match type of Hval with
    | Pos.of_uint_acc _ ?k = _ =>
        pose proof (of_uint_acc_lower l k) as Hlow
    end;
    rewrite Hval in Hlow;
    destruct (Nat.le_gt_cases (Decimal.nb_digits l) 9) as [Hle|Hgt];
    try lia;
    exfalso;
    assert (Hpow : 10 ^ 10 <= 10 ^ Z.of_nat (Decimal.nb_digits l))
      by (apply Z.pow_le_mono_r; lia);
    change (10 ^ 10) with 10000000000 in Hpow; lia.
Qed.

Lemma firstn_decimal (d : Decimal.uint) (tail : string) (m : nat) :
  (Decimal.nb_digits d < m)%nat ->
  exists rest,
    firstn m
      (list_ascii_of_string
         (NilEmpty.string_of_uint d ++ String (ascii_of_nat 10) tail))
    = list_ascii_of_string (NilEmpty.string_of_uint d)
      ++ ascii_of_nat 10 :: rest.
Proof.
  intros Hd. rewrite list_ascii_of_string_app, firstn_app, digits_length.
  rewrite firstn_all2 by (rewrite digits_length; lia).
  cbn [list_ascii_of_string].
  destruct (m - Decimal.nb_digits d)%nat as [|k] eqn:Hk; [lia|].
  cbn [firstn]. eauto.
Qed.

Lemma clamp_long_int (v : Z) :
  INT_MIN <= v <= INT_MAX ->
  Libc.clamp_long v = v /\ (INT_MAX <? v) || (v <? INT_MIN) = false.
Proof.
  unfold Libc.clamp_long, LONG_MAX, LONG_MIN, INT_MIN, INT_MAX. intros Hv.
  destruct (Z.ltb_spec 9223372036854775807 v); [lia|].
  destruct (Z.ltb_spec v (-9223372036854775808)); [lia|].
  destruct (Z.ltb_spec 2147483647 v); [lia|].
  destruct (Z.ltb_spec v (-2147483648)); [lia|]. auto.
Qed.

Lemma read_int_decimal (E : env) (path : string) (n : Z) (tail : string)
    (w : world) :
  INT_MIN <= n <= INT_MAX ->
  sys_file E path
  = Some (Libc.fmt_d n ++ String (ascii_of_nat 10) tail)%string ->
  fst (read_int_from_file E path w) = n.
Proof.
  intros Hn Hf. rewrite read_int_from_file_run. cbn [fst].
  unfold read_int_from_file. run. cbn [fst]. rewrite Hf.
  destruct (clamp_long_int n Hn) as [Hclamp Hin].
  unfold Libc.fmt_d.
  destruct n as [|p|p].
  - change (list_ascii_of_string
              (NilZero.string_of_int (Z.to_int 0)
               ++ String (ascii_of_nat 10) tail))
      with ("0"%char :: ascii_of_nat 10 :: list_ascii_of_string tail).
    change (firstn (MAX_CHAR - 1)
              ("0"%char :: ascii_of_nat 10 :: list_ascii_of_string tail))
      with ("0"%char :: ascii_of_nat 10
            :: firstn 61 (list_ascii_of_string tail)).
    generalize (firstn 61 (list_ascii_of_string tail)). intros r.
    destruct r; reflexivity.
  - pose proof (to_uint_head p) as Hhead.
    assert (Hd : (Decimal.nb_digits (Pos.to_uint p) < MAX_CHAR - 1)%nat).
    { pose proof (to_uint_digits p) as Hd. unfold INT_MAX in Hn.
      unfold MAX_CHAR. lia. }
    destruct (firstn_decimal (Pos.to_uint p) tail _ Hd) as [rest Hrest].
    cbn [Z.to_int NilZero.string_of_int].
    assert (Hs : NilZero.string_of_uint (Pos.to_uint p)
                 = NilEmpty.string_of_uint (Pos.to_uint p))
      by (destruct (Pos.to_uint p); [contradiction|reflexivity..]).
    rewrite Hs, Hrest.
    rewrite (proj1 (strtol_decimal p rest)), Hclamp, Hin.
    destruct (Pos.to_uint p); try contradiction; reflexivity.
  - pose proof (to_uint_head p) as Hhead.
    assert (Hd : (Decimal.nb_digits (Pos.to_uint p) < 62)%nat).
    { pose proof (to_uint_digits p) as Hd. unfold INT_MIN in Hn. lia. }
    destruct (firstn_decimal (Pos.to_uint p) tail _ Hd) as [rest Hrest].
    cbn [Z.to_int NilZero.string_of_int].
    assert (Hs : NilZero.string_of_uint (Pos.to_uint p)
                 = NilEmpty.string_of_uint (Pos.to_uint p))
      by (destruct (Pos.to_uint p); [contradiction|reflexivity..]).
    rewrite Hs.
    change (list_ascii_of_string
              (String "-" (NilEmpty.string_of_uint (Pos.to_uint p))
               ++ String (ascii_of_nat 10) tail))
      with ("-"%char
            :: list_ascii_of_string
                 (NilEmpty.string_of_uint (Pos.to_uint p)
                  ++ String (ascii_of_nat 10) tail)).
    match goal with
    | |- context [firstn (MAX_CHAR - 1) (?c :: ?l)] =>
        change (firstn (MAX_CHAR - 1) (c :: l)) with (c :: firstn 62 l)
    end.
    rewrite Hrest.
    rewrite (proj2 (strtol_decimal p rest)), Hclamp, Hin. reflexivity.
Qed.

(** X18.  A sysfs attribute is read back as the kernel prints it with
    [%d\n].  For every [n] in the range of [int], a file that holds the
    decimal text of [n] followed by a newline, and anything after it,
    makes [read_int_from_file] return [n], negative numbers included, so
    that [-1] printed in the file cannot be told from a failure to read;
    [get_ubc_attr] returns [n] for the attribute file of that content. *)
Theorem reads_back_decimal (E : env) (n : Z) (tail : string) :
  INT_MIN <= n <= INT_MAX ->
  let content := (Libc.fmt_d n ++ String (ascii_of_nat 10) tail)%string in
  (forall path w,
     sys_file E path = Some content ->
     fst (read_int_from_file E path w) = n) /\
  (forall ubc_path attr w,
     sys_file E (attr_file ubc_path attr) = Some content ->
     fst (get_ubc_attr E ubc_path attr w) = n).
Proof.
  intros Hn. cbv zeta. split.
  - intros path w Hf. exact (read_int_decimal E path n tail w Hn Hf).
  - intros ubc_path attr w Hf. rewrite get_ubc_attr_run. cbn [fst].
    unfold attr_value, get_ubc_attr.
    pose proof (string_length_app_cons ubc_path "/" attr) as Hlen.
    change (String "/" attr) with ("/" ++ attr)%string in Hlen.
    destruct (Z.of_nat _ <=? 0) eqn:Hz; [apply Z.leb_le in Hz; lia|].
    exact (read_int_decimal E _ n tail initial_world Hn Hf).
Qed.

Lemma reads_back_decimal_witness :
  INT_MIN <= 3 <= INT_MAX /\
  sys_file Fixture.host
    (attr_file "/sys/devices/ub_bus_controller3/0000:03" "ummu_map")
  = Some (Libc.fmt_d 3 ++ String (ascii_of_nat 10) "")%string /\
  fst (get_ubc_attr Fixture.host "/sys/devices/ub_bus_controller3/0000:03"
         "ummu_map" initial_world) = 3.
Proof.
  assert (Hn : INT_MIN <= 3 <= INT_MAX) by (unfold INT_MIN, INT_MAX; lia).
  assert (Hf : sys_file Fixture.host
                 (attr_file "/sys/devices/ub_bus_controller3/0000:03"
                    "ummu_map")
               = Some (Libc.fmt_d 3 ++ String (ascii_of_nat 10) "")%string)
    by (vm_compute; reflexivity).
  split; [exact Hn|]. split; [exact Hf|].
  exact (proj2 (reads_back_decimal Fixture.host 3 "" Hn)
           "/sys/devices/ub_bus_controller3/0000:03"%string
           "ummu_map"%string initial_world Hf).
Defined.
